(** * koa-documentation-protocol: route scanner, example synthesizer and
      API-blueprint emitter

    A shallow embedding of [src/parser.ts], [src/examples.ts] and
    [src/emitter.ts], and the properties of the specification checked
    against it.

    Conventions of the embedding
    - JavaScript strings are [string]s of code units below 256.
    - JavaScript numbers that the program handles (line numbers, status
      codes, the configured number default) are integers [Z]; the value
      of [Math.min()] of no argument is kept as [Infinity].  A Number is
      a double: an integer of at most [2^53] in absolute value is held
      exactly.  A status code beyond that stands for the double nearest
      to the integer that [parseInt] read; the program only prints such
      a number, and what is printed is the platform's.
    - An exception is an [Exn]; a function that logs, writes to the output
      stream or throws lives in the trace monad [M].
    - The collaborators whose code is not part of the repository
      (comment-parser's [parse], the schema generator, the compiler's
      [getLeadingCommentRanges] and line map, [JSON.stringify],
      [path.join], [encodeURI], ...) are the fields of a [Platform]. *)

From Stdlib Require Import ZArith Lia List Bool Ascii String DecimalString.
From stdpp Require Import base option gmap strings.
Import ListNotations.

Set Warnings "-register-all".

Local Open Scope string_scope.
Local Open Scope Z_scope.
Local Open Scope list_scope.

(* ===================================================================== *)
(** ** JavaScript string primitives used by the program *)
(* ===================================================================== *)

Module Js.

Definition eqc (a b : ascii) : bool := Ascii.eqb a b.

Definition newline : ascii := "010"%char.
Definition slash : ascii := "/"%char.
Definition colon : ascii := ":"%char.

(** White space as [\s] and [String.prototype.trim] see it, restricted
    to code units below 256: TAB, LF, VT, FF, CR, SPACE and NBSP. *)
Definition is_whitespace (c : ascii) : bool :=
  let n := nat_of_ascii c in
  (Nat.eqb n 9 || Nat.eqb n 10 || Nat.eqb n 11 || Nat.eqb n 12
   || Nat.eqb n 13 || Nat.eqb n 32 || Nat.eqb n 160)%bool.

Definition is_digit (c : ascii) : bool :=
  let n := nat_of_ascii c in (Nat.leb 48 n && Nat.leb n 57)%bool.

(** [s.includes(c)] for a one-character needle. *)
Fixpoint includes (c : ascii) (s : string) : bool :=
  match s with
  | EmptyString => false
  | String d r => (eqc d c || includes c r)%bool
  end.

(** Some code unit of [s] satisfies [p]. *)
Fixpoint some_char (p : ascii -> bool) (s : string) : bool :=
  match s with
  | EmptyString => false
  | String d r => (p d || some_char p r)%bool
  end.

(** A string in a boolean context: only the empty string is falsy. *)
Definition truthy (s : string) : bool :=
  match s with EmptyString => false | _ => true end.

Fixpoint trimStart (s : string) : string :=
  match s with
  | String c r => if is_whitespace c then trimStart r else s
  | EmptyString => EmptyString
  end.

Fixpoint trimEnd (s : string) : string :=
  match s with
  | EmptyString => EmptyString
  | String c r =>
      match trimEnd r with
      | EmptyString => if is_whitespace c then EmptyString else String c EmptyString
      | r' => String c r'
      end
  end.

Definition trim (s : string) : string := trimEnd (trimStart s).

(** [toUpperCase] on the letters a-z; other code units are unchanged. *)
Definition upper (c : ascii) : ascii :=
  let n := nat_of_ascii c in
  if (Nat.leb 97 n && Nat.leb n 122)%bool then ascii_of_nat (n - 32) else c.

Fixpoint toUpperCase (s : string) : string :=
  match s with
  | EmptyString => EmptyString
  | String c r => String (upper c) (toUpperCase r)
  end.

(** The longest prefix made of white space: what [(\s* )] captures. *)
Fixpoint whitespace_run (s : string) : string :=
  match s with
  | String c r => if is_whitespace c then String c (whitespace_run r) else EmptyString
  | EmptyString => EmptyString
  end.

Fixpoint strip_prefix (p s : string) : option string :=
  match p, s with
  | EmptyString, _ => Some s
  | String a p', String b s' => if eqc a b then strip_prefix p' s' else None
  | String _ _, EmptyString => None
  end.

(** [src.match(new RegExp(lit + '(\\s* )'))] for a literal [lit] without
    regular-expression metacharacters: the leftmost occurrence of [lit]
    and, as capture group 1, the white space that follows it. *)
Fixpoint match_then_whitespace (lit src : string) : option string :=
  match strip_prefix lit src with
  | Some rest => Some (whitespace_run rest)
  | None =>
      match src with
      | EmptyString => None
      | String _ r => match_then_whitespace lit r
      end
  end.


(** [s.substring(start, end)]: the two indices are swapped when
    [start > end] and clamped to the length of [s]. *)
Definition substring (start end_ : nat) (s : string) : string :=
  String.substring (Nat.min start end_)
                   (Nat.max start end_ - Nat.min start end_) s.

(** [s.includes(sub)] *)
Fixpoint includes_string (sub s : string) : bool :=
  match strip_prefix sub s with
  | Some _ => true
  | None =>
      match s with
      | EmptyString => false
      | String _ r => includes_string sub r
      end
  end.

(** Value of a digit in radix 10 or 16. *)
Definition digit_value (radix : Z) (c : ascii) : option Z :=
  let n := Z.of_nat (nat_of_ascii c) in
  let v :=
    if (48 <=? n) && (n <=? 57) then Some (n - 48)
    else if (97 <=? n) && (n <=? 102) then Some (n - 87)
    else if (65 <=? n) && (n <=? 70) then Some (n - 55)
    else None in
  match v with
  | Some d => if d <? radix then Some d else None
  | None => None
  end.

(** Reads the longest prefix of digits; [acc] is [None] until a digit
    has been read. *)
Fixpoint read_digits (radix : Z) (acc : option Z) (s : string) : option Z :=
  match s with
  | EmptyString => acc
  | String c r =>
      match digit_value radix c with
      | Some d =>
          read_digits radix
            (Some (match acc with Some a => a * radix + d | None => d end)) r
      | None => acc
      end
  end.

Definition strip_hex_prefix (s : string) : option string :=
  match s with
  | String "0" (String "x" r) => Some r
  | String "0" (String "X" r) => Some r
  | _ => None
  end.

Definition parse_unsigned (s : string) : option Z :=
  match strip_hex_prefix s with
  | Some r => read_digits 16 None r
  | None => read_digits 10 None s
  end.

(** [parseInt(s)] without a radix argument: the integer that the digits
    denote; [None] is [NaN]. *)
Definition parseInt (s : string) : option Z :=
  match trimStart s with
  | String "-" r => option_map Z.opp (parse_unsigned r)
  | String "+" r => parse_unsigned r
  | t => parse_unsigned t
  end.

(** An integer of at most [2^53] in absolute value: a double holds it
    exactly, so it is the Number that [parseInt] returns for its digits,
    and it prints as its decimal text. *)
Definition exact (n : Z) : bool := Z.abs n <=? 2 ^ 53.

(** The decimal text of an integer, as string concatenation and
    template literals print an [exact] one. *)
Definition numberToString (n : Z) : string :=
  NilZero.string_of_int (Z.to_int n).

End Js.

(* ===================================================================== *)
(** ** emitter.ts: placeholder conversion *)
(* ===================================================================== *)

(** [path.replace(/:([^/]+)/g, '{$1}')].

    [formatPath] copies the text outside a match.  A match starts at a
    [:] whose next character exists and is not [/]; [formatPath_group]
    then copies the group, which extends greedily up to the next [/] or
    to the end of the string, and closes the brace.  The [/] that ends a
    group cannot start a match, so it is copied. *)
Definition starts_group (s : string) : bool :=
  match s with
  | String d _ => negb (Js.eqc d Js.slash)
  | EmptyString => false
  end.

Fixpoint formatPath (s : string) : string :=
  match s with
  | EmptyString => EmptyString
  | String c rest =>
      if (Js.eqc c Js.colon && starts_group rest)%bool
      then String "{" (formatPath_group rest)
      else String c (formatPath rest)
  end
with formatPath_group (r : string) : string :=
  match r with
  | EmptyString => String "}" EmptyString
  | String d r' =>
      if Js.eqc d Js.slash
      then String "}" (String d (formatPath r'))
      else String d (formatPath_group r')
  end.

(** Every [/]-separated segment of the path holds at most one [:].
    [one_colon_per_segment] scans a segment in which no colon has been
    seen, [no_colon_in_segment] the rest of a segment after its colon. *)
Fixpoint one_colon_per_segment (s : string) : bool :=
  match s with
  | EmptyString => true
  | String c r =>
      if Js.eqc c Js.colon then no_colon_in_segment r
      else one_colon_per_segment r
  end
with no_colon_in_segment (s : string) : bool :=
  match s with
  | EmptyString => true
  | String c r =>
      if Js.eqc c Js.colon then false
      else if Js.eqc c Js.slash then one_colon_per_segment r
      else no_colon_in_segment r
  end.

(* ===================================================================== *)
(** ** Values, schemas and configuration *)
(* ===================================================================== *)

(** A JSON-like JavaScript value.  An object keeps its keys in insertion
    order. *)
Inductive JsValue : Type :=
| JNull
| JBool (b : bool)
| JNum (n : Z)
| JStr (s : string)
| JArr (elems : list JsValue)
| JObj (fields : list (string * JsValue)).

(** A value in a boolean context. *)
Definition js_truthy (v : JsValue) : bool :=
  match v with
  | JNull => false
  | JBool b => b
  | JNum n => negb (n =? 0)
  | JStr s => Js.truthy s
  | JArr _ | JObj _ => true
  end.

(** [obj[k] = v]: overwrite in place, or append a new key. *)
Fixpoint obj_set (k : string) (v : JsValue) (o : list (string * JsValue))
  : list (string * JsValue) :=
  match o with
  | [] => [(k, v)]
  | (k', v') :: o' =>
      if String.eqb k' k then (k, v) :: o' else (k', v') :: obj_set k v o'
  end.

Fixpoint obj_get (k : string) (o : list (string * JsValue)) : option JsValue :=
  match o with
  | [] => None
  | (k', v') :: o' => if String.eqb k' k then Some v' else obj_get k o'
  end.

(** The [type] keyword of a schema: absent, one name, or a list of names. *)
Inductive SchemaType : Type :=
| TyAbsent
| TyName (name : string)
| TyList (names : list string).

Inductive AdditionalOf (S : Type) : Type :=
| APAbsent
| APBool (b : bool)
| APSchema (s : S).

Inductive ItemsOf (S : Type) : Type :=
| ItemsAbsent
| ItemsOne (s : S)
| ItemsMany (l : list S).

Arguments APAbsent {S}.
Arguments APBool {S} b.
Arguments APSchema {S} s.
Arguments ItemsAbsent {S}.
Arguments ItemsOne {S} s.
Arguments ItemsMany {S} l.

(** The part of [tjs.Definition] that the program reads.  [properties]
    lists the keys in [Object.keys] order. *)
Inductive Schema : Type :=
| MkSchema (type : SchemaType)
           (properties : option (list (string * Schema)))
           (additionalProperties : AdditionalOf Schema)
           (items : ItemsOf Schema).

Definition schema_type (s : Schema) : SchemaType :=
  match s with MkSchema t _ _ _ => t end.
Definition schema_properties (s : Schema) : option (list (string * Schema)) :=
  match s with MkSchema _ p _ _ => p end.
Definition schema_additionalProperties (s : Schema) : AdditionalOf Schema :=
  match s with MkSchema _ _ a _ => a end.
Definition schema_items (s : Schema) : ItemsOf Schema :=
  match s with MkSchema _ _ _ i => i end.

(** config.ts *)
Record ConfigDefaults : Type := {
  default_number : Z;
  default_string : string;
  default_boolean : bool;
  default_jsonKey : string
}.

Record ConfigExamples : Type := {
  examples_response : gmap string JsValue;
  examples_param : gmap string string
}.

Record Config : Type := {
  cfg_output : string;
  cfg_host : option string;
  cfg_title : option string;
  cfg_description : option string;
  cfg_defaults : ConfigDefaults;
  cfg_examples : ConfigExamples;
  cfg_afterHook : option string
}.

(* ===================================================================== *)
(** ** The documentation data model (namespace Documentation) *)
(* ===================================================================== *)

Module Documentation.

Record Param : Type := {
  param_query : bool;
  param_name : string;
  param_type : string;
  param_description : string;
  param_example : string
}.

Record Response : Type := {
  res_code : Z;
  res_when : option string;
  res_type : option string;
  res_body : JsValue;
  res_schema : option Schema
}.

Record RequestBody : Type := {
  rb_type : option string;
  rb_body : JsValue;
  rb_schema : option Schema
}.

Record Block : Type := {
  blk_method : string;
  blk_path : string;
  blk_title : string;
  blk_description : string;
  blk_params : list Param;
  blk_responses : list Response;
  blk_body : option RequestBody
}.

Record Group : Type := {
  grp_path : string;
  grp_methods : list Block
}.

Record Router : Type := {
  rt_path : string;
  rt_title : string;
  rt_description : option string;
  rt_routes : list Group
}.

End Documentation.
Import Documentation.

(* ===================================================================== *)
(** ** The syntax tree and the parsed comments, as the scanner sees them *)
(* ===================================================================== *)

(** A line number: [Math.min()] of no comment range is [Infinity]. *)
Inductive LineNo : Type :=
| Infinity
| Line (n : Z).

Definition line_add (l : LineNo) (k : Z) : LineNo :=
  match l with
  | Infinity => Infinity
  | Line n => Line (n + k)
  end.

Definition line_min (a b : LineNo) : LineNo :=
  match a, b with
  | Infinity, _ => b
  | _, Infinity => a
  | Line x, Line y => Line (Z.min x y)
  end.

(** A tag of comment-parser. *)
Record Tag : Type := {
  tag_tag : string;
  tag_name : string;
  tag_type : string;
  tag_description : string;
  tag_line : Z;
  tag_source : string
}.

Record Comment : Type := {
  comment_description : string;
  comment_tags : list Tag
}.

(** The identity of a declared variable, as the type checker resolves it. *)
Definition Symbol : Type := nat.

(** The identity of a routing object at run time.  The scanner never
    sees it; it serves to state what aliasing does. *)
Definition ObjectId : Type := nat.

Record JSDocTagInfo : Type := {
  jsdoc_name : string;
  jsdoc_text : option string
}.

(** [ts.CommentRange]: the offsets at which a comment starts and ends
    in the text that was scanned. *)
Record CommentRange : Type := {
  range_pos : nat;
  range_end : nat
}.

Inductive ChildNode : Type :=
| Identifier (text : string)
| OtherChild.

Inductive Argument : Type :=
| StringLiteral (text : string)
| OtherArgument.

(** What the scanner reads of a call expression [recv.method(args)]:
    [getStart()] and [getFullStart()], the offsets in the text of the
    file of its first token and of the white space and comments in front
    of it; the symbol and printed type of [expression.getChildAt(0)], the
    number of children of [expression], [expression.getChildAt(2)], and
    the arguments. *)
Record CallExpr : Type := {
  call_start : Z;
  call_fullStart : nat;
  receiverSymbol : option Symbol;
  receiverObject : ObjectId;
  receiverType : string;
  calleeChildCount : nat;
  calleeMethod : ChildNode;
  call_arguments : list Argument
}.

Inductive NodeKind : Type :=
| CallExpression (c : CallExpr)
| OtherKind.

Inductive Node : Type :=
| MkNode (kind : NodeKind) (children : list Node).

(** A source file: its name, its text, the offset [getStart()] of its
    first token, and its statements. *)
Record SourceFile : Type := {
  fileName : string;
  fileText : string;
  fileStart : nat;
  fileChildren : list Node
}.

(** [sourceFile.getText()].  The text of a node runs from its first
    token to its end, so the text of a source file leaves out the white
    space and the comments that the file begins with. *)
Definition getText (sourceFile : SourceFile) : string :=
  Js.substring (fileStart sourceFile) (String.length (fileText sourceFile))
               (fileText sourceFile).

(** The same file with other statements. *)
Definition with_children (sourceFile : SourceFile) (children : list Node)
  : SourceFile :=
  {| fileName := fileName sourceFile; fileText := fileText sourceFile;
     fileStart := fileStart sourceFile; fileChildren := children |}.

(** A place in a syntax tree.  A frame is a node on the way down to the
    place, with the siblings in front of it and behind it; [plug] puts a
    list of nodes at the place, and [before] cuts the tree off behind
    it. *)
Record Frame : Type := {
  frame_before : list Node;
  frame_kind : NodeKind;
  frame_after : list Node
}.

Fixpoint plug (frames : list Frame) (inner : list Node) : list Node :=
  match frames with
  | [] => inner
  | frame :: frames' =>
      frame_before frame
      ++ MkNode (frame_kind frame) (plug frames' inner) :: frame_after frame
  end.

Definition before (frames : list Frame) : list Frame :=
  map (fun frame => {| frame_before := frame_before frame;
                       frame_kind := frame_kind frame; frame_after := [] |})
      frames.

Record Position : Type := {
  pos_line : LineNo;
  pos_sourceFile : SourceFile
}.

(* ===================================================================== *)
(** ** Effects: diagnostics, output stream, exceptions *)
(* ===================================================================== *)

Inductive Exn : Type :=
| NiceError
| Error (message : string).

Inductive Outcome (A : Type) : Type :=
| Return (a : A)
| Throw (e : Exn).
Arguments Return {A} a.
Arguments Throw {A} e.

(** [e.message] *)
Definition exn_message (e : Exn) : string :=
  match e with
  | Error message => message
  | NiceError => EmptyString
  end.

Inductive DiagnosticCategory : Type := Warning | ErrorCategory.

Inductive DiagnosticAt : Type :=
| AtNode (start : Z)
| AtLine (line : LineNo).

(** A call of logger.ts. *)
Record Diagnostic : Type := {
  diag_category : DiagnosticCategory;
  diag_file : string;
  diag_at : DiagnosticAt;
  diag_message : string
}.

Inductive Event : Type :=
| Report (d : Diagnostic)
| Write (chunk : string).

(** A computation yields the events it caused, in order, and how it
    ended.  The events before a throw are kept. *)
Definition M (A : Type) : Type := (list Event * Outcome A)%type.

Definition ret {A} (a : A) : M A := ([], Return a).
Definition throw {A} (e : Exn) : M A := ([], Throw e).
Definition tell (ev : Event) : M unit := ([ev], Return tt).

Definition bind {A B} (m : M A) (k : A -> M B) : M B :=
  match m with
  | (evs, Return a) => let '(evs', o) := k a in (evs ++ evs', o)
  | (evs, Throw e) => (evs, Throw e)
  end.

Declare Scope m_scope.
Delimit Scope m_scope with M.
Notation "x <- c1 ;; c2" := (bind c1 (fun x => c2))
  (at level 100, c1 at next level, right associativity) : m_scope.
Notation "c1 ;;; c2" := (bind c1 (fun _ => c2))
  (at level 100, right associativity) : m_scope.

(** [try { ... } catch (e) { if (e instanceof NiceError) return undefined;
    throw e }] *)
Definition catchNice {A} (m : M (option A)) : M (option A) :=
  match m with
  | (evs, Throw NiceError) => (evs, Return None)
  | other => other
  end.

(** [list.map(f)] where [f] may throw: left to right, stops at the first
    throw. *)
Definition mapM {A B} (f : A -> M B) : list A -> M (list B) :=
  fix go (l : list A) : M (list B) :=
    match l with
    | [] => ret []
    | x :: l' => (y <- f x ;; ys <- go l' ;; ret (y :: ys))%M
    end.

(** [list.forEach(f)] for an [f] that updates a state [S]. *)
Definition foldM {A S} (f : A -> S -> M S) : list A -> S -> M S :=
  fix go (l : list A) (s : S) : M S :=
    match l with
    | [] => ret s
    | x :: l' => (s' <- f x s ;; go l' s')%M
    end.

Definition events {A} (m : M A) : list Event := fst m.
Definition outcome {A} (m : M A) : Outcome A := snd m.

Definition reports (evs : list Event) : list Diagnostic :=
  flat_map (fun ev => match ev with Report d => [d] | Write _ => [] end) evs.

Definition written (evs : list Event) : list string :=
  flat_map (fun ev => match ev with Write s => [s] | Report _ => [] end) evs.

(** logger.ts *)
Definition warn (sourceFile : SourceFile) (node : CallExpr) (message : string) : M unit :=
  tell (Report {| diag_category := Warning; diag_file := fileName sourceFile;
                  diag_at := AtNode (call_start node); diag_message := message |}).

Definition lineError (sourceFile : SourceFile) (line : LineNo) (message : string)
  : Diagnostic :=
  {| diag_category := ErrorCategory; diag_file := fileName sourceFile;
     diag_at := AtLine line; diag_message := message |}.

Definition errLine (sourceFile : SourceFile) (line : LineNo) (message : string) : M unit :=
  tell (Report (lineError sourceFile line message)).

(* ===================================================================== *)
(** ** Collaborators outside the repository *)
(* ===================================================================== *)

Record Platform : Type := {
  (** comment-parser *)
  parse : string -> list Comment;
  (** [ts.getLeadingCommentRanges(text, pos) || []] *)
  getLeadingCommentRanges : string -> nat -> list CommentRange;
  (** [sourceFile.getLineAndCharacterOfPosition(pos).line], which the
      compiler reads off the line starts of the text of the file *)
  lineOfPosition : string -> nat -> Z;
  (** For a number [n] that is not [Js.exact]: its text [String(n)], and
      the white space that [source.match] captures for the regular
      expression built from that text *)
  inexact_text : Z -> string;
  inexact_match : Z -> string -> option string;
  (** [generator.getSchemaForSymbol]: the schema, or the message of the
      error it throws *)
  getSchemaForSymbol : string -> string + Schema;
  (** [JSON.stringify(schema)] and [JSON.stringify(schema, null, 2)] *)
  JSON_stringify : Schema -> string;
  JSON_stringify_indented : Schema -> string;
  (** [symbol.getJsDocTags()] and the text of
      [symbol.getDocumentationComment] *)
  getJsDocTags : Symbol -> list JSDocTagInfo;
  getDocumentationComment : Symbol -> string;
  (** node's [path.join] *)
  path_join : string -> string -> string;
  encodeURI : string -> string;
  encodeURIComponent : string -> string;
  (** json-stable-stringify with [space: 2] *)
  stringify : JsValue -> string;
  stringify_schema : Schema -> string
}.

(* ===================================================================== *)
(** ** examples.ts *)
(* ===================================================================== *)

Inductive SchemaKind : Type :=
| KObject | KArray | KNumber | KString | KBoolean | KOther.

(** [let type = schema.type;
     if (Array.isArray(schema.type) && schema.type.length) type = schema.type[0]] *)
Definition effective_type (t : SchemaType) : SchemaType :=
  match t with
  | TyList (first :: _) => TyName first
  | other => other
  end.

(** The [case] labels of the [switch]. *)
Definition kind_of (t : SchemaType) : SchemaKind :=
  match t with
  | TyName n =>
      if String.eqb n "object" then KObject
      else if String.eqb n "array" then KArray
      else if String.eqb n "number" then KNumber
      else if String.eqb n "string" then KString
      else if String.eqb n "boolean" then KBoolean
      else KOther
  | _ => KOther
  end.

(** [`${type}`] *)
Definition type_to_string (t : SchemaType) : string :=
  match t with
  | TyAbsent => "undefined"
  | TyName n => n
  | TyList names => String.concat "," names
  end.

(** [name && examples.hasOwnProperty(name)], and then [examples[name]]. *)
Definition named_example (examples : gmap string JsValue) (name : option string)
  : option JsValue :=
  match name with
  | Some n => if Js.truthy n then examples !! n else None
  | None => None
  end.

Definition or_default (o : option JsValue) (d : JsValue) : Outcome JsValue :=
  match o with
  | Some v => Return v
  | None => Return d
  end.

Section Synthesizer.

Context (P : Platform) (config : Config).

Let examples := examples_response (cfg_examples config).
Let defaults := cfg_defaults config.

(** [createSchemaExample(schema, config, name?)].  Reading [schema.type]
    of the [undefined] item schema of an array without [items] throws a
    [TypeError]. *)
Fixpoint createSchemaExample (schema : Schema) (name : option string)
  {struct schema} : Outcome JsValue :=
  match schema with
  | MkSchema ty properties additionalProperties items =>
      let type := effective_type ty in
      match kind_of type with
      | KObject =>
          let reduce :=
            fix reduce (props : list (string * Schema))
                       (obj : list (string * JsValue))
              : Outcome (list (string * JsValue)) :=
              match props with
              | [] => Return obj
              | (prop, sub) :: props' =>
                  match createSchemaExample sub (Some prop) with
                  | Return v => reduce props' (obj_set prop v obj)
                  | Throw e => Throw e
                  end
              end in
          let res :=
            match properties with
            | Some props => reduce props []
            | None => Return []
            end in
          match res with
          | Throw e => Throw e
          | Return obj =>
              match additionalProperties with
              | APSchema extra =>
                  match createSchemaExample extra None with
                  | Return v => Return (JObj (obj_set (default_jsonKey defaults) v obj))
                  | Throw e => Throw e
                  end
              | _ => Return (JObj obj)
              end
          end
      | KArray =>
          match named_example examples name with
          | Some ex => Return ex
          | None =>
              match items with
              | ItemsMany l =>
                  let map :=
                    fix map (l : list Schema) : Outcome (list JsValue) :=
                      match l with
                      | [] => Return []
                      | item :: l' =>
                          match createSchemaExample item None with
                          | Return v =>
                              match map l' with
                              | Return vs => Return (v :: vs)
                              | Throw e => Throw e
                              end
                          | Throw e => Throw e
                          end
                      end in
                  match map l with
                  | Return vs => Return (JArr vs)
                  | Throw e => Throw e
                  end
              | ItemsOne item =>
                  match createSchemaExample item None with
                  | Return v => Return (JArr [v])
                  | Throw e => Throw e
                  end
              | ItemsAbsent =>
                  Throw (Error "Cannot read property 'type' of undefined")
              end
          end
      | KNumber => or_default (named_example examples name) (JNum (default_number defaults))
      | KString => or_default (named_example examples name) (JStr (default_string defaults))
      | KBoolean => or_default (named_example examples name) (JBool (default_boolean defaults))
      | KOther =>
          Throw (Error ("Unexpected type " +:+ type_to_string type +:+
                        " in schema " +:+ JSON_stringify P schema))
      end
  end.

End Synthesizer.

(* ===================================================================== *)
(** ** parser.ts *)
(* ===================================================================== *)

Definition ROUTER_TYPE : string := "Router".
Definition ROUTER_METHODS : list string := ["get"; "post"; "put"; "patch"; "delete"].

Definition string_in (s : string) (l : list string) : bool :=
  existsb (String.eqb s) l.

Fixpoint splitByFirstNewline (str : string) : string * option string :=
  match str with
  | EmptyString => (EmptyString, None)
  | String c r =>
      if Js.eqc c Js.newline then (EmptyString, Some r)
      else let '(first, rest) := splitByFirstNewline r in (String c first, rest)
  end.

(** [s || null] and [s || ''] for a string that may be [undefined]. *)
Definition nonempty (s : string) : option string :=
  if Js.truthy s then Some s else None.

Definition or_empty (o : option string) : string :=
  match o with
  | Some s => s
  | None => EmptyString
  end.

(** [text || body] where [text] may be [undefined]. *)
Definition text_or (text : option string) (body : JsValue) : JsValue :=
  match text with
  | Some s => if Js.truthy s then JStr s else body
  | None => body
  end.

Definition getPosition (sourceFile : SourceFile) (line : LineNo) : Position :=
  {| pos_line := line; pos_sourceFile := sourceFile |}.

(** [parseParam(tag, query, config)] *)
Definition parseParam (tag : Tag) (query : bool) (config : Config) : Param :=
  let examples := examples_param (cfg_examples config) in
  let example :=
    match examples !! tag_name tag with
    | Some ex => ex
    | None => default_string (cfg_defaults config)
    end in
  {| param_name := tag_name tag; param_type := tag_type tag;
     param_description := tag_description tag; param_query := query;
     param_example := example |}.

(** [tag.name.match] of the pattern "an opening brace at the start, any
    text without line terminator, a closing brace at the end": the text
    between the braces. *)
Definition is_line_terminator (c : ascii) : bool :=
  let n := nat_of_ascii c in (Nat.eqb n 10 || Nat.eqb n 13)%bool.

Fixpoint before_closing_brace (s : string) : option string :=
  match s with
  | EmptyString => None
  | String c EmptyString => if Js.eqc c "}" then Some EmptyString else None
  | String c r =>
      if is_line_terminator c then None
      else option_map (String c) (before_closing_brace r)
  end.

Definition brace_content (s : string) : option string :=
  match s with
  | String "{" r => before_closing_brace r
  | _ => None
  end.

(** The first half of [parseBody]: the content type and the data-type
    name of a [@body] tag, read from [tag.type] and then from the braces of
    [tag.name]; [None] when [tag.name] is not wrapped in braces. *)
Definition body_types (tag : Tag) : option (option string * option string) :=
  let '(contentType, typescriptType) :=
    if Js.truthy (tag_type tag) then
      if Js.includes Js.slash (tag_type tag)
      then (Some (tag_type tag), None)
      else (None, Some (tag_type tag))
    else (None, None) in
  if Js.truthy (tag_name tag) then
    match brace_content (tag_name tag) with
    | None => None
    | Some tagContent =>
        if Js.includes Js.slash tagContent
        then Some (Some tagContent, typescriptType)
        else Some (contentType, Some tagContent)
    end
  else Some (contentType, typescriptType).

(** [type && !type.includes('/')]: the tag names a data type. *)
Definition structural_type (type : string) : bool :=
  (Js.truthy type && negb (Js.includes Js.slash type))%bool.

(** [`${n}`] for a number [n] read by [parseInt]. *)
Definition number_text (P : Platform) (n : Z) : string :=
  if Js.exact n then Js.numberToString n else inexact_text P n.

(** [source.match(new RegExp(n + '(\\s* )'))]: group 1 of the match, for
    a number [n] read by [parseInt]. *)
Definition whitespace_after (P : Platform) (n : Z) (source : string)
  : option string :=
  if Js.exact n then Js.match_then_whitespace (Js.numberToString n) source
  else inexact_match P n source.

Section Parser.

Context (P : Platform) (config : Config).

(** The two [try] blocks shared by [parseResponse] and [parseBody]:
    resolve the schema of a type name and synthesize its example. *)
Definition resolveSchema (position : Position) (tag : Tag) (typeName : string)
  : M (Schema * JsValue) :=
  let line := line_add (pos_line position) (tag_line tag) in
  match getSchemaForSymbol P typeName with
  | inl message =>
      (errLine (pos_sourceFile position) line
         ("Error: In generating schema for type " +:+ typeName +:+ ", "
          +:+ message +:+ ".") ;;;
       throw NiceError)%M
  | inr schema =>
      match createSchemaExample P config schema None with
      | Throw e =>
          (errLine (pos_sourceFile position) line
             ("Error: " +:+ exn_message e +:+ ". Schema: "
              +:+ JSON_stringify_indented P schema) ;;;
           throw NiceError)%M
      | Return body => ret (schema, body)
      end
  end.

(** [parseResponse(position, generator, tag, emitter)] *)
Definition parseResponse (position : Position) (tag : Tag) : M Response :=
  let name := tag_name tag in
  let type := tag_type tag in
  let description := tag_description tag in
  match Js.parseInt name with
  | None =>
      (errLine (pos_sourceFile position)
         (line_add (pos_line position) (tag_line tag))
         ("Error: Response code '" +:+ name +:+ "' should be a number.") ;;;
       throw NiceError)%M
  | Some responseCode =>
      (resolved <-
         (if structural_type type
          then (r <- resolveSchema position tag type ;; ret (Some (fst r), snd r))
          else ret (None, JNull)) ;;
       let '(schema, body) := resolved in
       let whitespace := whitespace_after P responseCode (tag_source tag) in
       let adjustedDescription :=
         match whitespace with
         | Some ws =>
             if Js.includes Js.newline ws then String Js.newline description
             else description
         | None => description
         end in
       let splitDescription := splitByFirstNewline adjustedDescription in
       ret {| res_code := responseCode;
              res_when := nonempty (fst splitDescription);
              res_type := match schema with
                          | Some _ => Some "application/json"
                          | None => nonempty type
                          end;
              res_body := text_or (snd splitDescription) body;
              res_schema := schema |})%M
  end.

(** [parseBody(position, generator, tag, emitter)] *)
Definition parseBody (position : Position) (tag : Tag) : M RequestBody :=
  match body_types tag with
  | None =>
      (errLine (pos_sourceFile position)
         (line_add (pos_line position) (tag_line tag))
         "Error: @body tag should have types surrounded in curly braces." ;;;
       throw NiceError)%M
  | Some (bodyContentType, bodyTypescriptType) =>
      (resolved <-
         (if Js.truthy (or_empty bodyTypescriptType)
          then (r <- resolveSchema position tag (or_empty bodyTypescriptType) ;;
                ret (Some (fst r), snd r))
          else ret (None, JNull)) ;;
       let '(schema, body) := resolved in
       ret {| rb_type := bodyContentType;
              rb_body := text_or (Some (tag_description tag)) body;
              rb_schema := schema |})%M
  end.

End Parser.

(* ===================================================================== *)
(** ** emitter.ts: the writer *)
(* ===================================================================== *)

Definition PARAM_INDENT : string := "  ".
Definition RES_INDENT : string := "    ".
Definition BODY_INDENT : string := "        ".

Definition nl : string := String Js.newline EmptyString.

(** [text.split('\n').map(l => indent + l).join('\n')] *)
Fixpoint indent_rest (indent s : string) : string :=
  match s with
  | EmptyString => EmptyString
  | String c r =>
      if Js.eqc c Js.newline then String c (indent +:+ indent_rest indent r)
      else String c (indent_rest indent r)
  end.

Definition indent_lines (indent s : string) : string :=
  indent +:+ indent_rest indent s.

(** [`${x}`] for a string that may be [null]. *)
Definition show_nullable (o : option string) : string :=
  match o with
  | Some s => s
  | None => "null"
  end.

Definition write (chunk : string) : M unit := tell (Write chunk).

Definition when_ (b : bool) (m : M unit) : M unit := if b then m else ret tt.

Definition forEach {A} (f : A -> M unit) (l : list A) : M unit :=
  foldM (fun x (_ : unit) => f x) l tt.

Section Emitter.

Context (P : Platform).

(** [(typeof v === 'string') ? v : stringify(v, { space: 2 })] *)
Definition body_text (v : JsValue) : string :=
  match v with
  | JStr s => s
  | other => stringify P other
  end.

(** [emitMetadata(host, title, description)], run by the constructor *)
Definition emitMetadata (host title description : option string) : M unit :=
  (write ("FORMAT: 1A" +:+ nl) ;;;
   when_ (Js.truthy (or_empty host)) (write ("HOST: " +:+ or_empty host +:+ nl)) ;;;
   write nl ;;;
   when_ (Js.truthy (or_empty title)) (write ("# " +:+ or_empty title +:+ nl +:+ nl)) ;;;
   when_ (Js.truthy (or_empty description)) (write (or_empty description)) ;;;
   write nl)%M.

Definition emitParam (param : Param) : M unit :=
  write (PARAM_INDENT +:+ "+ " +:+ param_name param +:+ ": "
         +:+ (if param_query param then encodeURIComponent P else encodeURI P)
               (param_example param)
         +:+ " (required, " +:+ param_type param +:+ ") - "
         +:+ param_description param +:+ nl).

Definition emitResponse (res : Response) : M unit :=
  (write (nl +:+ "+ Response " +:+ number_text P (res_code res)) ;;;
   when_ (match res_type res with
          | Some t => (Js.truthy t && negb (String.eqb t "text/plain"))%bool
          | None => false
          end)
         (write (" (" +:+ or_empty (res_type res) +:+ ")")) ;;;
   write nl ;;;
   when_ (js_truthy (res_body res))
         (write (nl +:+ RES_INDENT +:+ "+ Body" +:+ nl) ;;;
          write (nl +:+ indent_lines (RES_INDENT +:+ BODY_INDENT) (body_text (res_body res))
                 +:+ nl)) ;;;
   match res_schema res with
   | Some schema =>
       (write (nl +:+ RES_INDENT +:+ "+ Schema" +:+ nl) ;;;
        write (nl +:+ indent_lines (RES_INDENT +:+ BODY_INDENT) (stringify_schema P schema)
               +:+ nl))
   | None => ret tt
   end)%M.

Definition emitBody (body : RequestBody) : M unit :=
  (write (nl +:+ "+ Request <name> (" +:+ show_nullable (rb_type body) +:+ ")") ;;;
   write (nl +:+ indent_lines (RES_INDENT +:+ BODY_INDENT) (body_text (rb_body body))
          +:+ nl))%M.

(** The query-template suffix of a route's url. *)
Definition queryParams (doc : Block) : list string :=
  map param_name (List.filter param_query (blk_params doc)).

Definition route_url (doc : Block) (leadingPath : string) : string :=
  let url := path_join P leadingPath (formatPath (blk_path doc)) in
  match queryParams doc with
  | [] => url
  | names => url +:+ "{?" +:+ String.concat "," names +:+ "}"
  end.

Definition path_heading (url : string) : string :=
  nl +:+ "## <Unnamed group> [" +:+ url +:+ "]" +:+ nl.

(** A chunk that opens with the [##] of a path heading. *)
Definition is_path_heading (chunk : string) : bool :=
  match Js.strip_prefix (nl +:+ "## ") chunk with
  | Some _ => true
  | None => false
  end.

(** A chunk that opens the section of a response. *)
Definition is_response_heading (chunk : string) : bool :=
  match Js.strip_prefix (nl +:+ "+ Response ") chunk with
  | Some _ => true
  | None => false
  end.

Definition method_heading (doc : Block) : string :=
  nl +:+ "### " +:+ blk_title doc +:+ " [" +:+ Js.toUpperCase (blk_method doc)
  +:+ "]" +:+ nl.

(** [emitRoute(doc, leadingPath)] *)
Definition emitRoute (doc : Block) (leadingPath : string) : M unit :=
  (write (path_heading (route_url doc leadingPath)) ;;;
   write (method_heading doc) ;;;
   write (blk_description doc +:+ nl) ;;;
   when_ (negb (Nat.eqb (length (blk_params doc)) 0))
         (write (nl +:+ "+ Parameters" +:+ nl) ;;;
          forEach emitParam (blk_params doc)) ;;;
   match blk_body doc with
   | Some body => emitBody body
   | None => ret tt
   end ;;;
   forEach emitResponse (blk_responses doc))%M.

(** [emitGroup(doc, leadingPath)] *)
Definition emitGroup (doc : Group) (leadingPath : string) : M unit :=
  forEach (fun r => emitRoute r leadingPath) (grp_methods doc).

(** [emit(doc)] *)
Definition emit (doc : Router) : M unit :=
  (write (nl +:+ "# Group " +:+ rt_title doc +:+ nl
          +:+ or_empty (rt_description doc) +:+ nl) ;;;
   forEach (fun g => emitGroup g (rt_path doc)) (rt_routes doc))%M.

End Emitter.

(* ===================================================================== *)
(** ** parser.ts: the route scanner *)
(* ===================================================================== *)

(** An insertion-ordered [Map] whose values are arrays: [push_to k v m]
    pushes [v] onto the array of [k], or inserts [k] with the array [[v]]
    at the end. *)
Fixpoint push_to {K V} (eqb : K -> K -> bool) (k : K) (v : V)
  (m : list (K * list V)) : list (K * list V) :=
  match m with
  | [] => [(k, [v])]
  | (k', vs) :: m' =>
      if eqb k' k then (k', vs ++ [v]) :: m'
      else (k', vs) :: push_to eqb k v m'
  end.

Definition RouterMap : Type := list (Symbol * list Block).

(** [routersToRoutes.get(sym)], an absent key read as no route. *)
Fixpoint routes_of (sym : Symbol) (m : RouterMap) : list Block :=
  match m with
  | [] => []
  | (sym', routes) :: m' => if Nat.eqb sym' sym then routes else routes_of sym m'
  end.

(** [router.getJsDocTags().filter(t => t.name)] *)
Definition routePaths (tags : list JSDocTagInfo) : list JSDocTagInfo :=
  List.filter (fun t => Js.truthy (jsdoc_name t)) tags.

(** [groupByRoute(docs)].  [groupMap] and [orderedGroups] hold the same
    [Group] objects, so one ordered map stands for both. *)
Definition groupByRoute (docs : list Block) : list Group :=
  map (fun '(path, methods) => {| grp_path := path; grp_methods := methods |})
      (fold_left (fun groups doc => push_to String.eqb (blk_path doc) doc groups)
                 docs []).

Definition is_tag (name : string) (t : Tag) : bool := String.eqb (tag_tag t) name.

(** [(node.expression.getChildAt(2) as ts.Identifier).text] and
    [(node.arguments[0] as ts.StringLiteral).text]; [handleKoaRouter] is
    reached for qualifying calls only, where both casts hold. *)
Definition method_text (node : CallExpr) : string :=
  match calleeMethod node with
  | Identifier text => text
  | OtherChild => EmptyString
  end.

Definition path_text (node : CallExpr) : string :=
  match call_arguments node with
  | StringLiteral text :: _ => text
  | _ => EmptyString
  end.

Section Scanner.

Context (P : Platform) (config : Config).

(** The first lines of [handleKoaRouter].

    [comments]: the comment ranges that the compiler finds from the
    offset [node.getFullStart()] on.  The offset is one of the text of
    the file; the text that is scanned is [sourceFile.getText()]. *)
Definition leadingComments (sourceFile : SourceFile) (node : CallExpr)
  : list CommentRange :=
  getLeadingCommentRanges P (getText sourceFile) (call_fullStart node).

(** [Math.min(...comments.map(c =>
      sourceFile.getLineAndCharacterOfPosition(c.pos).line))]: the
    offsets found in [sourceFile.getText()] are looked up in the line map
    of the file. *)
Definition minLine (sourceFile : SourceFile) (comments : list CommentRange)
  : LineNo :=
  fold_right
    (fun c acc =>
       line_min (Line (lineOfPosition P (fileText sourceFile) (range_pos c))) acc)
    Infinity comments.

(** [commentText]: the ranges, cut out of [sourceFile.getText()] and
    joined. *)
Definition commentText (sourceFile : SourceFile) (node : CallExpr) : string :=
  String.concat EmptyString
    (map (fun c => Js.substring (range_pos c) (range_end c) (getText sourceFile))
         (leadingComments sourceFile node)).

(** [pos] *)
Definition commentPosition (sourceFile : SourceFile) (node : CallExpr) : Position :=
  getPosition sourceFile (minLine sourceFile (leadingComments sourceFile node)).

(** [isRouterFunction(sourceFile, node, checker)] *)
Definition isRouterFunction (sourceFile : SourceFile) (node : CallExpr) : M bool :=
  match receiverSymbol node with
  | None => ret false
  | Some _ =>
      if negb (String.eqb (receiverType node) ROUTER_TYPE) then ret false
      else if Nat.ltb (calleeChildCount node) 3 then ret false
      else
        match calleeMethod node with
        | OtherChild => ret false
        | Identifier text =>
            if negb (string_in text ROUTER_METHODS) then ret false
            else
              match call_arguments node with
              | [] => throw (Error "Cannot read property 'kind' of undefined")
              | StringLiteral _ :: _ => ret true
              | OtherArgument :: _ =>
                  (warn sourceFile node
                     "Skipping router using something other than a string literal for defining the path" ;;;
                   ret false)%M
              end
        end
  end.

(** [handleKoaRouter(node, sourceFile, generator, emitter)] *)
Definition handleKoaRouter (node : CallExpr) (sourceFile : SourceFile)
  : M (option Block) :=
  let method := method_text node in
  let path := path_text node in
  let pos := commentPosition sourceFile node in
  match parse P (commentText sourceFile node) with
  | [] =>
      (warn sourceFile node
         ("Ignoring undocumented route " +:+ Js.toUpperCase method +:+ " " +:+ path) ;;;
       ret None)%M
  | comment :: _ =>
      let '(title, rawDesc) := splitByFirstNewline (comment_description comment) in
      let description := Js.trim (or_empty rawDesc) in
      let tags := comment_tags comment in
      let urlParams :=
        map (fun tag => parseParam tag false config) (List.filter (is_tag "param") tags) in
      let queryParams :=
        map (fun tag => parseParam tag true config) (List.filter (is_tag "query") tags) in
      let params := urlParams ++ queryParams in
      (responses <- mapM (parseResponse P config pos) (List.filter (is_tag "response") tags) ;;
       let bodies := List.filter (is_tag "body") tags in
       if Nat.ltb 1 (length bodies) then throw (Error "Too many @body tags")
       else
         body <- match bodies with
                 | [] => ret None
                 | b :: _ => (rb <- parseBody P config pos b ;; ret (Some rb))
                 end ;;
         ret (Some {| blk_method := method; blk_path := path; blk_title := title;
                      blk_description := description; blk_params := params;
                      blk_responses := responses; blk_body := body |}))%M
  end.

(** [lookForRoutes(node)], the closure of [documentSourceFile]; the map
    [routersToRoutes] it updates is passed along.  A route that is
    skipped returns before [node.forEachChild]. *)
Fixpoint lookForRoutes (sourceFile : SourceFile) (node : Node)
  (routersToRoutes : RouterMap) {struct node} : M RouterMap :=
  match node with
  | MkNode kind children =>
      let forEachChild := foldM (lookForRoutes sourceFile) children in
      match kind with
      | CallExpression callexpr =>
          (qualifies <- isRouterFunction sourceFile callexpr ;;
           if qualifies then
             route <- catchNice (handleKoaRouter callexpr sourceFile) ;;
             match receiverSymbol callexpr with
             | None => throw (Error "Expected router variable to resolve to a symbol")
             | Some sym =>
                 match route with
                 | None => ret routersToRoutes
                 | Some r => forEachChild (push_to Nat.eqb sym r routersToRoutes)
                 end
             end
           else forEachChild routersToRoutes)%M
      | OtherKind => forEachChild routersToRoutes
      end
  end.

(** [parseRouterDoc(router, routes)] *)
Definition parseRouterDoc (router : Symbol) (routes : list Group) : M Router :=
  let routePaths := routePaths (getJsDocTags P router) in
  if Nat.ltb 1 (length routePaths) then throw (Error "Too many @route tags")
  else
    let path :=
      match routePaths with
      | t :: _ =>
          match jsdoc_text t with
          | Some text => if Js.truthy text then text else "/"
          | None => "/"
          end
      | [] => "/"
      end in
    let text := getDocumentationComment P router in
    let '(title, description) := splitByFirstNewline text in
    ret {| rt_path := path; rt_title := title; rt_description := description;
           rt_routes := routes |}.

(** The [for ... of routersToRoutes.entries()] loop of
    [documentSourceFile], and its body. *)
Definition emitRouterOf (entry : Symbol * list Block) : M unit :=
  let '(router, routes) := entry in
  (routerDoc <- parseRouterDoc router (groupByRoute routes) ;;
   emit P routerDoc)%M.

Definition emitRouters (routersToRoutes : RouterMap) : M unit :=
  forEach emitRouterOf routersToRoutes.

Definition scanSourceFile (sourceFile : SourceFile) : M RouterMap :=
  foldM (lookForRoutes sourceFile) (fileChildren sourceFile) [].

(** [documentSourceFile(sourceFile, program, generator, emitter)] *)
Definition documentSourceFile (sourceFile : SourceFile) : M unit :=
  (routersToRoutes <- scanSourceFile sourceFile ;;
   emitRouters routersToRoutes)%M.

(** The traversal goes on below a node of this kind: any node but a
    call on which the scanner throws and a route that it passes over. *)
Definition descends (sourceFile : SourceFile) (kind : NodeKind) : bool :=
  match kind with
  | OtherKind => true
  | CallExpression callexpr =>
      match outcome (isRouterFunction sourceFile callexpr) with
      | Return false => true
      | Return true =>
          match outcome (catchNice (handleKoaRouter callexpr sourceFile)) with
          | Return (Some _) => true
          | _ => false
          end
      | Throw _ => false
      end
  end.

(** The traversal reaches the place [frames]: it goes on below every
    node on the way down to it. *)
Definition reaches (sourceFile : SourceFile) (frames : list Frame) : bool :=
  forallb (fun frame => descends sourceFile (frame_kind frame)) frames.

(** [createDocumentation(files, program, emitter)]; [generatorBuilt]
    tells whether [tjs.buildGenerator] returned a generator. *)
Definition createDocumentation (files : list SourceFile) (generatorBuilt : bool)
  : M unit :=
  let nonLibFiles :=
    List.filter (fun f => negb (Js.includes_string "node_modules" (fileName f))) files in
  if negb generatorBuilt then throw (Error "program has errors")
  else forEach documentSourceFile nonLibFiles.

End Scanner.

(* ===================================================================== *)
(** ** config.ts: the defaults of a configuration *)
(* ===================================================================== *)

(** [typeof v], [None] being [undefined]. *)
Definition js_typeof (v : option JsValue) : string :=
  match v with
  | None => "undefined"
  | Some (JBool _) => "boolean"
  | Some (JNum _) => "number"
  | Some (JStr _) => "string"
  | Some JNull | Some (JArr _) | Some (JObj _) => "object"
  end.

(** [v[key]] for a value [v] other than [null] and a [key] that is neither
    an index nor [length]: only an object has such a property. *)
Definition js_get (v : JsValue) (key : string) : option JsValue :=
  match v with
  | JObj fields => obj_get key fields
  | _ => None
  end.

Definition defaultDefaults : list (string * JsValue) :=
  [("number", JNum 0); ("string", JStr "abcd"); ("boolean", JBool true);
   ("jsonKey", JStr "key")].

(** [typeof defaults[key] === key ? defaults[key] : defaultDefaults[key]] *)
Definition checked_default (defaults : list (string * JsValue)) (key : string)
  (fallback : JsValue) : JsValue :=
  match obj_get key defaults with
  | Some v => if String.eqb (js_typeof (Some v)) key then v else fallback
  | None => fallback
  end.

(** The loop [for (const key of Object.keys(defaultDefaults))] of
    [validateConfig], on the named properties of [defaults]. *)
Definition validateDefaults (defaults : list (string * JsValue))
  : list (string * JsValue) :=
  fold_left (fun defaults '(key, fallback) =>
               obj_set key (checked_default defaults key fallback) defaults)
            defaultDefaults defaults.

(** [validateConfig(config)] up to its [defaults]: the check of [output]
    and the loop over the defaults.  [config.defaults] is taken when it is
    an object; an array has no named property to start from. *)
Definition validateConfig_defaults (config : JsValue)
  : Outcome (list (string * JsValue)) :=
  match config with
  | JNull => Throw (Error "Cannot read property 'output' of null")
  | _ =>
      match js_get config "output" with
      | Some (JStr _) =>
          Return (validateDefaults
                    match js_get config "defaults" with
                    | Some (JObj fields) => fields
                    | _ => []
                    end)
      | _ => Throw (Error "Property output is not defined")
      end
  end.

(* ===================================================================== *)
(** ** Schemas on which synthesis is defined *)
(* ===================================================================== *)

Definition supported_kind (k : SchemaKind) : bool :=
  match k with
  | KOther => false
  | _ => true
  end.

(** Every schema reached by [createSchemaExample] is of one of the five
    kinds, and every array schema has [items]. *)
Fixpoint supported (schema : Schema) : bool :=
  match schema with
  | MkSchema ty properties additionalProperties items =>
      match kind_of (effective_type ty) with
      | KObject =>
          match properties with
          | Some props => forallb (fun p => supported (snd p)) props
          | None => true
          end
          && match additionalProperties with
             | APSchema extra => supported extra
             | _ => true
             end
      | KArray =>
          match items with
          | ItemsOne item => supported item
          | ItemsMany l => forallb supported l
          | ItemsAbsent => false
          end
      | KNumber | KString | KBoolean => true
      | KOther => false
      end
  end.

(** The two loops of [createSchemaExample], as functions of the recursive
    call [synth]: the [reduce] over the property names and the [map] over
    the item schemas of a tuple. *)
Definition reduce_properties (synth : Schema -> option string -> Outcome JsValue)
  : list (string * Schema) -> list (string * JsValue)
    -> Outcome (list (string * JsValue)) :=
  fix reduce props obj :=
    match props with
    | [] => Return obj
    | (prop, sub) :: props' =>
        match synth sub (Some prop) with
        | Return v => reduce props' (obj_set prop v obj)
        | Throw e => Throw e
        end
    end.

Definition map_items (synth : Schema -> option string -> Outcome JsValue)
  : list Schema -> Outcome (list JsValue) :=
  fix map l :=
    match l with
    | [] => Return []
    | item :: l' =>
        match synth item None with
        | Return v =>
            match map l' with
            | Return vs => Return (v :: vs)
            | Throw e => Throw e
            end
        | Throw e => Throw e
        end
    end.

(* ===================================================================== *)
(** ** A concrete project, in the style of test/index.ts *)
(* ===================================================================== *)

Module Demo.

Definition lines (l : list string) : string := String.concat nl l.

Definition config : Config :=
  {| cfg_output := "./api.apib";
     cfg_host := Some "greeter.harkerdev.com";
     cfg_title := Some "hGreet API";
     cfg_description := None;
     cfg_defaults := {| default_number := 1234; default_string := "abcd";
                        default_boolean := true; default_jsonKey := "key" |};
     cfg_examples := {| examples_response := {[ "firstname" := JStr "John" ]};
                        examples_param := {[ "firstname" := "John" ]} |};
     cfg_afterHook := None |}.

Definition string_schema : Schema := MkSchema (TyName "string") None APAbsent ItemsAbsent.
Definition number_schema : Schema := MkSchema (TyName "number") None APAbsent ItemsAbsent.

(** interface ExampleBody { hello: string, something: number } *)
Definition ExampleBody : Schema :=
  MkSchema (TyName "object")
           (Some [("hello", string_schema); ("something", number_schema)])
           APAbsent ItemsAbsent.

(** A route comment with interleaved [@query] and [@param] tags. *)
Definition greet_text : string :=
  lines ["/**"; " * Greet a human"; " *"; " * Say hello to a person.";
         " *"; " * @query {string} lang The language";
         " * @param {string} name The name of the person";
         " * @query {number} times How often";
         " * @response {ExampleBody} 200 name is valid";
         " * @response 400"; " *  Name has numbers"; " */"].

Definition tag_query_lang : Tag :=
  {| tag_tag := "query"; tag_name := "lang"; tag_type := "string";
     tag_description := "The language"; tag_line := 5;
     tag_source := "@query {string} lang The language" |}.
Definition tag_param_name : Tag :=
  {| tag_tag := "param"; tag_name := "name"; tag_type := "string";
     tag_description := "The name of the person"; tag_line := 6;
     tag_source := "@param {string} name The name of the person" |}.
Definition tag_query_times : Tag :=
  {| tag_tag := "query"; tag_name := "times"; tag_type := "number";
     tag_description := "How often"; tag_line := 7;
     tag_source := "@query {number} times How often" |}.
Definition tag_response_200 : Tag :=
  {| tag_tag := "response"; tag_name := "200"; tag_type := "ExampleBody";
     tag_description := "name is valid"; tag_line := 8;
     tag_source := "@response {ExampleBody} 200 name is valid" |}.
Definition tag_response_400 : Tag :=
  {| tag_tag := "response"; tag_name := "400"; tag_type := EmptyString;
     tag_description := "Name has numbers"; tag_line := 9;
     tag_source := lines ["@response 400"; "Name has numbers"] |}.



Definition greet_comment : Comment :=
  {| comment_description := lines ["Greet a human"; ""; "Say hello to a person."];
     comment_tags := [tag_query_lang; tag_param_name; tag_query_times;
                      tag_response_200; tag_response_400] |}.

(** A route whose only tag has a malformed status code. *)
Definition incorrect_text : string :=
  lines ["/**"; " * Fails"; " *"; " * @response uh oh"; " */"].
Definition tag_response_uh : Tag :=
  {| tag_tag := "response"; tag_name := "uh"; tag_type := EmptyString;
     tag_description := "oh"; tag_line := 3; tag_source := "@response uh oh" |}.
Definition incorrect_comment : Comment :=
  {| comment_description := "Fails"; comment_tags := [tag_response_uh] |}.

(** A route whose response names a type that does not exist. *)
Definition missing_text : string :=
  lines ["/**"; " * Lost"; " *"; " * @param {string} id The id";
         " * @response {Missing} 200"; " */"].
Definition tag_param_id : Tag :=
  {| tag_tag := "param"; tag_name := "id"; tag_type := "string";
     tag_description := "The id"; tag_line := 3;
     tag_source := "@param {string} id The id" |}.
Definition tag_response_missing : Tag :=
  {| tag_tag := "response"; tag_name := "200"; tag_type := "Missing";
     tag_description := EmptyString; tag_line := 4;
     tag_source := "@response {Missing} 200" |}.
Definition missing_comment : Comment :=
  {| comment_description := "Lost";
     comment_tags := [tag_param_id; tag_response_missing] |}.

(** A route whose body names a type that does not exist. *)
Definition missing_body_text : string :=
  lines ["/**"; " * Post"; " *"; " * @body {Missing} {application/json}"; " */"].
Definition tag_body_missing : Tag :=
  {| tag_tag := "body"; tag_name := "{application/json}"; tag_type := "Missing";
     tag_description := EmptyString; tag_line := 3;
     tag_source := "@body {Missing} {application/json}" |}.
Definition missing_body_comment : Comment :=
  {| comment_description := "Post"; comment_tags := [tag_body_missing] |}.

(** A route with two failing response tags: an unknown type first, a
    malformed status code second. *)
Definition twice_text : string :=
  lines ["/**"; " * Twice"; " *"; " * @response {Missing} 200";
         " * @response abc"; " */"].
Definition tag_response_missing3 : Tag :=
  {| tag_tag := "response"; tag_name := "200"; tag_type := "Missing";
     tag_description := EmptyString; tag_line := 3;
     tag_source := "@response {Missing} 200" |}.
Definition tag_response_abc : Tag :=
  {| tag_tag := "response"; tag_name := "abc"; tag_type := EmptyString;
     tag_description := EmptyString; tag_line := 4;
     tag_source := "@response abc" |}.
Definition twice_comment : Comment :=
  {| comment_description := "Twice";
     comment_tags := [tag_response_missing3; tag_response_abc] |}.

(** A plain documented route. *)
Definition hello_text : string :=
  lines ["/**"; " * Say hello"; " *"; " * Give a greeting."; " */"].
Definition hello_comment : Comment :=
  {| comment_description := lines ["Say hello"; ""; "Give a greeting."];
     comment_tags := [] |}.

(** A route with two [@body] tags. *)
Definition two_bodies_text : string :=
  lines ["/**"; " * Post twice"; " *"; " * @body {ExampleBody} {application/json}";
         " * @body {text/plain}"; " */"].

(** The text of test/index.ts.  [layout] puts each piece of text on the
    line given with it, filling up with empty lines. *)
Definition blank (n : nat) : string := String.concat EmptyString (repeat nl n).

Fixpoint height (text : string) : nat :=
  match text with
  | EmptyString => 1%nat
  | String c r => if Js.eqc c Js.newline then S (height r) else height r
  end.

Fixpoint layout (line : nat) (items : list (nat * string)) : string :=
  match items with
  | [] => EmptyString
  | (at_, text) :: items' =>
      blank (at_ - line) +:+ text +:+ nl +:+ layout (at_ + height text) items'
  end.

Definition statements : list (nat * string) :=
  [(0%nat, lines ["import Router from 'koa-router'"; "const router = new Router()"]);
   (10%nat, lines [hello_text; "router.get('/', hello)"]);
   (20%nat, lines [hello_text; "router.post('/', hello)"]);
   (30%nat, lines [greet_text; "router.get('/greet/:name', greet)"]);
   (50%nat, lines [incorrect_text; "router.get('/incorrect', incorrect)"]);
   (60%nat, lines [missing_text; "router.get('/missing', missing)"]);
   (70%nat, lines [missing_body_text; "router.post('/post', post)"]);
   (80%nat, lines [twice_text; "router.get('/twice', twice)"]);
   (94%nat, "router.get('/silent', silent)");
   (96%nat, lines [hello_text; "router.get(prefix + '/dynamic', dynamic)"]);
   (110%nat, "router.use(bodyParser())");
   (120%nat, lines [two_bodies_text; "router.post('/twice', twice)"])].

Definition source : string := layout 0 statements.

(** [getFullStart()] of the statement on line [line]: the end of the
    statement before it. *)
Definition full_start (line : nat) : nat :=
  String.length
    (layout 0 (List.filter (fun item => Nat.ltb (fst item) line) statements)) - 1.

(** A stand-in for [ts.getLeadingCommentRanges]: from [pos] on, white
    space is skipped and the comments are collected that stand behind a
    line break (any comment, when [pos] is [0]), up to the first other
    character. *)
Inductive Scan : Type :=
| Trivia (collecting : bool)
| Slash (collecting : bool) (start : nat)
| LineComment (collecting : bool) (start : nat)
| BlockComment (collecting : bool) (start : nat) (star : bool).

Definition collected (collecting : bool) (start end_ : nat) : list CommentRange :=
  if collecting then [{| range_pos := start; range_end := end_ |}] else [].

Fixpoint comment_ranges (state : Scan) (pos : nat) (s : string)
  : list CommentRange :=
  match s with
  | EmptyString =>
      match state with
      | LineComment collecting start | BlockComment collecting start _ =>
          collected collecting start pos
      | _ => []
      end
  | String c r =>
      match state with
      | Trivia collecting =>
          if is_line_terminator c then comment_ranges (Trivia true) (S pos) r
          else if Js.is_whitespace c then comment_ranges (Trivia collecting) (S pos) r
          else if Js.eqc c Js.slash then comment_ranges (Slash collecting pos) (S pos) r
          else []
      | Slash collecting start =>
          if Js.eqc c Js.slash
          then comment_ranges (LineComment collecting start) (S pos) r
          else if Js.eqc c "*"
          then comment_ranges (BlockComment collecting start false) (S pos) r
          else []
      | LineComment collecting start =>
          if is_line_terminator c
          then collected collecting start pos ++ comment_ranges (Trivia true) (S pos) r
          else comment_ranges (LineComment collecting start) (S pos) r
      | BlockComment collecting start star =>
          if (star && Js.eqc c Js.slash)%bool
          then collected collecting start (S pos)
               ++ comment_ranges (Trivia collecting) (S pos) r
          else comment_ranges (BlockComment collecting start (Js.eqc c "*")) (S pos) r
      end
  end.

Definition leading_comment_ranges (text : string) (pos : nat) : list CommentRange :=
  comment_ranges (Trivia (Nat.eqb pos 0)) pos
                 (Js.substring pos (String.length text) text).

(** A stand-in for the line map: the number of line feeds in front of
    [pos]. *)
Fixpoint line_feeds (s : string) : Z :=
  match s with
  | EmptyString => 0
  | String c r => (if Js.eqc c Js.newline then 1 else 0) + line_feeds r
  end.

Definition line_of_position (text : string) (pos : nat) : Z :=
  line_feeds (Js.substring 0 pos text).

Definition parse_table : list (string * Comment) :=
  [(greet_text, greet_comment); (incorrect_text, incorrect_comment);
   (missing_text, missing_comment); (missing_body_text, missing_body_comment);
   (twice_text, twice_comment); (hello_text, hello_comment)].

Fixpoint lookup_comment (text : string) (table : list (string * Comment))
  : list Comment :=
  match table with
  | [] => []
  | (t, c) :: table' => if String.eqb t text then [c] else lookup_comment text table'
  end.

(** Router variables: [1] and [2] carry one [@route] tag each, both with
    the path [/]; [3] carries two. *)
Definition route_tag (text : string) : JSDocTagInfo :=
  {| jsdoc_name := "route"; jsdoc_text := Some text |}.

Definition platform : Platform :=
  {| parse := fun text => lookup_comment text parse_table;
     getLeadingCommentRanges := leading_comment_ranges;
     lineOfPosition := line_of_position;
     inexact_text := fun _ => "Infinity";
     inexact_match := fun _ _ => None;
     getSchemaForSymbol := fun name =>
       if String.eqb name "ExampleBody" then inr ExampleBody
       else inl ("type " +:+ name +:+ " not found");
     JSON_stringify := fun _ => "<schema>";
     JSON_stringify_indented := fun _ => "<schema>";
     getJsDocTags := fun sym =>
       match sym with
       | 1%nat | 2%nat => [route_tag "/"]
       | 3%nat => [route_tag "/a"; route_tag "/b"]
       | _ => []
       end;
     getDocumentationComment := fun sym =>
       match sym with
       | 1%nat => lines ["Greetings"; ""; "Our very own greeter api!"]
       | _ => "Other"
       end;
     path_join := fun a b => if String.eqb a "/" then b else a +:+ b;
     encodeURI := fun s => s;
     encodeURIComponent := fun s => s;
     stringify := fun _ => "<json>";
     stringify_schema := fun _ => "<schema>" |}.

(** [recv.method(path, ...)], the statement of test/index.ts whose
    comment starts on line [line]. *)
Definition call (sym : Symbol) (obj : ObjectId) (method path : string)
  (line : Z) : CallExpr :=
  {| call_start := line + 20; call_fullStart := full_start (Z.to_nat line);
     receiverSymbol := Some sym;
     receiverObject := obj; receiverType := "Router";
     calleeChildCount := 3; calleeMethod := Identifier method;
     call_arguments := [StringLiteral path; OtherArgument] |}.
Arguments call (sym obj)%_nat (method path)%_string line%_Z.

Definition route (c : CallExpr) : Node :=
  MkNode (CallExpression c) [MkNode OtherKind []].

(** An expression statement that holds a route. *)
Definition statement (c : CallExpr) : Node := MkNode OtherKind [route c].

Definition file (children : list Node) : SourceFile :=
  {| fileName := "test/index.ts"; fileText := source; fileStart := 0;
     fileChildren := children |}.

(** The same text behind an empty first line, and behind a comment on
    the first line: the first token, [import], is at offset [1],
    respectively [13], and every node lies that much further on. *)
Definition header : string := "/* hGreet */" +:+ nl.

Definition behind (trivia : string) (children : list Node) : SourceFile :=
  {| fileName := "test/index.ts"; fileText := trivia +:+ source;
     fileStart := String.length trivia; fileChildren := children |}.

Definition moved (by_ : nat) (c : CallExpr) : CallExpr :=
  {| call_start := call_start c + Z.of_nat by_;
     call_fullStart := call_fullStart c + by_;
     receiverSymbol := receiverSymbol c; receiverObject := receiverObject c;
     receiverType := receiverType c; calleeChildCount := calleeChildCount c;
     calleeMethod := calleeMethod c; call_arguments := call_arguments c |}.

Definition greet : CallExpr := call 1 0 "get" "/greet/:name" 30.
Definition hello : CallExpr := call 1 0 "get" "/" 10.
Definition hello_post : CallExpr := call 1 0 "post" "/" 20.
Definition incorrect : CallExpr := call 1 0 "get" "/incorrect" 50.
Definition missing : CallExpr := call 1 0 "get" "/missing" 60.
Definition missing_body : CallExpr := call 1 0 "post" "/post" 70.
Definition twice : CallExpr := call 1 0 "get" "/twice" 80.

(** [const router = new Router(); const alias = router;
    router.get('/', ...); alias.post('/', ...)] *)
Definition router_get : CallExpr := call 1 0 "get" "/" 10.
Definition alias_post : CallExpr := call 2 0 "post" "/" 20.
Definition aliased : SourceFile := file [route router_get; route alias_post].

(** [let r = new Router(); r.get('/', ...); r = new Router();
    r.post('/', ...)] *)
Definition first_get : CallExpr := call 1 0 "get" "/" 10.
Definition second_post : CallExpr := call 1 1 "post" "/" 20.
Definition reassigned : SourceFile := file [route first_get; route second_post].

(** The first router variable carries two [@route] tags. *)
Definition two_route_tags : SourceFile :=
  file [route (call 3 0 "get" "/" 10);
        route (call 1 1 "post" "/" 20)].

Definition with_incorrect : SourceFile :=
  file [statement hello; statement incorrect; statement hello_post].
Definition without_incorrect : SourceFile :=
  file [statement hello; statement hello_post].

Definition greet_block : Block :=
  {| blk_method := "get"; blk_path := "/greet/:name"; blk_title := "Greet a human";
     blk_description := "Say hello to a person.";
     blk_params :=
       [parseParam tag_param_name false config; parseParam tag_query_lang true config;
        parseParam tag_query_times true config];
     blk_responses :=
       [{| res_code := 200; res_when := Some "name is valid";
           res_type := Some "application/json";
           res_body := JObj [("hello", JStr "abcd"); ("something", JNum 1234)];
           res_schema := Some ExampleBody |};
        {| res_code := 400; res_when := None; res_type := None;
           res_body := JStr "Name has numbers"; res_schema := None |}];
     blk_body := None |}.

Definition hello_block (method : string) : Block :=
  {| blk_method := method; blk_path := "/"; blk_title := "Say hello";
     blk_description := "Give a greeting."; blk_params := [];
     blk_responses := []; blk_body := None |}.

(** A Group of one path with two methods; only the first has a query
    parameter. *)
Definition search_block : Block :=
  {| blk_method := "get"; blk_path := "/"; blk_title := "Search";
     blk_description := "Find a greeting.";
     blk_params := [{| param_query := true; param_name := "q"; param_type := "string";
                       param_description := "The text"; param_example := "abcd" |}];
     blk_responses := []; blk_body := None |}.

Definition root_group : Group :=
  {| grp_path := "/"; grp_methods := [search_block; hello_block "post"] |}.

(** [router.get('/silent', ...)] without any comment. *)
Definition silent : CallExpr :=
  {| call_start := 95; call_fullStart := full_start 94; receiverSymbol := Some 1%nat; receiverObject := 0%nat;
     receiverType := "Router"; calleeChildCount := 3%nat;
     calleeMethod := Identifier "get";
     call_arguments := [StringLiteral "/silent"; OtherArgument] |}.

(** [router.get(prefix + '/dynamic', ...)]: the path is not a literal. *)
Definition dynamic : CallExpr :=
  {| call_start := 100; call_fullStart := full_start 96; receiverSymbol := Some 1%nat; receiverObject := 0%nat;
     receiverType := "Router"; calleeChildCount := 3%nat;
     calleeMethod := Identifier "get";
     call_arguments := [OtherArgument; OtherArgument] |}.

(** [router.use(bodyParser())]: not one of the verbs. *)
Definition use : CallExpr :=
  {| call_start := 110; call_fullStart := full_start 110; receiverSymbol := Some 1%nat; receiverObject := 0%nat;
     receiverType := "Router"; calleeChildCount := 3%nat;
     calleeMethod := Identifier "use";
     call_arguments := [OtherArgument] |}.

Definition tag_body_example : Tag :=
  {| tag_tag := "body"; tag_name := "{application/json}"; tag_type := "ExampleBody";
     tag_description := EmptyString; tag_line := 3;
     tag_source := "@body {ExampleBody} {application/json}" |}.
Definition tag_body_plain : Tag :=
  {| tag_tag := "body"; tag_name := EmptyString; tag_type := "text/plain";
     tag_description := EmptyString; tag_line := 4;
     tag_source := "@body {text/plain}" |}.
Definition two_bodies_comment : Comment :=
  {| comment_description := "Post twice";
     comment_tags := [tag_body_example; tag_body_plain] |}.

(** A second platform, whose comment-parser also knows the comment with
    two [@body] tags. *)
Definition platform2 : Platform :=
  {| parse := fun text =>
       if String.eqb text two_bodies_text then [two_bodies_comment]
       else parse platform text;
     getLeadingCommentRanges := getLeadingCommentRanges platform;
     lineOfPosition := lineOfPosition platform;
     inexact_text := inexact_text platform;
     inexact_match := inexact_match platform;
     getSchemaForSymbol := getSchemaForSymbol platform;
     JSON_stringify := JSON_stringify platform;
     JSON_stringify_indented := JSON_stringify_indented platform;
     getJsDocTags := getJsDocTags platform;
     getDocumentationComment := getDocumentationComment platform;
     path_join := path_join platform;
     encodeURI := encodeURI platform;
     encodeURIComponent := encodeURIComponent platform;
     stringify := stringify platform;
     stringify_schema := stringify_schema platform |}.

Definition two_bodies : CallExpr := call 1 0 "post" "/twice" 120.

(** interface Tagged { id: integer-typed, ... }: a kind the synthesizer
    does not know. *)
Definition integer_schema : Schema := MkSchema (TyName "integer") None APAbsent ItemsAbsent.

(** interface Dictionary { name: string; [key: string]: number } *)
Definition Dictionary : Schema :=
  MkSchema (TyName "object") (Some [("name", string_schema)])
           (APSchema number_schema) ItemsAbsent.

(** [string, number][] *)
Definition pairs_schema : Schema :=
  MkSchema (TyName "array") None APAbsent
           (ItemsOne (MkSchema (TyName "array") None APAbsent
                               (ItemsMany [string_schema; number_schema]))).

(** A docconfig.json whose defaults set a json key and a number given as
    text. *)
Definition docconfig : JsValue :=
  JObj [("output", JStr "./api.apib");
        ("defaults", JObj [("string", JStr "text"); ("number", JStr "12");
                           ("jsonKey", JStr "id"); ("other", JNum 7)])].

Definition lib_file : SourceFile :=
  {| fileName := "node_modules/koa-router/index.ts"; fileText := source;
     fileStart := 0; fileChildren := [route hello] |}.

Definition hello_at (path : string) : Block :=
  {| blk_method := "get"; blk_path := path; blk_title := "Say hello";
     blk_description := "Give a greeting."; blk_params := [];
     blk_responses := []; blk_body := None |}.

End Demo.

(* ===================================================================== *)
(** * Properties *)
(* ===================================================================== *)

(** ** The primitives on examples *)

Example formatPath_user :
  formatPath "/user/:id/posts/:post" = "/user/{id}/posts/{post}".
Proof. reflexivity. Qed.

Example parseInt_examples :
  Js.parseInt "400" = Some 400 /\ Js.parseInt "uh" = None /\
  Js.parseInt "0x1F" = Some 31 /\ Js.parseInt "-12px" = Some (-12) /\
  Js.parseInt "0x" = None /\ Js.numberToString 400 = "400".
Proof. repeat split; reflexivity. Qed.

Example splitByFirstNewline_example :
  splitByFirstNewline (Demo.lines ["Greet a human"; ""; "Say hello."])
  = ("Greet a human", Some (Demo.lines [""; "Say hello."])).
Proof. reflexivity. Qed.

Example body_types_example :
  body_types Demo.tag_body_missing = Some (Some "application/json", Some "Missing").
Proof. reflexivity. Qed.

(** ** The trace monad *)

Lemma bind_ret {A B} (a : A) (k : A -> M B) : bind (ret a) k = k a.
Proof. unfold bind, ret. destruct (k a) as [evs o]. reflexivity. Qed.

Lemma bind_throw {A B} (e : Exn) (k : A -> M B) : bind (throw e) k = throw e.
Proof. reflexivity. Qed.

Lemma bind_assoc {A B C} (m : M A) (k : A -> M B) (h : B -> M C) :
  bind (bind m k) h = bind m (fun a => bind (k a) h).
Proof.
  destruct m as [evs [a|e]]; simpl; [|reflexivity].
  destruct (k a) as [evs1 [b|e1]]; simpl; [|reflexivity].
  destruct (h b) as [evs2 o2]. now rewrite app_assoc.
Qed.

Lemma bind_pure {A B} (a : A) (evs : list Event) (k : A -> M B) :
  bind (evs, Return a) k = (evs ++ events (k a), outcome (k a)).
Proof. unfold bind, events, outcome. now destruct (k a). Qed.

Lemma bind_silent {A B} (a : A) (k : A -> M B) : bind ([], Return a) k = k a.
Proof. apply (bind_ret a k). Qed.

Lemma bind_Return_inv {A B} (m : M A) (k : A -> M B) (b : B) :
  outcome (bind m k) = Return b ->
  exists a, outcome m = Return a /\ outcome (k a) = Return b.
Proof.
  destruct m as [evs [a|e]]; simpl.
  - intros H. exists a. split; [reflexivity|].
    unfold outcome in *. now destruct (k a).
  - discriminate.
Qed.

Lemma surjective_M {A} (m : M A) : m = (events m, outcome m).
Proof. now destruct m. Qed.

Lemma bind_ext {A B} (m : M A) (k k' : A -> M B) :
  (forall a, k a = k' a) -> bind m k = bind m k'.
Proof.
  intros H. destruct m as [evs [a|e]]; simpl; [|reflexivity]. now rewrite H.
Qed.

Lemma foldM_nil {A S} (f : A -> S -> M S) (s : S) : foldM f [] s = ret s.
Proof. reflexivity. Qed.

Lemma foldM_cons {A S} (f : A -> S -> M S) (x : A) (l : list A) (s : S) :
  foldM f (x :: l) s = bind (f x s) (foldM f l).
Proof. reflexivity. Qed.

Lemma foldM_app {A S} (f : A -> S -> M S) (l1 l2 : list A) (s : S) :
  foldM f (l1 ++ l2) s = bind (foldM f l1 s) (foldM f l2).
Proof.
  revert s. induction l1 as [|x l1 IH]; intros s.
  - now rewrite foldM_nil, bind_ret.
  - rewrite <- app_comm_cons, !foldM_cons, bind_assoc.
    apply bind_ext. intros a. apply IH.
Qed.

Lemma mapM_nil {A B} (f : A -> M B) : mapM f [] = ret [].
Proof. reflexivity. Qed.

Lemma mapM_cons {A B} (f : A -> M B) (x : A) (l : list A) :
  mapM f (x :: l) = bind (f x) (fun y => bind (mapM f l) (fun ys => ret (y :: ys))).
Proof. reflexivity. Qed.

(** [map] stops at the first element on which [f] throws. *)
Lemma mapM_first_throw {A B} (f : A -> M B) (pre post : list A) (x : A)
  (evs : list Event) (e : Exn) :
  Forall (fun y => exists b, f y = ([], Return b)) pre ->
  f x = (evs, Throw e) ->
  mapM f (pre ++ x :: post) = (evs, Throw e).
Proof.
  intros Hpre Hx. induction Hpre as [|y pre [b Hy] _ IH].
  - simpl app. rewrite mapM_cons, Hx. reflexivity.
  - rewrite <- app_comm_cons, mapM_cons, Hy, bind_silent, IH. reflexivity.
Qed.

Lemma mapM_silent {A B} (f : A -> M B) (l : list A) :
  Forall (fun y => exists b, f y = ([], Return b)) l ->
  exists bs, mapM f l = ([], Return bs).
Proof.
  induction 1 as [|y l [b Hy] _ [bs IH]].
  - now exists [].
  - exists (b :: bs). now rewrite mapM_cons, Hy, bind_silent, IH.
Qed.

(** A loop whose body never throws runs to its end; its events are those
    of the iterations, in order. *)
Lemma forEach_total {A} (f : A -> M unit) (l : list A) :
  (forall x, outcome (f x) = Return tt) ->
  forEach f l = (flat_map (fun x => events (f x)) l, Return tt).
Proof.
  intros Hf. unfold forEach. induction l as [|x l IH]; [reflexivity|].
  rewrite foldM_cons, (surjective_M (f x)), Hf, bind_pure, IH. reflexivity.
Qed.

(** ** Parameters (parseParam, handleKoaRouter) *)

Lemma parseParam_example (tag : Tag) (query : bool) (config : Config) :
  param_example (parseParam tag query config)
  = default (default_string (cfg_defaults config))
            (examples_param (cfg_examples config) !! param_name (parseParam tag query config)).
Proof.
  unfold parseParam. cbn [param_name param_example].
  destruct (examples_param (cfg_examples config) !! tag_name tag); reflexivity.
Qed.

Lemma parseParam_query (tag : Tag) (query : bool) (config : Config) :
  param_query (parseParam tag query config) = query.
Proof. reflexivity. Qed.

Section Properties.

Context (P : Platform) (config : Config).

(** The params of a Block that [handleKoaRouter] returns. *)
Lemma handleKoaRouter_Return_params
  (node : CallExpr) (sourceFile : SourceFile) (block : Block) :
  outcome (handleKoaRouter P config node sourceFile) = Return (Some block) ->
  exists comment others,
    parse P (commentText P sourceFile node) = comment :: others /\
    blk_params block
    = map (fun t => parseParam t false config)
          (List.filter (is_tag "param") (comment_tags comment))
      ++ map (fun t => parseParam t true config)
             (List.filter (is_tag "query") (comment_tags comment)).
Proof.
  unfold handleKoaRouter.
  destruct (parse P _) as [|comment others]; [discriminate|].
  destruct (splitByFirstNewline (comment_description comment)) as [title rawDesc].
  intros H. exists comment, others. split; [reflexivity|].
  apply bind_Return_inv in H as (responses & _ & H).
  destruct (Nat.ltb 1 _); [discriminate|].
  apply bind_Return_inv in H as (body & _ & H).
  now injection H as <-.
Qed.

(** C10. The example of a [@param] or [@query] parameter is the override
    registered for its name in [config.examples.param] when there is one,
    and [config.defaults.string] otherwise, whatever type the tag
    declares: the declared type [type] does not occur in the result.
    This holds of [parseParam] on every tag, and so of every Param of
    every Block that [handleKoaRouter] returns. *)
Theorem parseParam_example_override_or_string_default :
  (forall (tag name type description source : string) (line : Z) (query : bool),
      param_example
        (parseParam {| tag_tag := tag; tag_name := name; tag_type := type;
                       tag_description := description; tag_line := line;
                       tag_source := source |} query config)
      = default (default_string (cfg_defaults config))
                (examples_param (cfg_examples config) !! name))
  /\
  (forall (node : CallExpr) (sourceFile : SourceFile) (block : Block),
      outcome (handleKoaRouter P config node sourceFile) = Return (Some block) ->
      Forall (fun p =>
                param_example p
                = default (default_string (cfg_defaults config))
                          (examples_param (cfg_examples config) !! param_name p))
             (blk_params block)).
Proof.
  split.
  - intros tag name type description source line query.
    exact (parseParam_example
             {| tag_tag := tag; tag_name := name; tag_type := type;
                tag_description := description; tag_line := line;
                tag_source := source |} query config).
  - intros node sourceFile block H.
    apply handleKoaRouter_Return_params in H as (comment & others & _ & ->).
    apply List.Forall_forall. intros p Hp.
    apply in_app_iff in Hp as [Hp|Hp]; apply in_map_iff in Hp as (t & <- & _);
      apply parseParam_example.
Qed.

(** C3. When [handleKoaRouter] yields a Block, its [params] are the url
    params, one per [@param] tag in tag order, followed by the query
    params, one per [@query] tag in tag order, however the two kinds of
    tag are interleaved in the comment. *)
Theorem handleKoaRouter_url_params_before_query_params
  (node : CallExpr) (sourceFile : SourceFile) (block : Block) :
  outcome (handleKoaRouter P config node sourceFile) = Return (Some block) ->
  exists comment others,
    parse P (commentText P sourceFile node) = comment :: others /\
    let urlParams :=
      map (fun t => parseParam t false config)
          (List.filter (is_tag "param") (comment_tags comment)) in
    let queryParams :=
      map (fun t => parseParam t true config)
          (List.filter (is_tag "query") (comment_tags comment)) in
    blk_params block = urlParams ++ queryParams /\
    Forall (fun p => param_query p = false) urlParams /\
    Forall (fun p => param_query p = true) queryParams.
Proof.
  intros H.
  apply handleKoaRouter_Return_params in H as (comment & others & Hparse & Hparams).
  exists comment, others. split; [exact Hparse|].
  split; [exact Hparams|].
  split; apply List.Forall_forall; intros p Hp; apply in_map_iff in Hp as (t & <- & _);
    reflexivity.
Qed.

End Properties.

Lemma parseParam_example_override_or_string_default_witness :
  param_example
    (parseParam {| tag_tag := "query"; tag_name := "firstname"; tag_type := "number";
                   tag_description := "The first name"; tag_line := 5;
                   tag_source := "@query {number} firstname The first name" |}
                true Demo.config)
  = "John" /\
  map param_example (blk_params Demo.greet_block) = ["abcd"; "abcd"; "abcd"] /\
  Forall (fun p =>
            param_example p
            = default "abcd" (examples_param (cfg_examples Demo.config) !! param_name p))
         (blk_params Demo.greet_block).
Proof.
  destruct (parseParam_example_override_or_string_default Demo.platform Demo.config)
    as [Htag Hblock].
  split; [|split].
  - rewrite Htag. vm_compute. reflexivity.
  - vm_compute. reflexivity.
  - apply (Hblock Demo.greet (Demo.file []) Demo.greet_block).
    vm_compute. reflexivity.
Defined.

Lemma handleKoaRouter_url_params_before_query_params_witness :
  outcome (handleKoaRouter Demo.platform Demo.config Demo.greet (Demo.file []))
  = Return (Some Demo.greet_block) /\
  map param_name (blk_params Demo.greet_block) = ["name"; "lang"; "times"] /\
  exists comment others,
    parse Demo.platform Demo.greet_text = comment :: others /\
    blk_params Demo.greet_block
    = map (fun t => parseParam t false Demo.config)
          (List.filter (is_tag "param") (comment_tags comment))
      ++ map (fun t => parseParam t true Demo.config)
             (List.filter (is_tag "query") (comment_tags comment)).
Proof.
  split; [vm_compute; reflexivity|]. split; [reflexivity|].
  destruct (handleKoaRouter_url_params_before_query_params
              Demo.platform Demo.config Demo.greet (Demo.file []) Demo.greet_block)
    as (comment & others & Hparse & Hparams & _).
  - vm_compute. reflexivity.
  - exists comment, others. split; [exact Hparse | exact Hparams].
Defined.

(** ** Example synthesis (createSchemaExample) *)

Section SynthesizerProperties.

Context (P : Platform) (config : Config).

Let examples := examples_response (cfg_examples config).
Let defaults := cfg_defaults config.

Lemma named_example_none (name : string) :
  examples !! name = None -> named_example examples (Some name) = None.
Proof. intros H. unfold named_example. now destruct (Js.truthy name). Qed.

Lemma createSchemaExample_string (schema : Schema) (name : option string) :
  kind_of (effective_type (schema_type schema)) = KString ->
  createSchemaExample P config schema name
  = or_default (named_example examples name) (JStr (default_string defaults)).
Proof. destruct schema as [ty props extra items]. simpl. now intros ->. Qed.

Lemma createSchemaExample_number (schema : Schema) (name : option string) :
  kind_of (effective_type (schema_type schema)) = KNumber ->
  createSchemaExample P config schema name
  = or_default (named_example examples name) (JNum (default_number defaults)).
Proof. destruct schema as [ty props extra items]. simpl. now intros ->. Qed.

(** C9. An object schema whose properties are [a], of kind string, and
    [b], of kind number, in either key order, and which carries no
    schema for additional properties, is synthesized, when no response
    example is registered for [a] or [b], as the object with exactly
    the two keys [a], holding the configured string default, and [b],
    holding the configured number default. *)
Theorem createSchemaExample_string_and_number_properties
  (a b : string) (sa sb : Schema) (type : SchemaType)
  (properties : list (string * Schema)) (additionalProperties : AdditionalOf Schema)
  (items : ItemsOf Schema) (name : option string) :
  kind_of (effective_type type) = KObject ->
  Permutation [(a, sa); (b, sb)] properties ->
  a <> b ->
  kind_of (effective_type (schema_type sa)) = KString ->
  kind_of (effective_type (schema_type sb)) = KNumber ->
  (forall extra, additionalProperties <> APSchema extra) ->
  examples !! a = None ->
  examples !! b = None ->
  exists fields,
    createSchemaExample P config
      (MkSchema type (Some properties) additionalProperties items) name
    = Return (JObj fields) /\
    Permutation [(a, JStr (default_string defaults));
                 (b, JNum (default_number defaults))] fields.
Proof.
  intros Hobj Hperm Hab Hsa Hsb Hextra Ha Hb.
  assert (Hba : String.eqb b a = false)
    by (apply String.eqb_neq; congruence).
  assert (Hab' : String.eqb a b = false) by (now apply String.eqb_neq).
  assert (Hprops : properties = [(a, sa); (b, sb)] \/ properties = [(b, sb); (a, sa)]).
  { apply Permutation_length_2_inv in Hperm. tauto. }
  cbn [createSchemaExample]. rewrite Hobj.
  destruct Hprops as [-> | ->];
    rewrite (createSchemaExample_string sa _ Hsa),
            (createSchemaExample_number sb _ Hsb),
            !named_example_none by assumption;
    cbn [or_default obj_set]; rewrite ?Hab', ?Hba.
  - exists [(a, JStr (default_string defaults)); (b, JNum (default_number defaults))].
    split; [|reflexivity].
    destruct additionalProperties as [| |extra]; try reflexivity.
    now destruct (Hextra extra).
  - exists [(b, JNum (default_number defaults)); (a, JStr (default_string defaults))].
    split; [|apply perm_swap].
    destruct additionalProperties as [| |extra]; try reflexivity.
    now destruct (Hextra extra).
Qed.

End SynthesizerProperties.

Lemma createSchemaExample_string_and_number_properties_witness :
  exists fields,
    createSchemaExample Demo.platform Demo.config Demo.ExampleBody None
    = Return (JObj fields) /\
    Permutation [("hello", JStr "abcd"); ("something", JNum 1234)] fields.
Proof.
  apply (createSchemaExample_string_and_number_properties
           Demo.platform Demo.config "hello" "something"
           Demo.string_schema Demo.number_schema).
  - reflexivity.
  - reflexivity.
  - discriminate.
  - reflexivity.
  - reflexivity.
  - discriminate.
  - vm_compute. reflexivity.
  - vm_compute. reflexivity.
Defined.

(** ** Placeholder conversion (formatPath) *)

Lemma formatPath_other (c : ascii) (s : string) :
  Js.eqc c Js.colon = false -> formatPath (String c s) = String c (formatPath s).
Proof. intros H. simpl. now rewrite H. Qed.

Lemma formatPath_colon_unmatched (s : string) :
  starts_group s = false ->
  formatPath (String Js.colon s) = String Js.colon (formatPath s).
Proof. intros H. simpl. now rewrite H. Qed.

Lemma starts_group_formatPath (s : string) :
  starts_group s = false -> starts_group (formatPath s) = false.
Proof.
  destruct s as [|d r]; [reflexivity|]. simpl. intros H.
  apply negb_false_iff in H. unfold Js.eqc, Js.slash in *.
  apply Ascii.eqb_eq in H. subst d. reflexivity.
Qed.

Lemma eqc_eq (c d : ascii) : Js.eqc c d = true -> c = d.
Proof. apply Ascii.eqb_eq. Qed.

(** Both modes of the conversion leave a fixed point of [formatPath] when
    no segment of the input holds two colons. *)
Lemma formatPath_stable (s : string) :
  (one_colon_per_segment s = true -> formatPath (formatPath s) = formatPath s) /\
  (no_colon_in_segment s = true -> formatPath (formatPath_group s) = formatPath_group s).
Proof.
  induction s as [|c r [IHout IHgroup]]; [split; reflexivity|].
  split.
  - cbn [one_colon_per_segment formatPath].
    destruct (Js.eqc c Js.colon) eqn:Hc; cbn [andb].
    + apply eqc_eq in Hc. subst c. intros Hr.
      destruct (starts_group r) eqn:Hg.
      * rewrite formatPath_other by reflexivity. now rewrite IHgroup.
      * rewrite formatPath_colon_unmatched by now apply starts_group_formatPath.
        f_equal. apply IHout.
        destruct r as [|d r']; [reflexivity|].
        simpl in Hg. apply negb_false_iff, eqc_eq in Hg. subst d.
        exact Hr.
    + intros Hr. rewrite formatPath_other by assumption. now rewrite IHout.
  - cbn [no_colon_in_segment formatPath_group].
    destruct (Js.eqc c Js.colon) eqn:Hc; [discriminate|].
    destruct (Js.eqc c Js.slash) eqn:Hs; intros Hr.
    + rewrite formatPath_other by reflexivity.
      rewrite formatPath_other by assumption. now rewrite IHout.
    + rewrite formatPath_other by assumption. now rewrite IHgroup.
Qed.

(** C5, as the code has it.  Converting twice equals converting once for
    every path in which each [/]-separated segment holds at most one
    colon. *)
Theorem formatPath_idempotent_one_colon_per_segment (path : string) :
  one_colon_per_segment path = true ->
  formatPath (formatPath path) = formatPath path.
Proof. apply formatPath_stable. Qed.

Lemma formatPath_idempotent_one_colon_per_segment_witness :
  one_colon_per_segment "/user/:id/posts/:post" = true /\
  formatPath (formatPath "/user/:id/posts/:post") = "/user/{id}/posts/{post}".
Proof.
  split; [reflexivity|].
  rewrite (formatPath_idempotent_one_colon_per_segment "/user/:id/posts/:post");
    reflexivity.
Defined.

(** C5 as stated fails: a second colon inside a placeholder is converted
    by the second application. *)
Lemma formatPath_not_idempotent :
  formatPath "/files/:a-:b" = "/files/{a-:b}" /\
  formatPath (formatPath "/files/:a-:b") = "/files/{a-{b}}" /\
  ~ (forall path, formatPath (formatPath path) = formatPath path).
Proof.
  split; [reflexivity|]. split; [reflexivity|].
  intros H. specialize (H "/files/:a-:b"). discriminate H.
Qed.

(** ** The emitter *)

Lemma bind_write {B} (chunk : string) (k : unit -> M B) :
  bind (write chunk) k = (Write chunk :: events (k tt), outcome (k tt)).
Proof. unfold write, tell, bind, events, outcome. now destruct (k tt). Qed.

Lemma bind_total {B} (m : M unit) (k : unit -> M B) :
  outcome m = Return tt -> outcome (bind m k) = outcome (k tt).
Proof.
  destruct m as [evs [[]|e]]; simpl; [|discriminate].
  intros _. unfold outcome. now destruct (k tt).
Qed.

Lemma when_total (b : bool) (m : M unit) :
  outcome m = Return tt -> outcome (when_ b m) = Return tt.
Proof. now destruct b. Qed.

Lemma append_empty (s : string) : s +:+ EmptyString = s.
Proof.
  induction s as [|c s IH]; [reflexivity|].
  change (String c (s +:+ EmptyString) = String c s). now rewrite IH.
Qed.

Section EmitterProperties.

Context (P : Platform).

Lemma emitParam_total (param : Param) : outcome (emitParam P param) = Return tt.
Proof. reflexivity. Qed.

Lemma emitBody_total (body : RequestBody) : outcome (emitBody P body) = Return tt.
Proof. reflexivity. Qed.

Lemma emitResponse_total (res : Response) : outcome (emitResponse P res) = Return tt.
Proof.
  unfold emitResponse.
  rewrite bind_total by reflexivity.
  rewrite bind_total by (apply when_total; reflexivity).
  rewrite bind_total by reflexivity.
  rewrite bind_total by (apply when_total; reflexivity).
  now destruct (res_schema res).
Qed.

Lemma emitRoute_total (doc : Block) (leadingPath : string) :
  outcome (emitRoute P doc leadingPath) = Return tt.
Proof.
  unfold emitRoute.
  do 3 (rewrite bind_total by reflexivity).
  rewrite bind_total.
  - rewrite bind_total by (destruct (blk_body doc); [apply emitBody_total|reflexivity]).
    now rewrite (forEach_total _ _ emitResponse_total).
  - apply when_total. rewrite bind_total by reflexivity.
    now rewrite (forEach_total _ _ emitParam_total).
Qed.

(** C8, as the code has it.  [emitGroup] writes no heading of its own:
    it emits the Blocks of the Group in order, and each Block opens with
    its own path heading, whose url is the router path joined with the
    converted registration path and suffixed with the query template of
    that Block's own query parameters, followed at once by the Block's
    method heading. *)
Theorem emitGroup_path_heading_per_block (doc : Group) (leadingPath : string) :
  emitGroup P doc leadingPath
  = (flat_map (fun r => events (emitRoute P r leadingPath)) (grp_methods doc),
     Return tt) /\
  forall r : Block,
    exists rest,
      events (emitRoute P r leadingPath)
      = Write (path_heading
                 (path_join P leadingPath (formatPath (blk_path r))
                  +:+ match map param_name (List.filter param_query (blk_params r)) with
                      | [] => EmptyString
                      | names => "{?" +:+ String.concat "," names +:+ "}"
                      end))
        :: Write (method_heading r) :: rest.
Proof.
  split.
  - unfold emitGroup. apply forEach_total. intros r. apply emitRoute_total.
  - intros r. unfold emitRoute. rewrite !bind_write. cbn [events fst].
    eexists. f_equal. f_equal. f_equal.
    unfold route_url, queryParams.
    destruct (map param_name (List.filter param_query (blk_params r)));
      [|reflexivity].
    now rewrite append_empty.
Qed.

End EmitterProperties.

(** C8 as stated fails: a Group of two Blocks gets two path headings, and
    the query template of the first Block is absent from the second. *)
Lemma emitGroup_two_path_headings :
  List.filter is_path_heading
    (written (events (emitGroup Demo.platform Demo.root_group "/")))
  = [path_heading "/{?q}"; path_heading "/"] /\
  length (List.filter is_path_heading
            (written (events (emitGroup Demo.platform Demo.root_group "/")))) <> 1%nat.
Proof. split; [vm_compute; reflexivity | vm_compute; discriminate]. Qed.

(** ** Responses (parseResponse) *)

Lemma append_cons (c : ascii) (s t : string) : String c s +:+ t = String c (s +:+ t).
Proof. reflexivity. Qed.












Section ResponseProperties.

Context (P : Platform) (config : Config).


End ResponseProperties.



(** ** Routes that are skipped (lookForRoutes) *)

Section ScannerProperties.

Context (P : Platform) (config : Config).

(** A response that parses reports nothing. *)
Lemma parseResponse_Return_silent (pos : Position) (tag : Tag) (r : Response) :
  outcome (parseResponse P config pos tag) = Return r ->
  parseResponse P config pos tag = ([], Return r).
Proof.
  unfold parseResponse.
  destruct (Js.parseInt (tag_name tag)) as [code|]; [|discriminate].
  destruct (structural_type (tag_type tag)).
  - unfold resolveSchema.
    destruct (getSchemaForSymbol P (tag_type tag)) as [msg|schema]; [discriminate|].
    destruct (createSchemaExample P config schema None) as [body|e]; [|discriminate].
    rewrite !bind_ret. cbn [outcome snd]. now intros [= <-].
  - rewrite bind_ret. cbn [outcome snd]. now intros [= <-].
Qed.

Lemma parseResponse_malformed_code (pos : Position) (tag : Tag) :
  Js.parseInt (tag_name tag) = None ->
  parseResponse P config pos tag
  = ([Report (lineError (pos_sourceFile pos)
                        (line_add (pos_line pos) (tag_line tag))
                        ("Error: Response code '" +:+ tag_name tag
                         +:+ "' should be a number."))],
     Throw NiceError).
Proof. intros H. unfold parseResponse. now rewrite H. Qed.

Lemma resolveSchema_unresolved (pos : Position) (tag : Tag) (typeName message : string) :
  getSchemaForSymbol P typeName = inl message ->
  resolveSchema P config pos tag typeName
  = ([Report (lineError (pos_sourceFile pos)
                        (line_add (pos_line pos) (tag_line tag))
                        ("Error: In generating schema for type " +:+ typeName
                         +:+ ", " +:+ message +:+ "."))],
     Throw NiceError).
Proof. intros H. unfold resolveSchema. now rewrite H. Qed.

Lemma parseResponse_unresolved (pos : Position) (tag : Tag) (code : Z) (message : string) :
  Js.parseInt (tag_name tag) = Some code ->
  structural_type (tag_type tag) = true ->
  getSchemaForSymbol P (tag_type tag) = inl message ->
  parseResponse P config pos tag
  = ([Report (lineError (pos_sourceFile pos)
                        (line_add (pos_line pos) (tag_line tag))
                        ("Error: In generating schema for type " +:+ tag_type tag
                         +:+ ", " +:+ message +:+ "."))],
     Throw NiceError).
Proof.
  intros Hcode Htype Hschema. unfold parseResponse.
  now rewrite Hcode, Htype, (resolveSchema_unresolved _ _ _ _ Hschema).
Qed.

Lemma parseBody_unresolved (pos : Position) (tag : Tag) (contentType : option string)
  (typeName message : string) :
  body_types tag = Some (contentType, Some typeName) ->
  Js.truthy typeName = true ->
  getSchemaForSymbol P typeName = inl message ->
  parseBody P config pos tag
  = ([Report (lineError (pos_sourceFile pos)
                        (line_add (pos_line pos) (tag_line tag))
                        ("Error: In generating schema for type " +:+ typeName
                         +:+ ", " +:+ message +:+ "."))],
     Throw NiceError).
Proof.
  intros Htypes Htruthy Hschema. unfold parseBody. rewrite Htypes.
  cbn [or_empty]. now rewrite Htruthy, (resolveSchema_unresolved _ _ _ _ Hschema).
Qed.

Lemma responses_silent (pos : Position) (tags : list Tag) :
  Forall (fun t => exists r, outcome (parseResponse P config pos t) = Return r) tags ->
  Forall (fun t => exists r, parseResponse P config pos t = ([], Return r)) tags.
Proof.
  apply List.Forall_impl. intros t [r Hr]. exists r.
  now apply parseResponse_Return_silent.
Qed.

(** The first response tag that throws ends [handleKoaRouter]. *)
Lemma handleKoaRouter_response_throws
  (node : CallExpr) (sourceFile : SourceFile) (comment : Comment)
  (others : list Comment) (earlier later : list Tag) (bad : Tag)
  (evs : list Event) (e : Exn) :
  parse P (commentText P sourceFile node) = comment :: others ->
  List.filter (is_tag "response") (comment_tags comment) = earlier ++ bad :: later ->
  Forall (fun t => exists r,
              outcome (parseResponse P config (commentPosition P sourceFile node) t) = Return r)
         earlier ->
  parseResponse P config (commentPosition P sourceFile node) bad = (evs, Throw e) ->
  handleKoaRouter P config node sourceFile = (evs, Throw e).
Proof.
  intros Hparse Htags Hearlier Hbad. unfold handleKoaRouter.
  rewrite Hparse.
  destruct (splitByFirstNewline (comment_description comment)) as [title rawDesc].
  rewrite Htags.
  now rewrite (mapM_first_throw _ earlier later bad evs e
                 (responses_silent _ _ Hearlier) Hbad).
Qed.

(** A single body tag that throws, after responses that parse, ends
    [handleKoaRouter]. *)
Lemma handleKoaRouter_body_throws
  (node : CallExpr) (sourceFile : SourceFile) (comment : Comment)
  (others : list Comment) (body : Tag) (evs : list Event) (e : Exn) :
  parse P (commentText P sourceFile node) = comment :: others ->
  Forall (fun t => exists r,
              outcome (parseResponse P config (commentPosition P sourceFile node) t) = Return r)
         (List.filter (is_tag "response") (comment_tags comment)) ->
  List.filter (is_tag "body") (comment_tags comment) = [body] ->
  parseBody P config (commentPosition P sourceFile node) body = (evs, Throw e) ->
  handleKoaRouter P config node sourceFile = (evs, Throw e).
Proof.
  intros Hparse Hresponses Hbodies Hbody. unfold handleKoaRouter.
  rewrite Hparse.
  destruct (splitByFirstNewline (comment_description comment)) as [title rawDesc].
  destruct (mapM_silent _ _ (responses_silent _ _ Hresponses)) as [rs ->].
  rewrite bind_silent, Hbodies. cbn [length Nat.ltb Nat.leb].
  now rewrite Hbody.
Qed.

(** A qualifying call whose route throws a [NiceError] leaves the
    routes collected so far as they are; the scan goes on. *)
Lemma lookForRoutes_skips_route
  (sourceFile : SourceFile) (node : CallExpr) (children : list Node)
  (routersToRoutes : RouterMap) (evs : list Event) :
  isRouterFunction sourceFile node = ([], Return true) ->
  handleKoaRouter P config node sourceFile = (evs, Throw NiceError) ->
  lookForRoutes P config sourceFile (MkNode (CallExpression node) children)
    routersToRoutes
  = (evs, Return routersToRoutes).
Proof.
  intros Hq Hroute. cbn [lookForRoutes]. rewrite Hq, bind_silent, Hroute.
  unfold catchNice. rewrite bind_pure.
  unfold isRouterFunction in Hq.
  destruct (receiverSymbol node) as [sym|]; [|discriminate].
  cbn [events outcome fst snd ret]. now rewrite app_nil_r.
Qed.

End ScannerProperties.

(** ** The traversal *)

(** Induction on syntax trees, with the hypothesis on every child. *)
Lemma Node_induction (Q : Node -> Prop) :
  (forall kind children, Forall Q children -> Q (MkNode kind children)) ->
  forall node, Q node.
Proof.
  intros Hnode. fix IH 1. intros [kind children]. apply Hnode.
  induction children as [|child children IHchildren]; constructor.
  - apply IH.
  - exact IHchildren.
Qed.

Lemma foldM_ext_Forall {A S} (f g : A -> S -> M S) (l : list A) :
  Forall (fun x => forall s, f x s = g x s) l ->
  forall s, foldM f l s = foldM g l s.
Proof.
  induction 1 as [|x l Hx _ IH]; intros s; [reflexivity|].
  rewrite !foldM_cons, Hx. apply bind_ext, IH.
Qed.

Lemma written_app (evs evs' : list Event) :
  written (evs ++ evs') = written evs ++ written evs'.
Proof. unfold written. apply flat_map_app. Qed.

Lemma reports_app (evs evs' : list Event) :
  reports (evs ++ evs') = reports evs ++ reports evs'.
Proof. unfold reports. apply flat_map_app. Qed.

Section TraversalProperties.

Context (P : Platform) (config : Config).

Lemma bind_ret_r {A} (m : M A) : bind m ret = m.
Proof. destruct m as [evs [a|e]]; cbn; [now rewrite app_nil_r|reflexivity]. Qed.

Lemma substring_whole (s : string) : String.substring 0 (String.length s) s = s.
Proof. induction s as [|c s IH]; [reflexivity|]. cbn. now rewrite IH. Qed.

(** In a file that begins with its first token, [getText()] is the text
    of the file. *)
Lemma getText_whole (sf : SourceFile) :
  fileStart sf = 0%nat -> getText sf = fileText sf.
Proof.
  intros H. unfold getText, Js.substring. rewrite H.
  rewrite Nat.min_0_l, Nat.max_0_l, Nat.sub_0_r. apply substring_whole.
Qed.

(** The scanner reads the name and the text of the source file, not its
    statements. *)
Lemma handleKoaRouter_with_children (sf : SourceFile) (children : list Node)
  (node : CallExpr) :
  handleKoaRouter P config node (with_children sf children)
  = handleKoaRouter P config node sf.
Proof. reflexivity. Qed.

Lemma lookForRoutes_with_children (sf : SourceFile) (children : list Node) :
  forall node m,
    lookForRoutes P config (with_children sf children) node m
    = lookForRoutes P config sf node m.
Proof.
  intros node. induction node as [kind nodes IH] using Node_induction.
  intros m. cbn [lookForRoutes].
  pose proof (foldM_ext_Forall _ _ _ IH) as Hnodes.
  destruct kind as [callexpr|]; [|apply Hnodes].
  change (isRouterFunction (with_children sf children) callexpr)
    with (isRouterFunction sf callexpr).
  apply bind_ext. intros [|]; [|apply Hnodes].
  rewrite handleKoaRouter_with_children.
  apply bind_ext. intros route.
  destruct (receiverSymbol callexpr); [|reflexivity].
  destruct route; [apply Hnodes|reflexivity].
Qed.

Lemma scanSourceFile_with_children (sf : SourceFile) (children : list Node) :
  scanSourceFile P config (with_children sf children)
  = foldM (lookForRoutes P config sf) children [].
Proof.
  unfold scanSourceFile. cbn [with_children fileChildren].
  apply foldM_ext_Forall, List.Forall_forall. intros node _.
  apply lookForRoutes_with_children.
Qed.

Lemma scanSourceFile_children (sf : SourceFile) (children : list Node) :
  fileChildren sf = children ->
  scanSourceFile P config sf = foldM (lookForRoutes P config sf) children [].
Proof. intros <-. reflexivity. Qed.

(** Below a node on which the traversal goes on, the children are
    visited, after the events of the node itself, with a map that does
    not depend on them. *)
Lemma lookForRoutes_descends (sf : SourceFile) (kind : NodeKind) :
  descends P config sf kind = true ->
  forall m, exists evs m',
    forall children,
      lookForRoutes P config sf (MkNode kind children) m
      = bind (evs, Return m') (foldM (lookForRoutes P config sf) children).
Proof.
  intros H m. destruct kind as [callexpr|]; cbn [descends] in H.
  - destruct (isRouterFunction sf callexpr) as [evs1 [[|]|e]] eqn:Hq;
      cbn [outcome snd] in H; [| |discriminate].
    + destruct (catchNice (handleKoaRouter P config callexpr sf))
        as [evs2 [[r|]|e]] eqn:Hr; cbn [outcome snd] in H; try discriminate.
      assert (Hsym : exists sym, receiverSymbol callexpr = Some sym).
      { unfold isRouterFunction in Hq.
        destruct (receiverSymbol callexpr) as [sym|]; [now exists sym|discriminate]. }
      destruct Hsym as [sym Hsym].
      exists (evs1 ++ evs2), (push_to Nat.eqb sym r m). intros children.
      cbn [lookForRoutes]. rewrite Hq, Hr, Hsym. cbn [bind].
      destruct (foldM _ children _) as [evs3 o3]. now rewrite app_assoc.
    + exists evs1, m. intros children. cbn [lookForRoutes]. now rewrite Hq.
  - exists [], m. intros children. cbn [lookForRoutes]. now rewrite bind_silent.
Qed.

(** The scan of a tree, split at a place that the traversal reaches:
    first the events of everything in front of the place, then the nodes
    at the place, then a rest that depends on the nodes at the place only
    through the map they hand on. *)
Lemma foldM_plug (sf : SourceFile) (frames : list Frame) (pre : list Node) :
  reaches P config sf frames = true ->
  forall m evs m1,
    foldM (lookForRoutes P config sf) (plug (before frames) pre) m
    = (evs, Return m1) ->
    exists K : RouterMap -> M RouterMap,
      forall mid,
        foldM (lookForRoutes P config sf) (plug frames (pre ++ mid)) m
        = bind (evs, Return m1)
               (fun m1 => bind (foldM (lookForRoutes P config sf) mid m1) K).
Proof.
  induction frames as [|frame frames IH]; intros Hreach m evs m1 Hbefore.
  - exists ret. intros mid. cbn [plug before map] in *.
    rewrite foldM_app, Hbefore. apply bind_ext. intros a. now rewrite bind_ret_r.
  - unfold reaches in Hreach. cbn [forallb] in Hreach.
    apply andb_true_iff in Hreach as [Hkind Hreach]. fold (reaches P config sf frames) in Hreach.
    change (before (frame :: frames))
      with ({| frame_before := frame_before frame; frame_kind := frame_kind frame;
               frame_after := [] |} :: before frames) in Hbefore.
    cbn [plug frame_before frame_kind frame_after] in Hbefore |- *.
    rewrite foldM_app in Hbefore.
    destruct (foldM (lookForRoutes P config sf) (frame_before frame) m)
      as [evsa [ma|e]] eqn:Hpre; [|discriminate].
    destruct (lookForRoutes_descends sf (frame_kind frame) Hkind ma)
      as (evsk & mb & Hnode).
    rewrite bind_pure, foldM_cons, Hnode in Hbefore.
    cbn [bind] in Hbefore.
    match type of Hbefore with
    | context [foldM ?f ?l mb] =>
        destruct (foldM f l mb) as [evsi [mi|e]] eqn:Hinner
    end; cbn in Hbefore; [|discriminate].
    injection Hbefore as <- <-.
    destruct (IH Hreach mb evsi mi Hinner) as [K HK].
    exists (fun m2 => bind (K m2) (foldM (lookForRoutes P config sf) (frame_after frame))).
    intros mid. rewrite foldM_app, Hpre, bind_pure, foldM_cons, Hnode, bind_assoc.
    rewrite (bind_pure mb evsk), HK, bind_assoc, (bind_pure mi evsi).
    rewrite (bind_pure mi (evsa ++ _)).
    rewrite <- !(bind_assoc (foldM (lookForRoutes P config sf) mid mi) K).
    destruct (bind (bind (foldM (lookForRoutes P config sf) mid mi) K)
                   (foldM (lookForRoutes P config sf) (frame_after frame)))
      as [evsr o].
    cbn [events outcome fst snd].
    f_equal. rewrite app_nil_r, <- !app_assoc. reflexivity.
Qed.

(** A node that the scan passes over, reporting [evs], adds [evs] to the
    events of the scan of the tree without it, at the point where the
    traversal reaches it, and changes nothing else. *)
Lemma foldM_plug_skipped (sf : SourceFile) (frames : list Frame)
  (pre post : list Node) (node : Node) (skipped : list Event) :
  (forall m, lookForRoutes P config sf node m = (skipped, Return m)) ->
  reaches P config sf frames = true ->
  forall m evs m1,
    foldM (lookForRoutes P config sf) (plug (before frames) pre) m
    = (evs, Return m1) ->
    exists rest o,
      foldM (lookForRoutes P config sf) (plug frames (pre ++ post)) m
      = (evs ++ rest, o) /\
      foldM (lookForRoutes P config sf) (plug frames (pre ++ node :: post)) m
      = (evs ++ skipped ++ rest, o).
Proof.
  intros Hskip Hreach m evs m1 Hbefore.
  destruct (foldM_plug sf frames pre Hreach m evs m1 Hbefore) as [K HK].
  rewrite !HK, !bind_pure. cbv beta.
  rewrite foldM_cons, Hskip, bind_assoc, (bind_pure m1 skipped).
  destruct (bind (foldM (lookForRoutes P config sf) post m1) K) as [rest o].
  exists rest, o. split; reflexivity.
Qed.

(** A node on which the scan throws ends the scan of the tree, after the
    events of everything in front of it. *)
Lemma foldM_plug_throws (sf : SourceFile) (frames : list Frame)
  (pre post : list Node) (node : Node) (thrown : list Event) (e : Exn) :
  (forall m, lookForRoutes P config sf node m = (thrown, Throw e)) ->
  reaches P config sf frames = true ->
  forall m evs m1,
    foldM (lookForRoutes P config sf) (plug (before frames) pre) m
    = (evs, Return m1) ->
    foldM (lookForRoutes P config sf) (plug frames (pre ++ node :: post)) m
    = (evs ++ thrown, Throw e).
Proof.
  intros Hthrow Hreach m evs m1 Hbefore.
  destruct (foldM_plug sf frames pre Hreach m evs m1 Hbefore) as [K HK].
  rewrite HK, bind_pure. cbv beta. now rewrite foldM_cons, Hthrow.
Qed.

End TraversalProperties.

(** ** Route-local errors *)

Section RouteErrors.

Context (P : Platform) (config : Config).

Let lineOf (sourceFile : SourceFile) (node : CallExpr) (tag : Tag) : LineNo :=
  line_add (minLine P sourceFile (leadingComments P sourceFile node)) (tag_line tag).

(** C7, as the code has it.  Take a qualifying call at any place of the
    syntax tree of a source file that the traversal reaches: it goes on
    below every node on the way down to the call, and the scan of the
    tree cut off in front of the call returns, with the events [evs].
    The comment of the call holds a [@response] tag [bad] with a status
    code that does not parse, all earlier [@response] tags of the
    comment parsing without error.  Then
    - the call is passed over: the scan reports one error and collects
      no Block for the call.  The line of the error is the line of [bad]
      in the comment, added to the smallest line that the line map of
      the file gives to the start offsets of the comment ranges; the
      ranges are those found in [getText()] from the offset
      [getFullStart()] of the call on, which are the comments in front
      of the call in the text of the file when the file begins with its
      first token;
    - [documentSourceFile] does on the file what it does on the file
      without that call, but for the one error, which is reported when
      the traversal reaches the call: the events in front of it, the
      events behind it, the output among them, and the end are the
      same. *)
Theorem malformed_response_code_skips_route
  (sourceFile : SourceFile) (frames : list Frame) (pre post children : list Node)
  (node : CallExpr) (comment : Comment) (others : list Comment)
  (earlier later : list Tag) (bad : Tag) (evs : list Event) (m1 : RouterMap) :
  let route := MkNode (CallExpression node) children in
  let without := with_children sourceFile (plug frames (pre ++ post)) in
  let upto := with_children sourceFile (plug (before frames) pre) in
  let diagnostic :=
    lineError sourceFile (lineOf sourceFile node bad)
      ("Error: Response code '" +:+ tag_name bad +:+ "' should be a number.") in
  fileChildren sourceFile = plug frames (pre ++ route :: post) ->
  isRouterFunction sourceFile node = ([], Return true) ->
  parse P (commentText P sourceFile node) = comment :: others ->
  List.filter (is_tag "response") (comment_tags comment) = earlier ++ bad :: later ->
  Forall (fun t => exists r,
              outcome (parseResponse P config (commentPosition P sourceFile node) t) = Return r)
         earlier ->
  Js.parseInt (tag_name bad) = None ->
  reaches P config sourceFile frames = true ->
  scanSourceFile P config upto = (evs, Return m1) ->
  (forall m, lookForRoutes P config sourceFile route m
             = ([Report diagnostic], Return m)) /\
  (fileStart sourceFile = 0%nat ->
   leadingComments P sourceFile node
   = getLeadingCommentRanges P (fileText sourceFile) (call_fullStart node)) /\
  exists rest o,
    documentSourceFile P config without = (evs ++ rest, o) /\
    documentSourceFile P config sourceFile = (evs ++ Report diagnostic :: rest, o).
Proof.
  intros route without upto diagnostic
         Htree Hq Hparse Htags Hearlier Hcode Hreach Hupto.
  assert (Hskip : forall m, lookForRoutes P config sourceFile route m
                            = ([Report diagnostic], Return m)).
  { intros m. apply (lookForRoutes_skips_route P config); [exact Hq|].
    apply (handleKoaRouter_response_throws P config node sourceFile comment others
             earlier later bad); try assumption.
    now apply parseResponse_malformed_code. }
  split; [exact Hskip|].
  split; [intros Hstart; unfold leadingComments; now rewrite getText_whole|].
  unfold upto in Hupto. rewrite scanSourceFile_with_children in Hupto.
  destruct (foldM_plug_skipped P config sourceFile frames pre post route
              [Report diagnostic] Hskip Hreach [] evs m1 Hupto)
    as (rest & o & Hwithout & Hwith).
  unfold documentSourceFile, without.
  rewrite scanSourceFile_with_children, Hwithout.
  rewrite (scanSourceFile_children P config sourceFile _ Htree), Hwith.
  destruct o as [m2|e].
  - destruct (emitRouters P m2) as [evs3 o3] eqn:E.
    exists (rest ++ evs3), o3. cbn [bind]. rewrite E.
    split; f_equal; now rewrite <- !app_assoc.
  - exists rest, (Throw e). split; reflexivity.
Qed.

(** C2, as the code has it.  A [@response] tag, or the [@body] tag,
    whose data-type name does not resolve makes the scan pass over the
    whole route: no Block is collected for the call, one error is
    reported, and the scan goes on with the routes collected so far.
    (The [@response] tags before the failing tag, respectively all
    [@response] tags before a failing [@body] tag, parse without
    error.)  The line of the error is the line of the tag in the
    comment, added to the smallest line that the line map of the file
    gives to the start offsets of the comment ranges; the ranges are
    those found in [getText()] from the offset [getFullStart()] of the
    call on, which are the comments in front of the call in the text of
    the file when the file begins with its first token. *)
Theorem unresolved_type_skips_route
  (sourceFile : SourceFile) (node : CallExpr) (children : list Node)
  (comment : Comment) (others : list Comment) :
  isRouterFunction sourceFile node = ([], Return true) ->
  parse P (commentText P sourceFile node) = comment :: others ->
  (forall (earlier later : list Tag) (bad : Tag) (code : Z) (message : string),
      List.filter (is_tag "response") (comment_tags comment) = earlier ++ bad :: later ->
      Forall (fun t => exists r,
                  outcome (parseResponse P config (commentPosition P sourceFile node) t) = Return r)
             earlier ->
      Js.parseInt (tag_name bad) = Some code ->
      structural_type (tag_type bad) = true ->
      getSchemaForSymbol P (tag_type bad) = inl message ->
      forall m,
        lookForRoutes P config sourceFile (MkNode (CallExpression node) children) m
        = ([Report (lineError sourceFile (lineOf sourceFile node bad)
                      ("Error: In generating schema for type " +:+ tag_type bad
                       +:+ ", " +:+ message +:+ "."))],
           Return m))
  /\
  (forall (body : Tag) (contentType : option string) (typeName message : string),
      Forall (fun t => exists r,
                  outcome (parseResponse P config (commentPosition P sourceFile node) t) = Return r)
             (List.filter (is_tag "response") (comment_tags comment)) ->
      List.filter (is_tag "body") (comment_tags comment) = [body] ->
      body_types body = Some (contentType, Some typeName) ->
      Js.truthy typeName = true ->
      getSchemaForSymbol P typeName = inl message ->
      forall m,
        lookForRoutes P config sourceFile (MkNode (CallExpression node) children) m
        = ([Report (lineError sourceFile (lineOf sourceFile node body)
                      ("Error: In generating schema for type " +:+ typeName
                       +:+ ", " +:+ message +:+ "."))],
           Return m))
  /\
  (fileStart sourceFile = 0%nat ->
   leadingComments P sourceFile node
   = getLeadingCommentRanges P (fileText sourceFile) (call_fullStart node)).
Proof.
  intros Hq Hparse. split; [|split].
  - intros earlier later bad code message Htags Hearlier Hcode Htype Hschema m.
    apply (lookForRoutes_skips_route P config); [exact Hq|].
    apply (handleKoaRouter_response_throws P config node sourceFile comment others
             earlier later bad); try assumption.
    exact (parseResponse_unresolved P config (commentPosition P sourceFile node) bad code
             message Hcode Htype Hschema).
  - intros body contentType typeName message Hresponses Hbodies Htypes Htruthy Hschema m.
    apply (lookForRoutes_skips_route P config); [exact Hq|].
    apply (handleKoaRouter_body_throws P config node sourceFile comment others body);
      try assumption.
    exact (parseBody_unresolved P config (commentPosition P sourceFile node) body contentType
             typeName message Htypes Htruthy Hschema).
  - intros Hstart. unfold leadingComments. now rewrite getText_whole.
Qed.

End RouteErrors.

Lemma malformed_response_code_skips_route_witness :
  exists rest o,
    documentSourceFile Demo.platform Demo.config Demo.without_incorrect = (rest, o) /\
    documentSourceFile Demo.platform Demo.config Demo.with_incorrect
    = (Report (lineError Demo.with_incorrect (Line 53)
                 "Error: Response code 'uh' should be a number.") :: rest, o).
Proof.
  destruct (malformed_response_code_skips_route Demo.platform Demo.config
              Demo.with_incorrect
              [{| frame_before := [Demo.statement Demo.hello];
                  frame_kind := OtherKind;
                  frame_after := [Demo.statement Demo.hello_post] |}]
              [] [] [MkNode OtherKind []] Demo.incorrect
              Demo.incorrect_comment [] [] [] Demo.tag_response_uh
              [] [(1%nat, [Demo.hello_block "get"])])
    as (_ & _ & rest & o & Hwithout & Hwith).
  - reflexivity.
  - reflexivity.
  - vm_compute. reflexivity.
  - reflexivity.
  - constructor.
  - reflexivity.
  - reflexivity.
  - vm_compute. reflexivity.
  - exists rest, o. split; [exact Hwithout|exact Hwith].
Defined.

(** C7 as stated fails: when an earlier [@response] tag of the comment
    fails first, the malformed status code on line 84 is never looked at
    and no diagnostic refers to its line. *)
Lemma malformed_response_code_not_reported :
  Js.parseInt (tag_name Demo.tag_response_abc) = None /\
  In Demo.tag_response_abc (comment_tags Demo.twice_comment) /\
  parse Demo.platform
    (commentText Demo.platform (Demo.file [Demo.statement Demo.twice]) Demo.twice)
  = [Demo.twice_comment] /\
  line_add (pos_line (commentPosition Demo.platform
                        (Demo.file [Demo.statement Demo.twice]) Demo.twice))
           (tag_line Demo.tag_response_abc)
  = Line 84 /\
  map diag_at
      (reports (events (documentSourceFile Demo.platform Demo.config
                          (Demo.file [Demo.statement Demo.twice]))))
  = [AtLine (Line 83)] /\
  ~ In (AtLine (Line 84))
       (map diag_at
            (reports (events (documentSourceFile Demo.platform Demo.config
                                (Demo.file [Demo.statement Demo.twice]))))).
Proof.
  split; [reflexivity|]. split; [right; left; reflexivity|].
  split; [vm_compute; reflexivity|]. split; [vm_compute; reflexivity|].
  split; [vm_compute; reflexivity|].
  vm_compute. intros [H|[]]. discriminate H.
Qed.

Lemma unresolved_type_skips_route_witness :
  (forall m,
      lookForRoutes Demo.platform Demo.config (Demo.file [Demo.statement Demo.missing])
        (Demo.route Demo.missing) m
      = ([Report (lineError (Demo.file []) (Line 64)
                    "Error: In generating schema for type Missing, type Missing not found.")],
         Return m)) /\
  (forall m,
      lookForRoutes Demo.platform Demo.config
        (Demo.file [Demo.statement Demo.missing_body])
        (Demo.route Demo.missing_body) m
      = ([Report (lineError (Demo.file []) (Line 73)
                    "Error: In generating schema for type Missing, type Missing not found.")],
         Return m)).
Proof.
  split.
  - apply (proj1 (unresolved_type_skips_route Demo.platform Demo.config
                    (Demo.file [Demo.statement Demo.missing]) Demo.missing
                    [MkNode OtherKind []] Demo.missing_comment [] eq_refl eq_refl)
             [] [] Demo.tag_response_missing 200 "type Missing not found").
    + reflexivity.
    + constructor.
    + reflexivity.
    + reflexivity.
    + reflexivity.
  - apply (proj1 (proj2 (unresolved_type_skips_route Demo.platform Demo.config
                    (Demo.file [Demo.statement Demo.missing_body]) Demo.missing_body
                    [MkNode OtherKind []] Demo.missing_body_comment [] eq_refl eq_refl))
             Demo.tag_body_missing (Some "application/json") "Missing"
             "type Missing not found").
    + constructor.
    + reflexivity.
    + reflexivity.
    + reflexivity.
    + reflexivity.
Defined.

(** C2 as stated fails: the route whose [@response] names an unknown
    type yields no Block at all, although its [@param] tag is fine;
    nothing is emitted for it. *)
Lemma unresolved_type_drops_block :
  In Demo.tag_param_id (comment_tags Demo.missing_comment) /\
  parse Demo.platform
    (commentText Demo.platform (Demo.file [Demo.statement Demo.missing]) Demo.missing)
  = [Demo.missing_comment] /\
  getSchemaForSymbol Demo.platform (tag_type Demo.tag_response_missing)
  = inl "type Missing not found" /\
  outcome (scanSourceFile Demo.platform Demo.config
             (Demo.file [Demo.statement Demo.missing]))
  = Return [] /\
  written (events (documentSourceFile Demo.platform Demo.config
                     (Demo.file [Demo.statement Demo.missing]))) = [].
Proof.
  split; [left; reflexivity|]. split; [vm_compute; reflexivity|].
  split; [reflexivity|].
  split; vm_compute; reflexivity.
Qed.

(** What the offsets do when the file does not begin with its first
    token.  Behind an empty first line, the comment of the route stands
    at offset 512 of the text, on line 51, and its [@response] tag on
    line 54; the scanner finds the comment at offset 511 of [getText()],
    which the line map of the file puts on line 50, and the error is
    reported at line 53.  Behind a comment on the first line, the scanner
    finds no comment in front of the route and passes the route over as
    undocumented. *)
Example leading_trivia_moves_the_comment_ranges :
  let blank_first := Demo.behind nl [Demo.statement (Demo.moved 1 Demo.incorrect)] in
  let comment_first :=
    Demo.behind Demo.header [Demo.statement (Demo.moved 13 Demo.incorrect)] in
  (Js.substring 512 550 (fileText blank_first) = Demo.incorrect_text /\
   lineOfPosition Demo.platform (fileText blank_first) 512 = 51 /\
   tag_line Demo.tag_response_uh = 3 /\
   leadingComments Demo.platform blank_first (Demo.moved 1 Demo.incorrect)
   = [{| range_pos := 511; range_end := 549 |}] /\
   map diag_at
       (reports (events (documentSourceFile Demo.platform Demo.config blank_first)))
   = [AtLine (Line 53)])
  /\
  (Js.substring 524 562 (fileText comment_first) = Demo.incorrect_text /\
   leadingComments Demo.platform comment_first (Demo.moved 13 Demo.incorrect) = [] /\
   map diag_message
       (reports (events (documentSourceFile Demo.platform Demo.config comment_first)))
   = ["Ignoring undocumented route GET /incorrect"]).
Proof. repeat split; vm_compute; reflexivity. Qed.

(** ** Grouping by router (lookForRoutes, documentSourceFile) *)

Lemma push_to_keys (sym : Symbol) (route : Block) (m : RouterMap) :
  map fst (push_to Nat.eqb sym route m)
  = if existsb (Nat.eqb sym) (map fst m) then map fst m else map fst m ++ [sym].
Proof.
  induction m as [|[sym' routes] m IH]; [reflexivity|].
  cbn [push_to map fst existsb]. rewrite (Nat.eqb_sym sym sym').
  destruct (Nat.eqb sym' sym); [reflexivity|].
  cbn [map fst orb]. rewrite IH.
  now destruct (existsb (Nat.eqb sym) (map fst m)).
Qed.

Lemma push_to_NoDup (sym : Symbol) (route : Block) (m : RouterMap) :
  NoDup (map fst m) -> NoDup (map fst (push_to Nat.eqb sym route m)).
Proof.
  intros Hm. rewrite push_to_keys.
  destruct (existsb (Nat.eqb sym) (map fst m)) eqn:E; [exact Hm|].
  apply NoDup_app. split; [exact Hm|]. split; [|apply NoDup_singleton].
  intros x Hx Hsym. apply list_elem_of_singleton in Hsym. subst x.
  assert (existsb (Nat.eqb sym) (map fst m) = true); [|congruence].
  apply existsb_exists. exists sym. split; [now apply list_elem_of_In|].
  apply Nat.eqb_refl.
Qed.

Lemma routes_of_push_to_same (sym : Symbol) (route : Block) (m : RouterMap) :
  routes_of sym (push_to Nat.eqb sym route m) = routes_of sym m ++ [route].
Proof.
  induction m as [|[sym' routes] m IH].
  - cbn. now rewrite Nat.eqb_refl.
  - cbn [push_to routes_of]. destruct (Nat.eqb sym' sym) eqn:E; cbn [routes_of]; now rewrite E.
Qed.

Lemma routes_of_push_to_other (sym other : Symbol) (route : Block) (m : RouterMap) :
  other <> sym -> routes_of other (push_to Nat.eqb sym route m) = routes_of other m.
Proof.
  intros Hne. apply Nat.eqb_neq in Hne. rewrite Nat.eqb_sym in Hne.
  induction m as [|[sym' routes] m IH].
  - cbn. now rewrite Hne.
  - cbn [push_to routes_of]. destruct (Nat.eqb sym' sym) eqn:E; cbn [routes_of].
    + apply Nat.eqb_eq in E. subst sym'. now rewrite Hne.
    + now rewrite IH.
Qed.

Section GroupingProperties.

Context (P : Platform) (config : Config).

Lemma foldM_invariant {A S} (f : A -> S -> M S) (I : S -> Prop) (l : list A) :
  Forall (fun x => forall s s', I s -> outcome (f x s) = Return s' -> I s') l ->
  forall s s', I s -> outcome (foldM f l s) = Return s' -> I s'.
Proof.
  induction 1 as [|x l Hx _ IH]; intros s s' Hs.
  - cbn. now intros [= <-].
  - rewrite foldM_cons. intros (s1 & H1 & H2)%bind_Return_inv.
    exact (IH s1 s' (Hx s s1 Hs H1) H2).
Qed.

Lemma catchNice_Return_inv {A} (m : M (option A)) (r : option A) :
  outcome (catchNice m) = Return r ->
  outcome m = Return r \/ (r = None /\ outcome m = Throw NiceError).
Proof.
  destruct m as [evs [a|[|msg]]]; cbn; intros H.
  - now left.
  - right. split; [congruence|reflexivity].
  - discriminate.
Qed.

(** The map of a scan never holds a symbol twice. *)
Lemma lookForRoutes_NoDup (sf : SourceFile) (node : Node) :
  forall m m',
    NoDup (map fst m) ->
    outcome (lookForRoutes P config sf node m) = Return m' ->
    NoDup (map fst m').
Proof.
  induction node as [kind children IH] using Node_induction.
  intros m m' Hm. cbn [lookForRoutes].
  pose proof (foldM_invariant (lookForRoutes P config sf)
                (fun m => NoDup (map fst m)) children IH) as Hchildren.
  destruct kind as [callexpr|]; [|apply Hchildren, Hm].
  intros ([|] & _ & H)%bind_Return_inv; [|exact (Hchildren _ _ Hm H)].
  apply bind_Return_inv in H as (route & _ & H).
  destruct (receiverSymbol callexpr) as [sym|]; [|discriminate].
  destruct route as [r|].
  - exact (Hchildren _ _ (push_to_NoDup sym r m Hm) H).
  - cbn in H. now injection H as <-.
Qed.

(** C1, as the code has it.  Routes are grouped by the symbol of the
    receiver variable, and by nothing else:
    - a scan ends with at most one entry, hence one Router, per symbol;
    - the Block of a qualifying call is pushed onto the entry of the
      call's receiver symbol, after the Blocks that entry already holds,
      and the entry of every other symbol is left as it is, whatever
      objects the variables hold and whatever path tags they carry. *)
Theorem routes_grouped_by_receiver_symbol :
  (forall (sf : SourceFile) (m : RouterMap),
      outcome (scanSourceFile P config sf) = Return m -> NoDup (map fst m))
  /\
  (forall (sf : SourceFile) (node : CallExpr) (children : list Node)
          (sym : Symbol) (block : Block) (evs : list Event) (m : RouterMap),
      isRouterFunction sf node = ([], Return true) ->
      receiverSymbol node = Some sym ->
      handleKoaRouter P config node sf = (evs, Return (Some block)) ->
      lookForRoutes P config sf (MkNode (CallExpression node) children) m
      = bind (evs, Return tt)
             (fun _ => foldM (lookForRoutes P config sf) children
                             (push_to Nat.eqb sym block m)) /\
      routes_of sym (push_to Nat.eqb sym block m) = routes_of sym m ++ [block] /\
      forall other, other <> sym ->
                    routes_of other (push_to Nat.eqb sym block m) = routes_of other m).
Proof.
  split.
  - intros sf m. unfold scanSourceFile.
    apply (foldM_invariant (lookForRoutes P config sf)
             (fun m => NoDup (map fst m))).
    + apply List.Forall_forall. intros node _. apply lookForRoutes_NoDup.
    + apply NoDup_nil_2.
  - intros sf node children sym block evs m Hq Hsym Hroute.
    split; [|split].
    + cbn [lookForRoutes]. rewrite Hq, bind_silent, Hroute, Hsym.
      cbn [catchNice bind]. reflexivity.
    + apply routes_of_push_to_same.
    + intros other. apply routes_of_push_to_other.
Qed.

End GroupingProperties.

Lemma routes_grouped_by_receiver_symbol_witness :
  NoDup (map fst [(1%nat, [Demo.hello_block "get"]); (2%nat, [Demo.hello_block "post"])])
  /\
  routes_of 1%nat (push_to Nat.eqb 1%nat (Demo.hello_block "post")
                     [(1%nat, [Demo.hello_block "get"])])
  = [Demo.hello_block "get"; Demo.hello_block "post"].
Proof.
  split.
  - apply (proj1 (routes_grouped_by_receiver_symbol Demo.platform Demo.config)
             Demo.aliased).
    vm_compute. reflexivity.
  - destruct (proj2 (routes_grouped_by_receiver_symbol Demo.platform Demo.config)
                Demo.reassigned Demo.second_post [MkNode OtherKind []] 1%nat
                (Demo.hello_block "post") [] [(1%nat, [Demo.hello_block "get"])])
      as (_ & Hsame & _).
    + reflexivity.
    + reflexivity.
    + vm_compute. reflexivity.
    + exact Hsame.
Defined.

(** C1 as stated fails in both directions: two variables that hold the
    same routing object give two Routers, and one variable that holds two
    routing objects in turn gives one Router for both. *)
Lemma routers_follow_variables_not_objects :
  (* aliasing: one object, two symbols, two entries *)
  receiverObject Demo.router_get = receiverObject Demo.alias_post /\
  outcome (scanSourceFile Demo.platform Demo.config Demo.aliased)
  = Return [(1%nat, [Demo.hello_block "get"]); (2%nat, [Demo.hello_block "post"])] /\
  length (List.filter (fun chunk => match Js.strip_prefix (nl +:+ "# Group") chunk with
                                    | Some _ => true
                                    | None => false
                                    end)
            (written (events (documentSourceFile Demo.platform Demo.config Demo.aliased))))
  = 2%nat /\
  (* reassignment: two objects, one symbol, one entry *)
  receiverObject Demo.first_get <> receiverObject Demo.second_post /\
  getJsDocTags Demo.platform 1%nat = getJsDocTags Demo.platform 2%nat /\
  outcome (scanSourceFile Demo.platform Demo.config Demo.reassigned)
  = Return [(1%nat, [Demo.hello_block "get"; Demo.hello_block "post"])].
Proof.
  split; [reflexivity|]. split; [vm_compute; reflexivity|].
  split; [vm_compute; reflexivity|]. split; [discriminate|].
  split; [reflexivity|]. vm_compute. reflexivity.
Qed.

(** ** Router-level documentation (parseRouterDoc) *)

Lemma forEach_total_Forall {A} (f : A -> M unit) (l : list A) :
  Forall (fun x => outcome (f x) = Return tt) l ->
  forEach f l = (flat_map (fun x => events (f x)) l, Return tt).
Proof.
  unfold forEach. induction 1 as [|x l Hx _ IH]; [reflexivity|].
  rewrite foldM_cons, (surjective_M (f x)), Hx. cbn [bind]. now rewrite IH.
Qed.

(** A loop stops at the first iteration that throws. *)
Lemma forEach_first_throw {A} (f : A -> M unit) (pre post : list A) (x : A)
  (evs : list Event) (e : Exn) :
  Forall (fun y => outcome (f y) = Return tt) pre ->
  f x = (evs, Throw e) ->
  forEach f (pre ++ x :: post)
  = (flat_map (fun y => events (f y)) pre ++ evs, Throw e).
Proof.
  intros Hpre Hx. unfold forEach. rewrite foldM_app.
  fold (forEach f pre). rewrite (forEach_total_Forall f pre Hpre).
  cbn [bind]. rewrite foldM_cons, Hx. reflexivity.
Qed.

Section RouterDocProperties.

Context (P : Platform) (config : Config).

Lemma emit_total (doc : Router) : outcome (emit P doc) = Return tt.
Proof.
  unfold emit. rewrite bind_total by reflexivity.
  rewrite forEach_total; [reflexivity|].
  intros g. unfold emitGroup. rewrite forEach_total; [reflexivity|].
  intros r. apply emitRoute_total.
Qed.

Lemma parseRouterDoc_too_many (router : Symbol) (routes : list Group) :
  (1 < length (routePaths (getJsDocTags P router)))%nat ->
  parseRouterDoc P router routes = ([], Throw (Error "Too many @route tags")).
Proof.
  intros H. unfold parseRouterDoc.
  now rewrite (proj2 (Nat.ltb_lt _ _) H).
Qed.

Lemma parseRouterDoc_returns (router : Symbol) (routes : list Group) :
  (length (routePaths (getJsDocTags P router)) <= 1)%nat ->
  exists doc, parseRouterDoc P router routes = ([], Return doc).
Proof.
  intros H. unfold parseRouterDoc.
  rewrite (proj2 (Nat.ltb_ge _ _) H).
  destruct (splitByFirstNewline (getDocumentationComment P router)) as [title description].
  eexists. reflexivity.
Qed.

(** C6, as the code has it.  A router variable with more than one named
    JSDoc tag makes [parseRouterDoc] throw an ordinary error, which
    nothing catches:
    - the loop over the routers of the file stops there: the routers
      before it in discovery order have been emitted, the router itself
      and all routers after it are not;
    - [documentSourceFile] ends with that error;
    - [createDocumentation] ends with the error of the first file that
      throws one, and the files after it are not processed. *)
Theorem too_many_route_tags_aborts_pass :
  (forall (before after : RouterMap) (router : Symbol) (routes : list Block),
      Forall (fun entry =>
                (length (routePaths (getJsDocTags P (fst entry))) <= 1)%nat) before ->
      (1 < length (routePaths (getJsDocTags P router)))%nat ->
      outcome (emitRouters P before) = Return tt /\
      emitRouters P (before ++ (router, routes) :: after)
      = (events (emitRouters P before), Throw (Error "Too many @route tags")) /\
      forall (sourceFile : SourceFile) (evs : list Event),
        scanSourceFile P config sourceFile
        = (evs, Return (before ++ (router, routes) :: after)) ->
        documentSourceFile P config sourceFile
        = (evs ++ events (emitRouters P before),
           Throw (Error "Too many @route tags")))
  /\
  (forall (done rest : list SourceFile) (file : SourceFile)
          (evs : list Event) (e : Exn),
      Forall (fun f => Js.includes_string "node_modules" (fileName f) = false)
             (done ++ file :: rest) ->
      Forall (fun f => outcome (documentSourceFile P config f) = Return tt) done ->
      documentSourceFile P config file = (evs, Throw e) ->
      createDocumentation P config (done ++ file :: rest) true
      = (flat_map (fun f => events (documentSourceFile P config f)) done ++ evs,
         Throw e)).
Proof.
  split.
  - intros before after router routes Hbefore Hrouter.
    assert (Hok : Forall (fun entry => outcome (emitRouterOf P entry) = Return tt) before).
    { eapply List.Forall_impl; [|exact Hbefore].
      intros [r rs] Hr. cbn [fst] in Hr. unfold emitRouterOf.
      destruct (parseRouterDoc_returns r (groupByRoute rs) Hr) as [doc ->].
      rewrite bind_silent. apply emit_total. }
    assert (Hbad : emitRouterOf P (router, routes)
                   = ([], Throw (Error "Too many @route tags"))).
    { unfold emitRouterOf. now rewrite (parseRouterDoc_too_many router _ Hrouter). }
    assert (Hstop : emitRouters P (before ++ (router, routes) :: after)
                    = (events (emitRouters P before),
                       Throw (Error "Too many @route tags"))).
    { unfold emitRouters.
      rewrite (forEach_first_throw _ before after (router, routes) [] _ Hok Hbad).
      rewrite (forEach_total_Forall _ before Hok).
      cbn [events fst]. now rewrite app_nil_r. }
    split; [|split].
    + unfold emitRouters. now rewrite (forEach_total_Forall _ before Hok).
    + exact Hstop.
    + intros sourceFile evs Hscan. unfold documentSourceFile.
      rewrite Hscan. cbn [bind]. now rewrite Hstop.
  - intros done rest file evs e Hnames Hdone Hfile.
    unfold createDocumentation. cbn [negb].
    assert (Hfilter :
              List.filter (fun f => negb (Js.includes_string "node_modules" (fileName f)))
                          (done ++ file :: rest) = done ++ file :: rest).
    { clear -Hnames. induction Hnames as [|f l Hf _ IH]; [reflexivity|].
      cbn [List.filter]. now rewrite Hf, IH. }
    rewrite Hfilter. now apply forEach_first_throw.
Qed.

End RouterDocProperties.

Lemma too_many_route_tags_aborts_pass_witness :
  documentSourceFile Demo.platform Demo.config Demo.two_route_tags
  = ([], Throw (Error "Too many @route tags")) /\
  createDocumentation Demo.platform Demo.config [Demo.two_route_tags; Demo.aliased] true
  = ([], Throw (Error "Too many @route tags")).
Proof.
  destruct (too_many_route_tags_aborts_pass Demo.platform Demo.config) as [Hrouters Hfiles].
  destruct (Hrouters [] [(1%nat, [Demo.hello_block "post"])] 3%nat [Demo.hello_block "get"])
    as (_ & _ & Hdocument).
  - constructor.
  - vm_compute. lia.
  - assert (Hfile : documentSourceFile Demo.platform Demo.config Demo.two_route_tags
                    = ([], Throw (Error "Too many @route tags"))).
    { apply (Hdocument Demo.two_route_tags []). vm_compute. reflexivity. }
    split; [exact Hfile|].
    apply (Hfiles [] [Demo.aliased] Demo.two_route_tags [] _).
    + repeat constructor.
    + constructor.
    + exact Hfile.
Defined.

(** C6 as stated fails: the variable with two [@route] tags is found
    first, and the second variable of the file, whose comment is in
    order, is never emitted; nor is any later file. *)
Lemma too_many_route_tags_stops_other_routers :
  outcome (scanSourceFile Demo.platform Demo.config Demo.two_route_tags)
  = Return [(3%nat, [Demo.hello_block "get"]); (1%nat, [Demo.hello_block "post"])] /\
  length (routePaths (getJsDocTags Demo.platform 3%nat)) = 2%nat /\
  length (routePaths (getJsDocTags Demo.platform 1%nat)) = 1%nat /\
  documentSourceFile Demo.platform Demo.config Demo.two_route_tags
  = ([], Throw (Error "Too many @route tags")) /\
  written (events (createDocumentation Demo.platform Demo.config
                     [Demo.two_route_tags; Demo.aliased] true)) = [] /\
  written (events (documentSourceFile Demo.platform Demo.config
                     (Demo.file [Demo.route Demo.second_post]))) <> [].
Proof.
  split; [vm_compute; reflexivity|]. split; [reflexivity|]. split; [reflexivity|].
  split; [vm_compute; reflexivity|]. split; [vm_compute; reflexivity|].
  vm_compute. discriminate.
Qed.

(* ===================================================================== *)
(** * Further properties of the code *)
(* ===================================================================== *)

(** ** Grouping by path (groupByRoute) *)

(** The ordered map that [groupByRoute] builds. *)
Lemma groupByRoute_unfold (docs : list Block) :
  groupByRoute docs
  = map (fun '(path, methods) => {| grp_path := path; grp_methods := methods |})
        (fold_left (fun groups doc => push_to String.eqb (blk_path doc) doc groups)
                   docs []).
Proof. reflexivity. Qed.

Lemma push_to_paths (path : string) (doc : Block) (m : list (string * list Block)) :
  map fst (push_to String.eqb path doc m)
  = if existsb (String.eqb path) (map fst m) then map fst m else map fst m ++ [path].
Proof.
  induction m as [|[path' docs] m IH]; [reflexivity|].
  cbn [push_to map fst existsb]. rewrite (String.eqb_sym path path').
  destruct (String.eqb path' path); [reflexivity|].
  cbn [map fst orb]. rewrite IH.
  now destruct (existsb (String.eqb path) (map fst m)).
Qed.

Lemma push_to_fresh (path : string) (doc : Block) (m : list (string * list Block)) :
  existsb (String.eqb path) (map fst m) = false ->
  push_to String.eqb path doc m = m ++ [(path, [doc])].
Proof.
  induction m as [|[path' docs] m IH]; [reflexivity|].
  cbn [push_to map fst existsb]. rewrite (String.eqb_sym path path').
  destruct (String.eqb path' path); [discriminate|].
  cbn [orb]. intros H. now rewrite (IH H).
Qed.

Lemma existsb_eqb_In (path : string) (l : list string) :
  existsb (String.eqb path) l = true <-> In path l.
Proof.
  rewrite existsb_exists. split.
  - intros (x & Hx & Heq). apply String.eqb_eq in Heq. now subst.
  - intros H. exists path. split; [exact H|apply String.eqb_refl].
Qed.

Lemma filter_snoc {A} (f : A -> bool) (l : list A) (x : A) :
  List.filter f (l ++ [x]) = List.filter f l ++ (if f x then [x] else []).
Proof. rewrite List.filter_app. reflexivity. Qed.

Lemma push_to_entries (docs : list Block) (doc : Block) (m : list (string * list Block)) :
  NoDup (map fst m) ->
  Forall (fun entry =>
            snd entry = List.filter (fun d => String.eqb (blk_path d) (fst entry)) docs
            /\ snd entry <> []) m ->
  (In (blk_path doc) (map fst m)
   \/ List.filter (fun d => String.eqb (blk_path d) (blk_path doc)) docs = []) ->
  Forall (fun entry =>
            snd entry
            = List.filter (fun d => String.eqb (blk_path d) (fst entry)) (docs ++ [doc])
            /\ snd entry <> [])
         (push_to String.eqb (blk_path doc) doc m).
Proof.
  induction m as [|[path methods] m IH]; intros Hnodup Hm Hin.
  - destruct Hin as [[]|Hnone]. cbn [push_to]. constructor; [|constructor].
    cbn [fst snd]. rewrite filter_snoc, Hnone, String.eqb_refl. now split.
  - cbn [map fst] in Hnodup. apply NoDup_cons in Hnodup as [Hfresh Hnodup].
    apply List.Forall_cons_iff in Hm as [[Hmethods Hne] Hm]. cbn [fst snd] in *.
    cbn [push_to]. destruct (String.eqb path (blk_path doc)) eqn:E.
    + apply String.eqb_eq in E. subst path. constructor.
      * cbn [fst snd]. rewrite filter_snoc, String.eqb_refl, Hmethods.
        split; [reflexivity|]. now destruct (List.filter _ docs).
      * eapply List.Forall_impl; [|apply Forall_forall; intros entry Hentry;
                                    exact (conj (proj1 (Forall_forall _ _) Hm entry Hentry)
                                                Hentry)].
        intros [path' methods'] [[Hmethods' Hne'] Hentry]. cbn [fst snd] in *.
        rewrite filter_snoc. split; [|exact Hne'].
        destruct (String.eqb (blk_path doc) path') eqn:E'; [|now rewrite app_nil_r].
        apply String.eqb_eq in E'. subst path'. exfalso. apply Hfresh.
        apply list_elem_of_fmap. exists (blk_path doc, methods'). now split.
    + constructor.
      * cbn [fst snd]. rewrite filter_snoc, String.eqb_sym, E, app_nil_r. now split.
      * apply IH; [exact Hnodup|exact Hm|].
        destruct Hin as [[Heq|Hin]|Hnone]; [|now left|now right].
        cbn [fst] in Heq. subst path. now rewrite String.eqb_refl in E.
Qed.

(** What the ordered map holds after the documents [docs]: distinct
    paths, under each path the documents of that path in order, and an
    entry for the path of every document. *)
Lemma fold_push_grouped (docs : list Block) :
  let m := fold_left (fun groups doc => push_to String.eqb (blk_path doc) doc groups)
                     docs [] in
  NoDup (map fst m) /\
  Forall (fun entry =>
            snd entry = List.filter (fun d => String.eqb (blk_path d) (fst entry)) docs
            /\ snd entry <> []) m /\
  (forall d, In d docs -> In (blk_path d) (map fst m)).
Proof.
  cbv zeta.
  induction docs as [|doc docs IH] using rev_ind.
  - split; [apply NoDup_nil_2|]. split; [constructor|]. intros d [].
  - rewrite fold_left_app. cbn [fold_left].
    set (m := fold_left _ docs []) in *. destruct IH as (Hnodup & Hm & Hall).
    assert (Hin : In (blk_path doc) (map fst m)
                  \/ List.filter (fun d => String.eqb (blk_path d) (blk_path doc)) docs = []).
    { destruct (existsb (String.eqb (blk_path doc)) (map fst m)) eqn:E.
      - left. now apply existsb_eqb_In.
      - right. destruct (List.filter _ docs) as [|d l] eqn:F; [reflexivity|].
        assert (Hd : In d (List.filter (fun d => String.eqb (blk_path d) (blk_path doc)) docs))
          by (rewrite F; now left).
        apply filter_In in Hd as [Hd Hpath]. apply String.eqb_eq in Hpath.
        apply Hall in Hd. rewrite Hpath in Hd. apply existsb_eqb_In in Hd. congruence. }
    split; [|split].
    + rewrite push_to_paths.
      destruct (existsb (String.eqb (blk_path doc)) (map fst m)) eqn:E; [exact Hnodup|].
      apply NoDup_app. split; [exact Hnodup|]. split; [|apply NoDup_singleton].
      intros x Hx Hsame. apply list_elem_of_singleton in Hsame. subst x.
      apply list_elem_of_In, existsb_eqb_In in Hx. congruence.
    + now apply push_to_entries.
    + intros d Hd. rewrite push_to_paths.
      destruct (existsb (String.eqb (blk_path doc)) (map fst m)) eqn:E.
      * apply in_app_iff in Hd as [Hd|[<-|[]]]; [now apply Hall|].
        now apply existsb_eqb_In.
      * apply in_app_iff. apply in_app_iff in Hd as [Hd|[<-|[]]].
        -- left. now apply Hall.
        -- right. now left.
Qed.

(** X1. [groupByRoute] partitions the Blocks by path: the Groups have
    pairwise distinct paths, every Group holds exactly the Blocks of its
    path, in their order of discovery, and is never empty, and the path
    of every Block has its Group. *)
Theorem groupByRoute_partitions_by_path (docs : list Block) :
  NoDup (map grp_path (groupByRoute docs)) /\
  Forall (fun g =>
            grp_methods g
            = List.filter (fun d => String.eqb (blk_path d) (grp_path g)) docs
            /\ grp_methods g <> [])
         (groupByRoute docs) /\
  (forall d, In d docs -> In (blk_path d) (map grp_path (groupByRoute docs))).
Proof.
  rewrite groupByRoute_unfold.
  destruct (fold_push_grouped docs) as (Hnodup & Hm & Hall).
  set (m := fold_left _ docs []) in *.
  assert (Hpaths : map grp_path
                     (map (fun '(path, methods) =>
                             {| grp_path := path; grp_methods := methods |}) m)
                   = map fst m).
  { rewrite map_map. apply map_ext. now intros [path methods]. }
  rewrite Hpaths. split; [exact Hnodup|]. split; [|exact Hall].
  apply List.Forall_map. eapply List.Forall_impl; [|exact Hm].
  now intros [path methods].
Qed.

(** X2. Groups keep the order in which their paths are first met: a
    Block with a new path opens a Group behind all the others, a Block
    with a known path opens none and moves none. *)
Theorem groupByRoute_first_discovery_order (docs : list Block) (doc : Block) :
  (existsb (fun d => String.eqb (blk_path d) (blk_path doc)) docs = false ->
   groupByRoute (docs ++ [doc])
   = groupByRoute docs ++ [{| grp_path := blk_path doc; grp_methods := [doc] |}])
  /\
  (existsb (fun d => String.eqb (blk_path d) (blk_path doc)) docs = true ->
   map grp_path (groupByRoute (docs ++ [doc])) = map grp_path (groupByRoute docs)).
Proof.
  rewrite !groupByRoute_unfold, fold_left_app. cbn [fold_left].
  destruct (fold_push_grouped docs) as (Hnodup & Hm & Hall).
  set (m := fold_left _ docs []) in *.
  assert (Hkeys : existsb (String.eqb (blk_path doc)) (map fst m)
                  = existsb (fun d => String.eqb (blk_path d) (blk_path doc)) docs).
  { apply eq_true_iff_eq. rewrite existsb_eqb_In, existsb_exists. split.
    - intros Hin. apply in_map_iff in Hin as ([path methods] & Hpath & Hentry).
      cbn [fst] in Hpath. subst path.
      apply (proj1 (List.Forall_forall _ _) Hm) in Hentry as [Hmethods Hne].
      cbn [fst snd] in *. destruct methods as [|d l]; [congruence|].
      assert (Hd : In d (List.filter (fun d => String.eqb (blk_path d) (blk_path doc)) docs))
        by (rewrite <- Hmethods; now left).
      apply filter_In in Hd. now exists d.
    - intros (d & Hd & Hpath). apply String.eqb_eq in Hpath. rewrite <- Hpath.
      now apply Hall. }
  split; intros Hnew; rewrite <- Hkeys in Hnew.
  - rewrite (push_to_fresh _ _ _ Hnew), map_app. reflexivity.
  - rewrite !map_map.
    transitivity (map fst (push_to String.eqb (blk_path doc) doc m)).
    + apply map_ext. now intros [path methods].
    + rewrite push_to_paths, Hnew. apply map_ext. now intros [path methods].
Qed.

Lemma groupByRoute_first_discovery_order_witness :
  groupByRoute ([Demo.hello_at "/a"; Demo.hello_at "/b"] ++ [Demo.hello_at "/c"])
  = groupByRoute [Demo.hello_at "/a"; Demo.hello_at "/b"]
    ++ [{| grp_path := "/c"; grp_methods := [Demo.hello_at "/c"] |}]
  /\
  map grp_path (groupByRoute ([Demo.hello_at "/a"; Demo.hello_at "/b"]
                              ++ [Demo.hello_at "/a"]))
  = ["/a"; "/b"].
Proof.
  split.
  - apply (proj1 (groupByRoute_first_discovery_order
                    [Demo.hello_at "/a"; Demo.hello_at "/b"] (Demo.hello_at "/c"))).
    reflexivity.
  - rewrite (proj2 (groupByRoute_first_discovery_order
                      [Demo.hello_at "/a"; Demo.hello_at "/b"] (Demo.hello_at "/a")));
      reflexivity.
Defined.

(** ** What a tag parser can do *)

Lemma events_bind {A B} (m : M A) (k : A -> M B) :
  events (bind m k)
  = events m ++ match outcome m with
                | Return a => events (k a)
                | Throw _ => []
                end.
Proof.
  destruct m as [evs [a|e]]; cbn [bind events outcome fst snd].
  - now destruct (k a).
  - now rewrite app_nil_r.
Qed.

Lemma written_bind_nil {A B} (m : M A) (k : A -> M B) :
  written (events m) = [] ->
  (forall a, written (events (k a)) = []) ->
  written (events (bind m k)) = [].
Proof.
  intros Hm Hk. rewrite events_bind, written_app, Hm.
  destruct (outcome m); [apply Hk|reflexivity].
Qed.

Lemma bind_Throw_inv {A B} (m : M A) (k : A -> M B) (e : Exn) :
  outcome (bind m k) = Throw e ->
  outcome m = Throw e \/ exists a, outcome m = Return a /\ outcome (k a) = Throw e.
Proof.
  destruct m as [evs [a|e']]; cbn [bind outcome snd].
  - intros H. right. exists a. split; [reflexivity|].
    unfold outcome in *. now destruct (k a).
  - intros [= ->]. now left.
Qed.

Lemma mapM_Throw_inv {A B} (f : A -> M B) (l : list A) (e : Exn) :
  outcome (mapM f l) = Throw e -> exists x, In x l /\ outcome (f x) = Throw e.
Proof.
  induction l as [|x l IH]; [discriminate|].
  rewrite mapM_cons. intros [H|(y & _ & H)]%bind_Throw_inv.
  - exists x. split; [now left|exact H].
  - apply bind_Throw_inv in H as [H|(ys & _ & H)]; [|discriminate].
    destruct (IH H) as (x' & Hin & Hx'). exists x'. split; [now right|exact Hx'].
Qed.

Lemma mapM_written_nil {A B} (f : A -> M B) (l : list A) :
  (forall x, written (events (f x)) = []) -> written (events (mapM f l)) = [].
Proof.
  intros Hf. induction l as [|x l IH]; [reflexivity|].
  rewrite mapM_cons. apply written_bind_nil; [apply Hf|].
  intros y. apply written_bind_nil; [exact IH|reflexivity].
Qed.

Section TagParserProperties.

Context (P : Platform) (config : Config).

Lemma resolveSchema_cases (pos : Position) (tag : Tag) (typeName : string) :
  (exists r, resolveSchema P config pos tag typeName = ([], Return r)) \/
  (exists message,
      resolveSchema P config pos tag typeName
      = ([Report (lineError (pos_sourceFile pos)
                            (line_add (pos_line pos) (tag_line tag)) message)],
         Throw NiceError)).
Proof.
  unfold resolveSchema.
  destruct (getSchemaForSymbol P typeName) as [message|schema].
  - right. eexists. reflexivity.
  - destruct (createSchemaExample P config schema None) as [body|e].
    + left. eexists. reflexivity.
    + right. eexists. reflexivity.
Qed.

Lemma parseResponse_cases (pos : Position) (tag : Tag) :
  (exists r, parseResponse P config pos tag = ([], Return r)) \/
  (exists message,
      parseResponse P config pos tag
      = ([Report (lineError (pos_sourceFile pos)
                            (line_add (pos_line pos) (tag_line tag)) message)],
         Throw NiceError)).
Proof.
  unfold parseResponse.
  destruct (Js.parseInt (tag_name tag)) as [code|]; [|right; eexists; reflexivity].
  destruct (structural_type (tag_type tag)).
  - destruct (resolveSchema_cases pos tag (tag_type tag)) as [[r ->]|[message ->]].
    + left. destruct r. cbn. eexists. reflexivity.
    + right. exists message. reflexivity.
  - left. rewrite bind_ret. eexists. reflexivity.
Qed.

Lemma parseBody_cases (pos : Position) (tag : Tag) :
  (exists r, parseBody P config pos tag = ([], Return r)) \/
  (exists message,
      parseBody P config pos tag
      = ([Report (lineError (pos_sourceFile pos)
                            (line_add (pos_line pos) (tag_line tag)) message)],
         Throw NiceError)).
Proof.
  unfold parseBody.
  destruct (body_types tag) as [[contentType typescriptType]|];
    [|right; eexists; reflexivity].
  destruct (Js.truthy (or_empty typescriptType)).
  - destruct (resolveSchema_cases pos tag (or_empty typescriptType))
      as [[r ->]|[message ->]].
    + left. destruct r. cbn. eexists. reflexivity.
    + right. exists message. reflexivity.
  - left. rewrite bind_ret. eexists. reflexivity.
Qed.

(** X3. A [@response] or [@body] tag either parses, reporting nothing,
    or fails with a [NiceError] after reporting exactly one error, at the
    line of the comment plus the line of the tag in it.  Neither parser
    throws anything else, and neither writes to the output. *)
Theorem tag_parsers_fail_with_one_error_and_NiceError (pos : Position) (tag : Tag) :
  ((exists r, parseResponse P config pos tag = ([], Return r)) \/
   (exists message,
       parseResponse P config pos tag
       = ([Report (lineError (pos_sourceFile pos)
                             (line_add (pos_line pos) (tag_line tag)) message)],
          Throw NiceError)))
  /\
  ((exists r, parseBody P config pos tag = ([], Return r)) \/
   (exists message,
       parseBody P config pos tag
       = ([Report (lineError (pos_sourceFile pos)
                             (line_add (pos_line pos) (tag_line tag)) message)],
          Throw NiceError))).
Proof. split; [apply parseResponse_cases|apply parseBody_cases]. Qed.

Lemma parseResponse_Throw (pos : Position) (tag : Tag) (e : Exn) :
  outcome (parseResponse P config pos tag) = Throw e -> e = NiceError.
Proof.
  destruct (parseResponse_cases pos tag) as [[r ->]|[message ->]]; cbn; congruence.
Qed.

Lemma parseBody_Throw (pos : Position) (tag : Tag) (e : Exn) :
  outcome (parseBody P config pos tag) = Throw e -> e = NiceError.
Proof.
  destruct (parseBody_cases pos tag) as [[r ->]|[message ->]]; cbn; congruence.
Qed.

Lemma parseResponse_written (pos : Position) (tag : Tag) :
  written (events (parseResponse P config pos tag)) = [].
Proof. destruct (parseResponse_cases pos tag) as [[r ->]|[message ->]]; reflexivity. Qed.

Lemma parseBody_written (pos : Position) (tag : Tag) :
  written (events (parseBody P config pos tag)) = [].
Proof. destruct (parseBody_cases pos tag) as [[r ->]|[message ->]]; reflexivity. Qed.

Lemma handleKoaRouter_Throw (node : CallExpr) (sourceFile : SourceFile) (e : Exn) :
  outcome (handleKoaRouter P config node sourceFile) = Throw e ->
  e = NiceError \/ e = Error "Too many @body tags".
Proof.
  unfold handleKoaRouter.
  destruct (parse P _) as [|comment others]; [discriminate|].
  destruct (splitByFirstNewline (comment_description comment)) as [title rawDesc].
  intros [H|(responses & _ & H)]%bind_Throw_inv.
  - apply mapM_Throw_inv in H as (t & _ & H). left.
    exact (parseResponse_Throw _ _ _ H).
  - destruct (Nat.ltb 1 _); [right; cbn in H; congruence|].
    apply bind_Throw_inv in H as [H|(body & _ & H)]; [|discriminate].
    left. destruct (List.filter (is_tag "body") (comment_tags comment)) as [|b bs];
      [discriminate|].
    apply bind_Throw_inv in H as [H|(rb & _ & H)]; [|discriminate].
    exact (parseBody_Throw _ _ _ H).
Qed.

Lemma handleKoaRouter_written (node : CallExpr) (sourceFile : SourceFile) :
  written (events (handleKoaRouter P config node sourceFile)) = [].
Proof.
  unfold handleKoaRouter.
  destruct (parse P _) as [|comment others]; [reflexivity|].
  destruct (splitByFirstNewline (comment_description comment)) as [title rawDesc].
  apply written_bind_nil; [apply mapM_written_nil, parseResponse_written|].
  intros responses. destruct (Nat.ltb 1 _); [reflexivity|].
  apply written_bind_nil; [|reflexivity].
  destruct (List.filter (is_tag "body") (comment_tags comment)) as [|b bs];
    [reflexivity|].
  apply written_bind_nil; [apply parseBody_written|reflexivity].
Qed.

Lemma isRouterFunction_written (sourceFile : SourceFile) (node : CallExpr) :
  written (events (isRouterFunction sourceFile node)) = [].
Proof.
  unfold isRouterFunction.
  destruct (receiverSymbol node); [|reflexivity].
  destruct (negb _); [reflexivity|]. destruct (Nat.ltb _ _); [reflexivity|].
  destruct (calleeMethod node); [|reflexivity].
  destruct (negb _); [reflexivity|].
  destruct (call_arguments node) as [|[path|] args]; reflexivity.
Qed.

Lemma isRouterFunction_Throw (sourceFile : SourceFile) (node : CallExpr) (e : Exn) :
  outcome (isRouterFunction sourceFile node) = Throw e ->
  e = Error "Cannot read property 'kind' of undefined" /\ call_arguments node = [].
Proof.
  unfold isRouterFunction.
  destruct (receiverSymbol node); [|discriminate].
  destruct (negb _); [discriminate|]. destruct (Nat.ltb _ _); [discriminate|].
  destruct (calleeMethod node); [|discriminate].
  destruct (negb _); [discriminate|].
  destruct (call_arguments node) as [|[path|] args]; cbn; [|discriminate..].
  intros [= <-]. now split.
Qed.

Lemma isRouterFunction_true_symbol (sourceFile : SourceFile) (node : CallExpr) :
  outcome (isRouterFunction sourceFile node) = Return true ->
  exists sym, receiverSymbol node = Some sym.
Proof.
  unfold isRouterFunction. destruct (receiverSymbol node) as [sym|]; [|discriminate].
  intros _. now exists sym.
Qed.

Lemma catchNice_Throw_inv {A} (m : M (option A)) (e : Exn) :
  outcome (catchNice m) = Throw e -> outcome m = Throw e /\ e <> NiceError.
Proof.
  destruct m as [evs [a|[|message]]]; cbn; [discriminate..|].
  intros [= <-]. split; [reflexivity|discriminate].
Qed.

Lemma catchNice_events {A} (m : M (option A)) : events (catchNice m) = events m.
Proof. now destruct m as [evs [a|[|message]]]. Qed.

Lemma foldM_Throw_inv {A S} (f : A -> S -> M S) (l : list A) (s : S) (e : Exn) :
  outcome (foldM f l s) = Throw e ->
  exists x s', In x l /\ outcome (f x s') = Throw e.
Proof.
  revert s. induction l as [|x l IH]; intros s; [discriminate|].
  rewrite foldM_cons. intros [H|(s' & _ & H)]%bind_Throw_inv.
  - exists x, s. split; [now left|exact H].
  - destruct (IH s' H) as (x' & s'' & Hin & Hx'). exists x', s''.
    split; [now right|exact Hx'].
Qed.

Lemma foldM_written_nil {A S} (f : A -> S -> M S) (l : list A) :
  Forall (fun x => forall s, written (events (f x s)) = []) l ->
  forall s, written (events (foldM f l s)) = [].
Proof.
  induction 1 as [|x l Hx _ IH]; intros s; [reflexivity|].
  rewrite foldM_cons. apply written_bind_nil; [apply Hx|apply IH].
Qed.

(** The traversal only reports. *)
Lemma lookForRoutes_written (sf : SourceFile) (node : Node) :
  forall m, written (events (lookForRoutes P config sf node m)) = [].
Proof.
  induction node as [kind children IH] using Node_induction.
  intros m. cbn [lookForRoutes].
  pose proof (foldM_written_nil (lookForRoutes P config sf) children IH) as Hchildren.
  destruct kind as [callexpr|]; [|apply Hchildren].
  apply written_bind_nil; [apply isRouterFunction_written|].
  intros [|]; [|apply Hchildren].
  apply written_bind_nil; [rewrite catchNice_events; apply handleKoaRouter_written|].
  intros route. destruct (receiverSymbol callexpr); [|reflexivity].
  destruct route; [apply Hchildren|reflexivity].
Qed.

Lemma lookForRoutes_Throw (sf : SourceFile) (node : Node) :
  forall m e,
    outcome (lookForRoutes P config sf node m) = Throw e ->
    e = Error "Too many @body tags"
    \/ e = Error "Cannot read property 'kind' of undefined".
Proof.
  induction node as [kind children IH] using Node_induction.
  intros m e. cbn [lookForRoutes].
  assert (Hchildren : forall m, outcome (foldM (lookForRoutes P config sf) children m)
                                = Throw e ->
                                e = Error "Too many @body tags"
                                \/ e = Error "Cannot read property 'kind' of undefined").
  { intros m' H. apply foldM_Throw_inv in H as (x & s & Hin & H).
    exact (proj1 (List.Forall_forall _ _) IH x Hin s e H). }
  destruct kind as [callexpr|]; [|apply Hchildren].
  intros [H|(qualifies & Hq & H)]%bind_Throw_inv.
  - right. exact (proj1 (isRouterFunction_Throw _ _ _ H)).
  - destruct qualifies; [|exact (Hchildren _ H)].
    destruct (isRouterFunction_true_symbol _ _ Hq) as [sym Hsym].
    apply bind_Throw_inv in H as [H|(route & _ & H)].
    + apply catchNice_Throw_inv in H as [H Hne].
      destruct (handleKoaRouter_Throw _ _ _ H) as [->| ->]; [congruence|now left].
    + rewrite Hsym in H. destruct route; [exact (Hchildren _ H)|discriminate].
Qed.

(** X4. The scan of a file ends in one of three ways only: it returns
    the routes, or it throws the error of a route with more than one
    [@body] tag, or the type error of a qualifying call without
    arguments.  No [NiceError] leaves the scan, and the error "Expected
    router variable to resolve to a symbol" is never thrown. *)
Theorem scanSourceFile_throws_only (sourceFile : SourceFile) (e : Exn) :
  outcome (scanSourceFile P config sourceFile) = Throw e ->
  (e = Error "Too many @body tags"
   \/ e = Error "Cannot read property 'kind' of undefined")
  /\ e <> NiceError
  /\ e <> Error "Expected router variable to resolve to a symbol".
Proof.
  unfold scanSourceFile. intros H.
  apply foldM_Throw_inv in H as (x & s & _ & H).
  apply lookForRoutes_Throw in H.
  split; [exact H|]. destruct H as [-> | ->]; split; discriminate.
Qed.

(** X5. The traversal never writes to the output: what
    [documentSourceFile] writes, it writes after the whole file has been
    scanned, and a file whose scan throws contributes no output at all. *)
Theorem documentSourceFile_writes_after_scan (sourceFile : SourceFile) :
  written (events (scanSourceFile P config sourceFile)) = [] /\
  written (events (documentSourceFile P config sourceFile))
  = match outcome (scanSourceFile P config sourceFile) with
    | Return routersToRoutes => written (events (emitRouters P routersToRoutes))
    | Throw _ => []
    end.
Proof.
  assert (Hscan : written (events (scanSourceFile P config sourceFile)) = []).
  { unfold scanSourceFile. apply foldM_written_nil.
    apply List.Forall_forall. intros node _. apply lookForRoutes_written. }
  split; [exact Hscan|].
  unfold documentSourceFile. rewrite events_bind, written_app, Hscan.
  now destruct (outcome (scanSourceFile P config sourceFile)).
Qed.

End TagParserProperties.

Lemma scanSourceFile_throws_only_witness :
  outcome (scanSourceFile Demo.platform2 Demo.config
             (Demo.file [Demo.route Demo.hello; Demo.route Demo.two_bodies]))
  = Throw (Error "Too many @body tags")
  /\ Error "Too many @body tags" <> NiceError.
Proof.
  split; [vm_compute; reflexivity|].
  apply (scanSourceFile_throws_only Demo.platform2 Demo.config
           (Demo.file [Demo.route Demo.hello; Demo.route Demo.two_bodies])).
  vm_compute. reflexivity.
Defined.

(** ** Calls that give no route *)

Section SkippedCalls.

Context (P : Platform) (config : Config).

(** X6. A qualifying call in front of which comment-parser finds no
    documentation block is passed over with one warning at the call: no
    Block is collected, the routes found so far are kept, and the nodes
    below the call are not visited. *)
Theorem undocumented_route_is_skipped
  (sourceFile : SourceFile) (node : CallExpr) (children : list Node) (m : RouterMap) :
  isRouterFunction sourceFile node = ([], Return true) ->
  parse P (commentText P sourceFile node) = [] ->
  lookForRoutes P config sourceFile (MkNode (CallExpression node) children) m
  = ([Report {| diag_category := Warning; diag_file := fileName sourceFile;
                diag_at := AtNode (call_start node);
                diag_message := "Ignoring undocumented route "
                                +:+ Js.toUpperCase (method_text node) +:+ " "
                                +:+ path_text node |}],
     Return m).
Proof.
  intros Hq Hparse. cbn [lookForRoutes]. rewrite Hq, bind_silent.
  unfold handleKoaRouter. rewrite Hparse.
  unfold isRouterFunction in Hq.
  destruct (receiverSymbol node) as [sym|]; [|discriminate].
  reflexivity.
Qed.

(** X7. A documented route with more than one [@body] tag, whose
    [@response] tags parse, throws an ordinary error that the scan does
    not catch.  Wherever the call stands in the syntax tree, when the
    traversal reaches it (it goes on below every node on the way down to
    the call, and the scan of the tree cut off in front of the call
    returns, with the events [evs]), [documentSourceFile] ends with that
    error after [evs] and writes nothing, not even the Routers of the
    routes found before it. *)
Theorem too_many_body_tags_abort_the_file
  (sourceFile : SourceFile) (frames : list Frame) (pre post children : list Node)
  (node : CallExpr) (comment : Comment) (others : list Comment)
  (evs : list Event) (m1 : RouterMap) :
  let route := MkNode (CallExpression node) children in
  let upto := with_children sourceFile (plug (before frames) pre) in
  fileChildren sourceFile = plug frames (pre ++ route :: post) ->
  isRouterFunction sourceFile node = ([], Return true) ->
  parse P (commentText P sourceFile node) = comment :: others ->
  Forall (fun t => exists r,
              outcome (parseResponse P config
                         (commentPosition P sourceFile node) t)
              = Return r)
         (List.filter (is_tag "response") (comment_tags comment)) ->
  (1 < length (List.filter (is_tag "body") (comment_tags comment)))%nat ->
  reaches P config sourceFile frames = true ->
  scanSourceFile P config upto = (evs, Return m1) ->
  documentSourceFile P config sourceFile = (evs, Throw (Error "Too many @body tags"))
  /\ written evs = [].
Proof.
  intros route upto Htree Hq Hparse Hresponses Hbodies Hreach Hupto.
  assert (Hroute : handleKoaRouter P config node sourceFile
                   = ([], Throw (Error "Too many @body tags"))).
  { unfold handleKoaRouter. rewrite Hparse.
    destruct (splitByFirstNewline (comment_description comment)) as [title rawDesc].
    destruct (mapM_silent _ _ (responses_silent P config _ _ Hresponses)) as [rs ->].
    rewrite bind_silent. now rewrite (proj2 (Nat.ltb_lt _ _) Hbodies). }
  assert (Hlook : forall m, lookForRoutes P config sourceFile route m
                            = ([], Throw (Error "Too many @body tags"))).
  { intros m. cbn [lookForRoutes route]. now rewrite Hq, bind_silent, Hroute. }
  unfold upto in Hupto. rewrite scanSourceFile_with_children in Hupto.
  split.
  - unfold documentSourceFile.
    rewrite (scanSourceFile_children P config sourceFile _ Htree).
    rewrite (foldM_plug_throws P config sourceFile frames pre post route []
               _ Hlook Hreach [] evs m1 Hupto).
    now rewrite app_nil_r.
  - pose proof (foldM_written_nil (lookForRoutes P config sourceFile)
                  (plug (before frames) pre)
                  (proj2 (List.Forall_forall _ _)
                         (fun n _ => lookForRoutes_written P config sourceFile n)) [])
      as Hquiet.
    now rewrite Hupto in Hquiet.
Qed.

(** X8. A call of a verb on a Router whose first argument is not a
    string literal is no route: the scan reports one warning at the call,
    collects nothing for it, and goes on with the nodes below it. *)
Theorem non_literal_path_is_no_route
  (sourceFile : SourceFile) (node : CallExpr) (children : list Node)
  (sym : Symbol) (verb : string) (args : list Argument) (m : RouterMap) :
  receiverSymbol node = Some sym ->
  receiverType node = ROUTER_TYPE ->
  (3 <= calleeChildCount node)%nat ->
  calleeMethod node = Identifier verb ->
  string_in verb ROUTER_METHODS = true ->
  call_arguments node = OtherArgument :: args ->
  lookForRoutes P config sourceFile (MkNode (CallExpression node) children) m
  = bind
      (tell (Report {| diag_category := Warning; diag_file := fileName sourceFile;
                       diag_at := AtNode (call_start node);
                       diag_message :=
                         "Skipping router using something other than a string literal for defining the path" |}))
      (fun _ => foldM (lookForRoutes P config sourceFile) children m).
Proof.
  intros Hsym Htype Hcount Hmethod Hverb Hargs.
  cbn [lookForRoutes]. unfold isRouterFunction.
  rewrite Hsym, Htype, String.eqb_refl, Hmethod, Hverb, Hargs.
  cbn [negb]. rewrite (proj2 (Nat.ltb_ge _ _) Hcount).
  unfold warn. rewrite bind_assoc. apply bind_ext. intros []. now rewrite bind_ret.
Qed.

(** X9. A call is looked at as a route only if its receiver has a
    symbol, is of the type printed [Router], and the method is one of
    get, post, put, patch and delete.  Any other call ([router.use],
    [app.listen], ...) is traversed silently: the scan collects nothing
    for it and goes on with the nodes below it. *)
Theorem other_calls_are_traversed
  (sourceFile : SourceFile) (node : CallExpr) (children : list Node) (m : RouterMap) :
  receiverSymbol node = None
  \/ receiverType node <> ROUTER_TYPE
  \/ (calleeChildCount node < 3)%nat
  \/ calleeMethod node = OtherChild
  \/ (exists name, calleeMethod node = Identifier name
                   /\ string_in name ROUTER_METHODS = false) ->
  lookForRoutes P config sourceFile (MkNode (CallExpression node) children) m
  = foldM (lookForRoutes P config sourceFile) children m.
Proof.
  intros H. cbn [lookForRoutes].
  assert (Hq : isRouterFunction sourceFile node = ([], Return false)).
  { unfold isRouterFunction.
    destruct (receiverSymbol node) as [sym|]; [|reflexivity].
    destruct H as [H|H]; [discriminate|].
    destruct (String.eqb (receiverType node) ROUTER_TYPE) eqn:Htype; [|reflexivity].
    destruct H as [H|H]; [apply String.eqb_eq in Htype; contradiction|].
    cbn [negb]. destruct (Nat.ltb (calleeChildCount node) 3) eqn:Hcount; [reflexivity|].
    destruct H as [H|H]; [apply Nat.ltb_ge in Hcount; lia|].
    destruct (calleeMethod node) as [name|]; [|reflexivity].
    destruct H as [H|(name' & [= <-] & Hverb)]; [discriminate|].
    now rewrite Hverb. }
  now rewrite Hq, bind_silent.
Qed.

End SkippedCalls.

Lemma undocumented_route_is_skipped_witness :
  lookForRoutes Demo.platform Demo.config (Demo.file []) (Demo.route Demo.silent)
    [(1%nat, [Demo.hello_block "get"])]
  = ([Report {| diag_category := Warning; diag_file := "test/index.ts";
                diag_at := AtNode 95;
                diag_message := "Ignoring undocumented route GET /silent" |}],
     Return [(1%nat, [Demo.hello_block "get"])]).
Proof.
  apply (undocumented_route_is_skipped Demo.platform Demo.config (Demo.file [])
           Demo.silent [MkNode OtherKind []]); reflexivity.
Defined.

Lemma too_many_body_tags_abort_the_file_witness :
  documentSourceFile Demo.platform2 Demo.config
    (Demo.file [Demo.statement Demo.hello; Demo.statement Demo.two_bodies;
                Demo.statement Demo.hello_post])
  = ([], Throw (Error "Too many @body tags")).
Proof.
  apply (too_many_body_tags_abort_the_file Demo.platform2 Demo.config
           (Demo.file [Demo.statement Demo.hello; Demo.statement Demo.two_bodies;
                       Demo.statement Demo.hello_post])
           [{| frame_before := [Demo.statement Demo.hello];
               frame_kind := OtherKind;
               frame_after := [Demo.statement Demo.hello_post] |}]
           [] [] [MkNode OtherKind []] Demo.two_bodies Demo.two_bodies_comment []
           [] [(1%nat, [Demo.hello_block "get"])]).
  - reflexivity.
  - reflexivity.
  - vm_compute. reflexivity.
  - constructor.
  - vm_compute. lia.
  - reflexivity.
  - vm_compute. reflexivity.
Defined.

Lemma non_literal_path_is_no_route_witness :
  lookForRoutes Demo.platform Demo.config (Demo.file [])
    (MkNode (CallExpression Demo.dynamic) [Demo.route Demo.hello]) []
  = ([Report {| diag_category := Warning; diag_file := "test/index.ts";
                diag_at := AtNode 100;
                diag_message :=
                  "Skipping router using something other than a string literal for defining the path" |}],
     Return [(1%nat, [Demo.hello_block "get"])]).
Proof.
  rewrite (non_literal_path_is_no_route Demo.platform Demo.config (Demo.file [])
             Demo.dynamic [Demo.route Demo.hello] 1%nat "get" [OtherArgument] []).
  - vm_compute. reflexivity.
  - reflexivity.
  - reflexivity.
  - vm_compute. lia.
  - reflexivity.
  - reflexivity.
  - reflexivity.
Defined.

Lemma other_calls_are_traversed_witness :
  lookForRoutes Demo.platform Demo.config (Demo.file [])
    (MkNode (CallExpression Demo.use) [Demo.route Demo.hello]) []
  = ([], Return [(1%nat, [Demo.hello_block "get"])]).
Proof.
  rewrite (other_calls_are_traversed Demo.platform Demo.config (Demo.file [])
             Demo.use [Demo.route Demo.hello] []).
  - vm_compute. reflexivity.
  - right. right. right. right. exists "use". split; reflexivity.
Defined.

(** ** Files, router comments and first lines *)

Lemma splitByFirstNewline_spec (str : string) :
  Js.includes Js.newline (fst (splitByFirstNewline str)) = false /\
  str = fst (splitByFirstNewline str)
        +:+ match snd (splitByFirstNewline str) with
            | Some rest => nl +:+ rest
            | None => EmptyString
            end /\
  (snd (splitByFirstNewline str) = None <-> Js.includes Js.newline str = false).
Proof.
  induction str as [|c str (IHfirst & IHjoin & IHnone)]; [now repeat split|].
  cbn [splitByFirstNewline Js.includes].
  destruct (Js.eqc c Js.newline) eqn:E.
  - apply eqc_eq in E. subst c. cbn [fst snd orb]. repeat split; discriminate.
  - destruct (splitByFirstNewline str) as [first rest]. cbn [fst snd orb] in *.
    split; [cbn [Js.includes]; now rewrite E|]. split; [|exact IHnone].
    rewrite append_cons. now f_equal.
Qed.

(** X10. [splitByFirstNewline] cuts a text at its first line break: the
    first part holds no line break, the two parts and the line break
    between them make up the text again, and there is no second part
    exactly when the text has no line break. *)
Theorem splitByFirstNewline_cuts_at_first_line_break (str : string) :
  Js.includes Js.newline (fst (splitByFirstNewline str)) = false /\
  str = fst (splitByFirstNewline str)
        +:+ match snd (splitByFirstNewline str) with
            | Some rest => nl +:+ rest
            | None => EmptyString
            end /\
  (snd (splitByFirstNewline str) = None <-> Js.includes Js.newline str = false).
Proof. apply splitByFirstNewline_spec. Qed.

Section FileProperties.

Context (P : Platform) (config : Config).

(** X11. A router variable with at most one named JSDoc tag always gets
    its Router: the Groups are passed through, the path is never empty
    (it is [/] when there is no tag), the title is the first line of the
    documentation comment and the description is the rest of it,
    untrimmed. *)
Theorem parseRouterDoc_with_at_most_one_tag (router : Symbol) (routes : list Group) :
  (length (routePaths (getJsDocTags P router)) <= 1)%nat ->
  exists doc,
    parseRouterDoc P router routes = ([], Return doc) /\
    rt_routes doc = routes /\
    Js.truthy (rt_path doc) = true /\
    (routePaths (getJsDocTags P router) = [] -> rt_path doc = "/") /\
    Js.includes Js.newline (rt_title doc) = false /\
    getDocumentationComment P router
    = rt_title doc +:+ match rt_description doc with
                       | Some description => nl +:+ description
                       | None => EmptyString
                       end.
Proof.
  intros H. unfold parseRouterDoc. rewrite (proj2 (Nat.ltb_ge _ _) H).
  destruct (splitByFirstNewline_spec (getDocumentationComment P router))
    as (Htitle & Hjoin & _).
  destruct (splitByFirstNewline (getDocumentationComment P router)) as [title description].
  eexists. split; [reflexivity|]. cbn [rt_routes rt_path rt_title rt_description fst snd] in *.
  split; [reflexivity|]. split; [|split; [now intros ->|split; assumption]].
  destruct (routePaths (getJsDocTags P router)) as [|t ts]; [reflexivity|].
  destruct (jsdoc_text t) as [text|]; [|reflexivity].
  now destruct (Js.truthy text) eqn:E.
Qed.

(** X12. [createDocumentation] throws "program has errors" before it
    touches any file when there is no schema generator, and a file whose
    name contains [node_modules] takes no part in the run, wherever it
    stands among the files. *)
Theorem createDocumentation_skips_library_files :
  (forall files,
      createDocumentation P config files false = ([], Throw (Error "program has errors")))
  /\
  (forall (pre post : list SourceFile) (lib : SourceFile) (generatorBuilt : bool),
      Js.includes_string "node_modules" (fileName lib) = true ->
      createDocumentation P config (pre ++ lib :: post) generatorBuilt
      = createDocumentation P config (pre ++ post) generatorBuilt).
Proof.
  split; [reflexivity|].
  intros pre post lib generatorBuilt Hlib. unfold createDocumentation.
  rewrite !List.filter_app. cbn [List.filter]. now rewrite Hlib.
Qed.

End FileProperties.

Lemma parseRouterDoc_with_at_most_one_tag_witness :
  exists doc,
    parseRouterDoc Demo.platform 1%nat [Demo.root_group] = ([], Return doc) /\
    rt_path doc = "/" /\ rt_title doc = "Greetings" /\
    rt_description doc = Some (Demo.lines [""; "Our very own greeter api!"]).
Proof.
  destruct (parseRouterDoc_with_at_most_one_tag Demo.platform 1%nat [Demo.root_group])
    as (doc & Hdoc & _); [vm_compute; lia|].
  exists doc. split; [exact Hdoc|].
  vm_compute in Hdoc. injection Hdoc as <-. repeat split.
Defined.

Lemma createDocumentation_skips_library_files_witness :
  createDocumentation Demo.platform Demo.config
    ([Demo.aliased] ++ Demo.lib_file :: [Demo.with_incorrect]) true
  = createDocumentation Demo.platform Demo.config
      ([Demo.aliased] ++ [Demo.with_incorrect]) true.
Proof.
  apply (proj2 (createDocumentation_skips_library_files Demo.platform Demo.config)).
  reflexivity.
Defined.

(** ** The brackets of a body tag (parseBody) *)

Lemma before_closing_brace_cons (c : ascii) (r : string) :
  r <> EmptyString ->
  before_closing_brace (String c r)
  = if is_line_terminator c then None
    else option_map (String c) (before_closing_brace r).
Proof. destruct r; [congruence|reflexivity]. Qed.

Lemma before_closing_brace_append (s : string) :
  Js.some_char is_line_terminator s = false ->
  before_closing_brace (s +:+ "}") = Some s.
Proof.
  induction s as [|c s IH]; [reflexivity|].
  cbn [Js.some_char]. intros H. apply orb_false_iff in H as [Hc Hs].
  rewrite append_cons, before_closing_brace_cons, Hc, (IH Hs); [reflexivity|].
  now destruct s.
Qed.

(** X13. The two brackets of a [@body] tag may come in either order: the
    one whose text contains [/] is the content type, the other one the
    data type, whether the data type stands in the type slot and the
    content type in the name slot or the other way round. *)
Theorem body_tag_brackets_in_either_order
  (dataType contentType tag description source : string) (line : Z) :
  Js.truthy dataType = true ->
  Js.includes Js.slash dataType = false ->
  Js.includes Js.slash contentType = true ->
  Js.some_char is_line_terminator dataType = false ->
  Js.some_char is_line_terminator contentType = false ->
  body_types {| tag_tag := tag; tag_name := "{" +:+ contentType +:+ "}";
                tag_type := dataType; tag_description := description;
                tag_line := line; tag_source := source |}
  = Some (Some contentType, Some dataType)
  /\
  body_types {| tag_tag := tag; tag_name := "{" +:+ dataType +:+ "}";
                tag_type := contentType; tag_description := description;
                tag_line := line; tag_source := source |}
  = Some (Some contentType, Some dataType).
Proof.
  intros Htruthy Hdata Hcontent Hdata_line Hcontent_line.
  assert (Hct : Js.truthy contentType = true) by (now destruct contentType).
  unfold body_types. cbn [tag_type tag_name].
  rewrite Htruthy, Hdata, Hct, Hcontent.
  change ("{" +:+ contentType +:+ "}") with (String "{" (contentType +:+ "}")).
  change ("{" +:+ dataType +:+ "}") with (String "{" (dataType +:+ "}")).
  cbn [Js.truthy brace_content].
  rewrite (before_closing_brace_append _ Hdata_line),
          (before_closing_brace_append _ Hcontent_line), Hdata, Hcontent.
  now split.
Qed.

Lemma body_tag_brackets_in_either_order_witness :
  body_types Demo.tag_body_example = Some (Some "application/json", Some "ExampleBody")
  /\
  body_types {| tag_tag := "body"; tag_name := "{ExampleBody}";
                tag_type := "application/json"; tag_description := EmptyString;
                tag_line := 3; tag_source := "@body {ExampleBody} {application/json}" |}
  = Some (Some "application/json", Some "ExampleBody").
Proof.
  apply (body_tag_brackets_in_either_order "ExampleBody" "application/json" "body"
           EmptyString "@body {ExampleBody} {application/json}" 3); reflexivity.
Defined.

(** ** Example synthesis on nested schemas (createSchemaExample) *)

(** Induction on schemas, with the hypothesis on every schema nested one
    level down. *)
Lemma Schema_induction (Q : Schema -> Prop) :
  (forall ty properties additionalProperties items,
      Forall (fun p => Q (snd p)) (default [] properties) ->
      match additionalProperties with
      | APSchema extra => Q extra
      | _ => True
      end ->
      match items with
      | ItemsOne item => Q item
      | ItemsMany l => Forall Q l
      | ItemsAbsent => True
      end ->
      Q (MkSchema ty properties additionalProperties items)) ->
  forall schema, Q schema.
Proof.
  intros Hstep. fix IH 1. intros [ty properties additionalProperties items].
  apply Hstep.
  - destruct properties as [props|]; [|constructor]. cbn [default].
    induction props as [|[prop sub] props IHprops]; constructor; [apply IH|exact IHprops].
  - destruct additionalProperties; [exact I|exact I|apply IH].
  - destruct items as [|item|l]; [exact I|apply IH|].
    induction l as [|item l IHl]; constructor; [apply IH|exact IHl].
Qed.

Section NestedSynthesis.

Context (P : Platform) (config : Config).

Let examples := examples_response (cfg_examples config).
Let defaults := cfg_defaults config.
Let synth := createSchemaExample P config.

(** The [object] case. *)
Lemma createSchemaExample_object
  (ty : SchemaType) (properties : option (list (string * Schema)))
  (additionalProperties : AdditionalOf Schema) (items : ItemsOf Schema)
  (name : option string) :
  kind_of (effective_type ty) = KObject ->
  synth (MkSchema ty properties additionalProperties items) name
  = match match properties with
          | Some props => reduce_properties synth props []
          | None => Return []
          end with
    | Throw e => Throw e
    | Return obj =>
        match additionalProperties with
        | APSchema extra =>
            match synth extra None with
            | Return v => Return (JObj (obj_set (default_jsonKey defaults) v obj))
            | Throw e => Throw e
            end
        | _ => Return (JObj obj)
        end
    end.
Proof. intros H. unfold synth. cbn [createSchemaExample]. now rewrite H. Qed.

(** The [array] case. *)
Lemma createSchemaExample_array
  (ty : SchemaType) (properties : option (list (string * Schema)))
  (additionalProperties : AdditionalOf Schema) (items : ItemsOf Schema)
  (name : option string) :
  kind_of (effective_type ty) = KArray ->
  synth (MkSchema ty properties additionalProperties items) name
  = match named_example examples name with
    | Some ex => Return ex
    | None =>
        match items with
        | ItemsMany l =>
            match map_items synth l with
            | Return vs => Return (JArr vs)
            | Throw e => Throw e
            end
        | ItemsOne item =>
            match synth item None with
            | Return v => Return (JArr [v])
            | Throw e => Throw e
            end
        | ItemsAbsent => Throw (Error "Cannot read property 'type' of undefined")
        end
    end.
Proof. intros H. unfold synth. cbn [createSchemaExample]. now rewrite H. Qed.

Lemma reduce_properties_returns (props : list (string * Schema)) :
  Forall (fun p => forall name, exists v, synth (snd p) name = Return v) props ->
  forall obj, exists obj', reduce_properties synth props obj = Return obj'.
Proof.
  induction 1 as [|[prop sub] props Hsub _ IH]; intros obj.
  - now exists obj.
  - cbn [reduce_properties]. destruct (Hsub (Some prop)) as [v Hv].
    cbn [snd] in Hv. rewrite Hv. apply IH.
Qed.

Lemma map_items_returns (l : list Schema) :
  Forall (fun item => forall name, exists v, synth item name = Return v) l ->
  exists vs, map_items synth l = Return vs.
Proof.
  induction 1 as [|item l Hitem _ [vs IH]].
  - now exists [].
  - cbn [map_items]. destruct (Hitem None) as [v ->]. rewrite IH. now eexists.
Qed.

(** X14. Synthesis succeeds on every schema that is built from the five
    kinds object, array, string, number and boolean and whose arrays
    carry [items], at any depth and under any name: on such a schema
    [createSchemaExample] returns a value and never throws. *)
Theorem createSchemaExample_returns_on_supported_schemas
  (schema : Schema) (name : option string) :
  supported schema = true ->
  exists v, createSchemaExample P config schema name = Return v.
Proof.
  fold synth. revert name.
  induction schema as [ty properties additionalProperties items IHprops IHextra IHitems]
    using Schema_induction.
  intros name Hs. cbn [supported] in Hs.
  destruct (kind_of (effective_type ty)) eqn:Hkind.
  - rewrite (createSchemaExample_object _ _ _ _ _ Hkind).
    apply andb_true_iff in Hs as [Hprops Hextra].
    assert (Hreduce : exists obj,
               match properties with
               | Some props => reduce_properties synth props []
               | None => Return []
               end = Return obj).
    { destruct properties as [props|]; [|now exists []].
      apply reduce_properties_returns. cbn [default] in IHprops.
      rewrite forallb_forall in Hprops.
      apply List.Forall_forall. intros p Hp name'.
      exact (proj1 (List.Forall_forall _ _) IHprops p Hp name' (Hprops p Hp)). }
    destruct Hreduce as [obj ->].
    destruct additionalProperties as [|b|extra]; [now eexists..|].
    destruct (IHextra None Hextra) as [v ->]. now eexists.
  - rewrite (createSchemaExample_array _ _ _ _ _ Hkind).
    destruct (named_example examples name) as [ex|]; [now eexists|].
    destruct items as [|item|l]; [discriminate| |].
    + destruct (IHitems None Hs) as [v ->]. now eexists.
    + assert (Hmap : exists vs, map_items synth l = Return vs).
      { apply map_items_returns. rewrite forallb_forall in Hs.
        apply List.Forall_forall. intros item Hitem name'.
        exact (proj1 (List.Forall_forall _ _) IHitems item Hitem name' (Hs item Hitem)). }
      destruct Hmap as [vs ->]. now eexists.
  - unfold synth. cbn [createSchemaExample]. rewrite Hkind.
    destruct (named_example _ name); now eexists.
  - unfold synth. cbn [createSchemaExample]. rewrite Hkind.
    destruct (named_example _ name); now eexists.
  - unfold synth. cbn [createSchemaExample]. rewrite Hkind.
    destruct (named_example _ name); now eexists.
  - discriminate.
Qed.

Lemma reduce_properties_first_throw
  (pre post : list (string * Schema)) (prop : string) (bad : Schema) (e : Exn) :
  Forall (fun p => exists v, synth (snd p) (Some (fst p)) = Return v) pre ->
  synth bad (Some prop) = Throw e ->
  forall obj, reduce_properties synth (pre ++ (prop, bad) :: post) obj = Throw e.
Proof.
  intros Hpre Hbad. induction Hpre as [|[prop' sub] pre [v Hv] _ IH]; intros obj.
  - cbn [app reduce_properties]. now rewrite Hbad.
  - cbn [app reduce_properties]. cbn [fst snd] in Hv. rewrite Hv. apply IH.
Qed.

(** X15. One property of an unknown kind (say [integer] or [null]) makes
    the synthesis of the whole object fail: when the properties before it
    synthesize, [createSchemaExample] throws "Unexpected type", naming
    the kind and the schema of that property, not those of the object. *)
Theorem unsupported_property_fails_the_object
  (ty : SchemaType) (pre post : list (string * Schema)) (prop : string) (bad : Schema)
  (additionalProperties : AdditionalOf Schema) (items : ItemsOf Schema)
  (name : option string) :
  kind_of (effective_type ty) = KObject ->
  Forall (fun p => exists v,
              createSchemaExample P config (snd p) (Some (fst p)) = Return v) pre ->
  kind_of (effective_type (schema_type bad)) = KOther ->
  createSchemaExample P config
    (MkSchema ty (Some (pre ++ (prop, bad) :: post)) additionalProperties items) name
  = Throw (Error ("Unexpected type " +:+ type_to_string (effective_type (schema_type bad))
                  +:+ " in schema " +:+ JSON_stringify P bad)).
Proof.
  intros Hkind Hpre Hbad. fold synth.
  assert (Hthrow : synth bad (Some prop)
                   = Throw (Error ("Unexpected type "
                                   +:+ type_to_string (effective_type (schema_type bad))
                                   +:+ " in schema " +:+ JSON_stringify P bad))).
  { unfold synth. destruct bad as [ty' props' extra' items']. cbn [schema_type] in *.
    cbn [createSchemaExample]. now rewrite Hbad. }
  rewrite (createSchemaExample_object _ _ _ _ _ Hkind).
  now rewrite (reduce_properties_first_throw pre post prop bad _ Hpre Hthrow).
Qed.

Lemma obj_get_obj_set (k k' : string) (v : JsValue) (o : list (string * JsValue)) :
  obj_get k (obj_set k' v o) = if String.eqb k' k then Some v else obj_get k o.
Proof.
  induction o as [|[k0 v0] o IH].
  - cbn. now destruct (String.eqb k' k).
  - cbn [obj_set]. destruct (String.eqb k0 k') eqn:E.
    + apply String.eqb_eq in E. subst k0. cbn [obj_get].
      now destruct (String.eqb k' k).
    + cbn [obj_get]. rewrite IH. destruct (String.eqb k0 k) eqn:E0; [|reflexivity].
      apply String.eqb_eq in E0. subst k0. now rewrite String.eqb_sym, E.
Qed.

(** X16. An object schema with a schema for additional properties gets
    one entry more than the same schema without it: the example of the
    additional-properties schema under the key [config.defaults.jsonKey].
    The entry replaces a declared property of that name and leaves every
    other key as it is; a boolean [additionalProperties] adds nothing. *)
Theorem additionalProperties_add_the_json_key
  (ty : SchemaType) (properties : option (list (string * Schema)))
  (extra : Schema) (items : ItemsOf Schema) (name : option string)
  (obj : list (string * JsValue)) (v : JsValue) :
  kind_of (effective_type ty) = KObject ->
  createSchemaExample P config (MkSchema ty properties APAbsent items) name
  = Return (JObj obj) ->
  createSchemaExample P config extra None = Return v ->
  createSchemaExample P config (MkSchema ty properties (APSchema extra) items) name
  = Return (JObj (obj_set (default_jsonKey defaults) v obj)) /\
  obj_get (default_jsonKey defaults) (obj_set (default_jsonKey defaults) v obj) = Some v /\
  (forall k, k <> default_jsonKey defaults ->
             obj_get k (obj_set (default_jsonKey defaults) v obj) = obj_get k obj) /\
  (forall b, createSchemaExample P config (MkSchema ty properties (APBool b) items) name
             = Return (JObj obj)).
Proof.
  intros Hkind Hplain Hextra. fold synth in Hplain, Hextra |- *.
  assert (Hbool : forall b, synth (MkSchema ty properties (APBool b) items) name
                            = synth (MkSchema ty properties APAbsent items) name).
  { intros b. now rewrite !(createSchemaExample_object _ _ _ _ _ Hkind). }
  split; [|split; [|split]].
  - rewrite (createSchemaExample_object ty properties APAbsent items name Hkind) in Hplain.
    rewrite (createSchemaExample_object ty properties (APSchema extra) items name Hkind).
    destruct (match properties with
              | Some props => reduce_properties synth props []
              | None => Return []
              end) as [obj0|e]; [|discriminate].
    injection Hplain as <-. now rewrite Hextra.
  - now rewrite obj_get_obj_set, String.eqb_refl.
  - intros k Hk. rewrite obj_get_obj_set.
    destruct (String.eqb (default_jsonKey defaults) k) eqn:E; [|reflexivity].
    apply String.eqb_eq in E. congruence.
  - intros b. now rewrite Hbool.
Qed.

(** X17. A response example registered under a non-empty property name
    replaces the synthesized value of a property of kind array, number,
    string or boolean, whatever the schema of the property says (its
    kind may differ from the example's, an array may lack [items]).  A
    property of kind object ignores the examples: it is synthesized as if
    it had no name. *)
Theorem named_examples_override_all_but_objects
  (schema : Schema) (name : string) (ex : JsValue) :
  (kind_of (effective_type (schema_type schema)) = KArray
   \/ kind_of (effective_type (schema_type schema)) = KNumber
   \/ kind_of (effective_type (schema_type schema)) = KString
   \/ kind_of (effective_type (schema_type schema)) = KBoolean ->
   Js.truthy name = true ->
   examples !! name = Some ex ->
   createSchemaExample P config schema (Some name) = Return ex)
  /\
  (kind_of (effective_type (schema_type schema)) = KObject ->
   createSchemaExample P config schema (Some name)
   = createSchemaExample P config schema None).
Proof.
  destruct schema as [ty properties additionalProperties items]. cbn [schema_type].
  split.
  - intros Hkind Hname Hex. cbn [createSchemaExample].
    assert (Hnamed : named_example (examples_response (cfg_examples config)) (Some name)
                     = Some ex).
    { unfold named_example. now rewrite Hname. }
    destruct Hkind as [-> |[-> |[-> | ->]]]; now rewrite Hnamed.
  - intros Hkind. fold synth.
    now rewrite !(createSchemaExample_object _ _ _ _ _ Hkind).
Qed.

Lemma map_items_Forall2 (l : list Schema) (vs : list JsValue) :
  Forall2 (fun item v => synth item None = Return v) l vs ->
  map_items synth l = Return vs.
Proof.
  induction 1 as [|item v l vs Hv _ IH]; [reflexivity|].
  cbn [map_items]. now rewrite Hv, IH.
Qed.

(** X18. Without an example registered for its name, an array schema is
    synthesized from its [items]: a single item schema gives an array of
    one element, a tuple of item schemas gives the array of their
    examples, one per schema in order, each synthesized without a name,
    and an array schema without [items] throws. *)
Theorem createSchemaExample_arrays
  (ty : SchemaType) (properties : option (list (string * Schema)))
  (additionalProperties : AdditionalOf Schema) (name : option string) :
  kind_of (effective_type ty) = KArray ->
  named_example examples name = None ->
  (forall item v,
      createSchemaExample P config item None = Return v ->
      createSchemaExample P config
        (MkSchema ty properties additionalProperties (ItemsOne item)) name
      = Return (JArr [v]))
  /\
  (forall l vs,
      Forall2 (fun item v => createSchemaExample P config item None = Return v) l vs ->
      createSchemaExample P config
        (MkSchema ty properties additionalProperties (ItemsMany l)) name
      = Return (JArr vs))
  /\
  (exists message,
      createSchemaExample P config
        (MkSchema ty properties additionalProperties ItemsAbsent) name
      = Throw (Error message)).
Proof.
  intros Hkind Hnamed. fold synth. split; [|split].
  - intros item v Hv. rewrite (createSchemaExample_array _ _ _ _ _ Hkind), Hnamed.
    now rewrite Hv.
  - intros l vs Hvs. rewrite (createSchemaExample_array _ _ _ _ _ Hkind), Hnamed.
    now rewrite (map_items_Forall2 l vs Hvs).
  - eexists. rewrite (createSchemaExample_array _ _ _ _ _ Hkind), Hnamed. reflexivity.
Qed.

End NestedSynthesis.

Lemma createSchemaExample_returns_on_supported_schemas_witness :
  exists v,
    createSchemaExample Demo.platform Demo.config Demo.pairs_schema None = Return v
    /\ v = JArr [JArr [JStr "abcd"; JNum 1234]].
Proof.
  destruct (createSchemaExample_returns_on_supported_schemas
              Demo.platform Demo.config Demo.pairs_schema None) as [v Hv];
    [reflexivity|].
  exists v. split; [exact Hv|].
  vm_compute in Hv. now injection Hv as <-.
Defined.

Lemma unsupported_property_fails_the_object_witness :
  createSchemaExample Demo.platform Demo.config
    (MkSchema (TyName "object")
              (Some ([("hello", Demo.string_schema)]
                     ++ ("id", Demo.integer_schema) :: [("something", Demo.number_schema)]))
              APAbsent ItemsAbsent) None
  = Throw (Error "Unexpected type integer in schema <schema>").
Proof.
  apply (unsupported_property_fails_the_object Demo.platform Demo.config
           (TyName "object") [("hello", Demo.string_schema)]
           [("something", Demo.number_schema)] "id" Demo.integer_schema).
  - reflexivity.
  - constructor; [|constructor]. eexists. vm_compute. reflexivity.
  - reflexivity.
Defined.

Lemma additionalProperties_add_the_json_key_witness :
  createSchemaExample Demo.platform Demo.config Demo.Dictionary None
  = Return (JObj [("name", JStr "abcd"); ("key", JNum 1234)]).
Proof.
  apply (additionalProperties_add_the_json_key Demo.platform Demo.config
           (TyName "object") (Some [("name", Demo.string_schema)]) Demo.number_schema
           ItemsAbsent None [("name", JStr "abcd")] (JNum 1234)).
  - reflexivity.
  - vm_compute. reflexivity.
  - vm_compute. reflexivity.
Defined.

Lemma named_examples_override_all_but_objects_witness :
  createSchemaExample Demo.platform Demo.config Demo.number_schema (Some "firstname")
  = Return (JStr "John")
  /\
  createSchemaExample Demo.platform Demo.config Demo.ExampleBody (Some "firstname")
  = createSchemaExample Demo.platform Demo.config Demo.ExampleBody None.
Proof.
  destruct (named_examples_override_all_but_objects Demo.platform Demo.config
              Demo.number_schema "firstname" (JStr "John")) as [Hnumber _].
  destruct (named_examples_override_all_but_objects Demo.platform Demo.config
              Demo.ExampleBody "firstname" (JStr "John")) as [_ Hobject].
  split.
  - apply Hnumber.
    + right. left. reflexivity.
    + reflexivity.
    + vm_compute. reflexivity.
  - apply Hobject. reflexivity.
Defined.

Lemma createSchemaExample_arrays_witness :
  createSchemaExample Demo.platform Demo.config
    (MkSchema (TyName "array") None APAbsent
              (ItemsMany [Demo.string_schema; Demo.number_schema])) (Some "pair")
  = Return (JArr [JStr "abcd"; JNum 1234])
  /\
  exists message,
    createSchemaExample Demo.platform Demo.config
      (MkSchema (TyName "array") None APAbsent ItemsAbsent) (Some "pair")
    = Throw (Error message).
Proof.
  destruct (createSchemaExample_arrays Demo.platform Demo.config (TyName "array") None
              APAbsent (Some "pair")) as (_ & Htuple & Habsent).
  - reflexivity.
  - vm_compute. reflexivity.
  - split; [|exact Habsent].
    apply Htuple. repeat constructor.
Defined.

(** ** The sections of the output *)

Lemma append_assoc (a b c : string) : (a +:+ b) +:+ c = a +:+ b +:+ c.
Proof.
  induction a as [|x a IH]; [reflexivity|].
  rewrite !append_cons. now rewrite IH.
Qed.

Lemma indent_rest_append (indent a b : string) :
  indent_rest indent (a +:+ b) = indent_rest indent a +:+ indent_rest indent b.
Proof.
  induction a as [|c a IH]; [reflexivity|].
  rewrite append_cons. cbn [indent_rest].
  destruct (Js.eqc c Js.newline); rewrite IH, !append_cons; [|reflexivity].
  now rewrite append_assoc.
Qed.

Lemma indent_rest_single_line (indent s : string) :
  Js.includes Js.newline s = false -> indent_rest indent s = s.
Proof.
  induction s as [|c s IH]; [reflexivity|].
  cbn [Js.includes indent_rest]. intros H. apply orb_false_iff in H as [Hc Hs].
  now rewrite Hc, (IH Hs).
Qed.

(** X19. Indenting a text indents each of its lines: a text without
    line break gets the indent in front, and the indented form of two
    texts joined by a line break is the two indented forms joined by a
    line break.  So the number of lines is kept and no line is left
    without indent, an empty last line included. *)
Theorem indent_lines_indents_every_line (indent : string) :
  (forall line, Js.includes Js.newline line = false ->
                indent_lines indent line = indent +:+ line)
  /\
  (forall first rest,
      indent_lines indent (first +:+ nl +:+ rest)
      = indent_lines indent first +:+ nl +:+ indent_lines indent rest).
Proof.
  split.
  - intros line Hline. unfold indent_lines. now rewrite indent_rest_single_line.
  - intros first rest. unfold indent_lines.
    rewrite indent_rest_append, append_assoc. reflexivity.
Qed.

Lemma indent_lines_indents_every_line_witness :
  indent_lines "    " "{" = "    {" /\
  indent_lines "    " ("{" +:+ nl +:+ "}") = "    {" +:+ nl +:+ "    }".
Proof.
  split.
  - apply (proj1 (indent_lines_indents_every_line "    ")). reflexivity.
  - rewrite (proj2 (indent_lines_indents_every_line "    ") "{" "}").
    reflexivity.
Defined.

Lemma is_response_heading_heading (s : string) :
  is_response_heading (nl +:+ "+ Response " +:+ s) = true.
Proof. reflexivity. Qed.

Lemma written_flat_map {A} (f : A -> list Event) (l : list A) :
  written (flat_map f l) = flat_map (fun x => written (f x)) l.
Proof.
  induction l as [|x l IH]; [reflexivity|].
  cbn [flat_map]. now rewrite written_app, IH.
Qed.

Lemma filter_flat_map {A B} (p : B -> bool) (f : A -> list B) (l : list A) :
  List.filter p (flat_map f l) = flat_map (fun x => List.filter p (f x)) l.
Proof.
  induction l as [|x l IH]; [reflexivity|].
  cbn [flat_map]. now rewrite List.filter_app, IH.
Qed.

Section OutputSections.

Context (P : Platform).

Lemma emitResponse_one_heading (res : Response) :
  List.filter is_response_heading (written (events (emitResponse P res)))
  = [nl +:+ "+ Response " +:+ number_text P (res_code res)].
Proof.
  unfold emitResponse. rewrite bind_write.
  cbn [events fst written flat_map app List.filter].
  rewrite is_response_heading_heading. f_equal.
  destruct (match res_type res with
            | Some t => (Js.truthy t && negb (String.eqb t "text/plain"))%bool
            | None => false
            end);
    destruct (js_truthy (res_body res)); destruct (res_schema res); reflexivity.
Qed.

(** X20. The responses of a route are emitted one section each, in the
    order of the Block's [responses]: among the chunks written for them,
    those that open a response section are exactly the headings
    [+ Response <code>] of the responses, in order. *)
Theorem response_sections_in_order (responses : list Response) :
  List.filter is_response_heading
    (written (events (forEach (emitResponse P) responses)))
  = map (fun res => nl +:+ "+ Response " +:+ number_text P (res_code res)) responses.
Proof.
  rewrite (forEach_total _ _ (emitResponse_total P)). cbn [events fst].
  rewrite written_flat_map, filter_flat_map.
  induction responses as [|res responses IH]; [reflexivity|].
  cbn [flat_map map]. now rewrite emitResponse_one_heading, IH.
Qed.

End OutputSections.

(** ** One placeholder (formatPath) *)

Lemma formatPath_colon_free_prefix (pre s : string) :
  Js.includes Js.colon pre = false -> formatPath (pre +:+ s) = pre +:+ formatPath s.
Proof.
  induction pre as [|c pre IH]; [reflexivity|].
  cbn [Js.includes]. intros H. apply orb_false_iff in H as [Hc Hpre].
  rewrite !append_cons, formatPath_other by exact Hc. now rewrite (IH Hpre).
Qed.

Lemma formatPath_group_name (name rest : string) :
  Js.includes Js.slash name = false ->
  starts_group rest = false ->
  formatPath_group (name +:+ rest) = name +:+ "}" +:+ formatPath rest.
Proof.
  intros Hname Hrest. induction name as [|c name IH].
  - destruct rest as [|d rest]; [reflexivity|].
    cbn [starts_group] in Hrest. apply negb_false_iff in Hrest.
    change (EmptyString +:+ ?x) with x. cbn [formatPath_group]. rewrite Hrest.
    apply eqc_eq in Hrest. subst d. reflexivity.
  - cbn [Js.includes] in Hname. apply orb_false_iff in Hname as [Hc Hname].
    rewrite !append_cons. cbn [formatPath_group]. now rewrite Hc, (IH Hname).
Qed.

(** X21. A placeholder [:name] whose name ends at the next [/] or at the
    end of the path becomes [{name}]; the text before it, when it holds
    no colon, is copied, and the conversion goes on behind it.  A path
    without colon is left as it is. *)
Theorem formatPath_rewrites_a_placeholder :
  (forall pre name rest,
      Js.includes Js.colon pre = false ->
      name <> EmptyString ->
      Js.includes Js.slash name = false ->
      starts_group rest = false ->
      formatPath (pre +:+ ":" +:+ name +:+ rest)
      = pre +:+ "{" +:+ name +:+ "}" +:+ formatPath rest)
  /\
  (forall path, Js.includes Js.colon path = false -> formatPath path = path).
Proof.
  split.
  - intros pre name rest Hpre Hne Hname Hrest.
    rewrite (formatPath_colon_free_prefix _ _ Hpre). f_equal.
    change (":" +:+ name +:+ rest) with (String Js.colon (name +:+ rest)).
    assert (Hstart : starts_group (name +:+ rest) = true).
    { destruct name as [|c name]; [congruence|].
      cbn [Js.includes] in Hname. apply orb_false_iff in Hname as [Hc _].
      rewrite append_cons. cbn [starts_group]. now rewrite Hc. }
    cbn [formatPath]. rewrite Hstart. cbn [Js.eqc Ascii.eqb andb].
    change (Js.eqc Js.colon Js.colon) with true. cbn [andb].
    now rewrite (formatPath_group_name _ _ Hname Hrest).
  - intros path Hpath.
    rewrite <- (append_empty path) at 1.
    rewrite (formatPath_colon_free_prefix _ _ Hpath). apply append_empty.
Qed.

Lemma formatPath_rewrites_a_placeholder_witness :
  formatPath ("/user/" +:+ ":" +:+ "id" +:+ "/posts")
  = "/user/" +:+ "{" +:+ "id" +:+ "}" +:+ "/posts"
  /\ formatPath "/greet" = "/greet".
Proof.
  destruct formatPath_rewrites_a_placeholder as [Hplaceholder Hplain].
  split.
  - rewrite (Hplaceholder "/user/" "id" "/posts"); [reflexivity..|discriminate| |];
      reflexivity.
  - apply Hplain. reflexivity.
Defined.

(** ** The defaults of a configuration (validateConfig) *)

Lemma checked_default_jsonKey (defaults : list (string * JsValue)) (fallback : JsValue) :
  checked_default defaults "jsonKey" fallback = fallback.
Proof.
  unfold checked_default. destruct (obj_get "jsonKey" defaults) as [[]|]; reflexivity.
Qed.

Lemma checked_default_number (defaults : list (string * JsValue)) (fallback : Z) :
  exists n, checked_default defaults "number" (JNum fallback) = JNum n
            /\ forall m, obj_get "number" defaults = Some (JNum m) -> n = m.
Proof.
  unfold checked_default. destruct (obj_get "number" defaults) as [[]|]; cbn;
    eexists; (split; [reflexivity|]); intros m; congruence.
Qed.

Lemma checked_default_string (defaults : list (string * JsValue)) (fallback : string) :
  exists s, checked_default defaults "string" (JStr fallback) = JStr s
            /\ forall t, obj_get "string" defaults = Some (JStr t) -> s = t.
Proof.
  unfold checked_default. destruct (obj_get "string" defaults) as [[]|]; cbn;
    eexists; (split; [reflexivity|]); intros m; congruence.
Qed.

Lemma checked_default_boolean (defaults : list (string * JsValue)) (fallback : bool) :
  exists b, checked_default defaults "boolean" (JBool fallback) = JBool b
            /\ forall c, obj_get "boolean" defaults = Some (JBool c) -> b = c.
Proof.
  unfold checked_default. destruct (obj_get "boolean" defaults) as [[]|]; cbn;
    eexists; (split; [reflexivity|]); intros m; congruence.
Qed.

(** X22. The defaults that [validateConfig] returns are always well
    typed: [number] is a number, [string] a string, [boolean] a boolean,
    a configured value of the right type being kept and any other
    replaced by the built-in default.  The key [jsonKey] is always the
    built-in ["key"]: the loop compares [typeof] of the configured value
    with the name [jsonKey], which no [typeof] equals, so a configured
    [jsonKey] is never used. *)
Theorem validateConfig_defaults_are_typed
  (config : JsValue) (defaults : list (string * JsValue)) :
  validateConfig_defaults config = Return defaults ->
  obj_get "jsonKey" defaults = Some (JStr "key") /\
  (exists n, obj_get "number" defaults = Some (JNum n)
             /\ forall fields m, js_get config "defaults" = Some (JObj fields) ->
                                 obj_get "number" fields = Some (JNum m) -> n = m) /\
  (exists s, obj_get "string" defaults = Some (JStr s)
             /\ forall fields t, js_get config "defaults" = Some (JObj fields) ->
                                 obj_get "string" fields = Some (JStr t) -> s = t) /\
  (exists b, obj_get "boolean" defaults = Some (JBool b)
             /\ forall fields c, js_get config "defaults" = Some (JObj fields) ->
                                 obj_get "boolean" fields = Some (JBool c) -> b = c).
Proof.
  unfold validateConfig_defaults.
  destruct config as [| | | | |fields0]; try (cbn; discriminate).
  destruct (js_get (JObj fields0) "output") as [[]|]; try discriminate.
  intros [= <-].
  unfold validateDefaults, defaultDefaults. cbn [fold_left js_get].
  remember (match obj_get "defaults" fields0 with
            | Some (JObj fields) => fields
            | _ => []
            end) as given eqn:Egiven.
  assert (Hgiven : forall fields, obj_get "defaults" fields0 = Some (JObj fields) ->
                                  fields = given).
  { intros fields H. rewrite H in Egiven. now subst given. }
  clear Egiven.
  rewrite !obj_get_obj_set. cbn [String.eqb Ascii.eqb Bool.eqb andb].
  split; [now rewrite checked_default_jsonKey|].
  split; [|split].
  - destruct (checked_default_number given 0) as (n & -> & Hkept).
    exists n. split; [reflexivity|]. intros fields m Hfields.
    rewrite (Hgiven fields Hfields). apply Hkept.
  - match goal with
    | |- context [checked_default ?d "string" _] =>
        destruct (checked_default_string d "abcd") as (s' & -> & Hkept)
    end.
    exists s'. split; [reflexivity|]. intros fields t Hfields Ht.
    apply Hkept. rewrite obj_get_obj_set. cbn [String.eqb Ascii.eqb Bool.eqb andb].
    now rewrite <- (Hgiven fields Hfields).
  - match goal with
    | |- context [checked_default ?d "boolean" _] =>
        destruct (checked_default_boolean d true) as (b & -> & Hkept)
    end.
    exists b. split; [reflexivity|]. intros fields c Hfields Hc.
    apply Hkept. rewrite !obj_get_obj_set. cbn [String.eqb Ascii.eqb Bool.eqb andb].
    now rewrite <- (Hgiven fields Hfields).
Qed.

Lemma validateConfig_defaults_are_typed_witness :
  validateConfig_defaults Demo.docconfig
  = Return [("string", JStr "text"); ("number", JNum 0); ("jsonKey", JStr "key");
            ("other", JNum 7); ("boolean", JBool true)]
  /\ obj_get "jsonKey" [("string", JStr "text"); ("number", JNum 0); ("jsonKey", JStr "key");
                        ("other", JNum 7); ("boolean", JBool true)]
     = Some (JStr "key").
Proof.
  split; [vm_compute; reflexivity|].
  apply (validateConfig_defaults_are_typed Demo.docconfig).
  vm_compute. reflexivity.
Defined.

(** ** The Block of a route and the order of discovery *)

Lemma mapM_Return_inv {A B} (f : A -> M B) (l : list A) (ys : list B) :
  outcome (mapM f l) = Return ys ->
  Forall2 (fun x y => outcome (f x) = Return y) l ys.
Proof.
  revert ys. induction l as [|x l IH]; intros ys.
  - cbn. intros [= <-]. constructor.
  - rewrite mapM_cons. intros (y & Hy & H)%bind_Return_inv.
    apply bind_Return_inv in H as (ys' & Hys & H).
    cbn in H. injection H as <-. constructor; [exact Hy|now apply IH].
Qed.

Section BlockProperties.

Context (P : Platform) (config : Config).

Lemma parseResponse_Return_code (pos : Position) (tag : Tag) (r : Response) :
  outcome (parseResponse P config pos tag) = Return r ->
  Js.parseInt (tag_name tag) = Some (res_code r).
Proof.
  unfold parseResponse.
  destruct (Js.parseInt (tag_name tag)) as [code|]; [|discriminate].
  intros (resolved & _ & H)%bind_Return_inv.
  destruct resolved as [schema body]. cbn in H. now injection H as <-.
Qed.

(** X23. The Block of a documented route mirrors the call and the first
    documentation block in front of it: method and path are those of the
    call, the title is a single line, there is one Response per
    [@response] tag, in tag order and with the status code of its tag,
    and there is a request body exactly when there is a [@body] tag, of
    which there is at most one. *)
Theorem handleKoaRouter_block_mirrors_comment
  (node : CallExpr) (sourceFile : SourceFile) (block : Block) :
  outcome (handleKoaRouter P config node sourceFile) = Return (Some block) ->
  exists comment others,
    parse P (commentText P sourceFile node) = comment :: others /\
    blk_method block = method_text node /\
    blk_path block = path_text node /\
    Js.includes Js.newline (blk_title block) = false /\
    Forall2 (fun tag res => Js.parseInt (tag_name tag) = Some (res_code res))
            (List.filter (is_tag "response") (comment_tags comment))
            (blk_responses block) /\
    (length (List.filter (is_tag "body") (comment_tags comment)) <= 1)%nat /\
    (blk_body block = None <-> List.filter (is_tag "body") (comment_tags comment) = []).
Proof.
  unfold handleKoaRouter.
  destruct (parse P _) as [|comment others]; [discriminate|].
  pose proof (splitByFirstNewline_spec (comment_description comment)) as (Htitle & _ & _).
  destruct (splitByFirstNewline (comment_description comment)) as [title rawDesc].
  cbn [fst] in Htitle.
  intros H. exists comment, others. split; [reflexivity|].
  apply bind_Return_inv in H as (responses & Hresponses & H).
  destruct (Nat.ltb 1 _) eqn:Hbodies; [discriminate|].
  apply Nat.ltb_ge in Hbodies.
  apply bind_Return_inv in H as (body & Hbody & H).
  injection H as <-. cbn [blk_method blk_path blk_title blk_responses blk_body].
  repeat split; try assumption.
  - apply mapM_Return_inv in Hresponses.
    eapply Forall2_impl; [exact Hresponses|].
    intros tag res. apply parseResponse_Return_code.
  - intros ->. destruct (List.filter (is_tag "body") (comment_tags comment)) as [|b bs];
      [reflexivity|].
    apply bind_Return_inv in Hbody as (rb & _ & Hbody). discriminate.
  - intros Hnone. rewrite Hnone in Hbody. cbn in Hbody. congruence.
Qed.

(** The routes collected so far are kept, in place and in order. *)
Lemma push_to_extends (sym : Symbol) (route : Block) (m : RouterMap) :
  (exists keys, map fst (push_to Nat.eqb sym route m) = map fst m ++ keys) /\
  (forall other, exists more,
      routes_of other (push_to Nat.eqb sym route m) = routes_of other m ++ more).
Proof.
  split.
  - rewrite push_to_keys. destruct (existsb _ _); [exists []; now rewrite app_nil_r|].
    now eexists.
  - intros other. destruct (Nat.eq_dec other sym) as [-> |Hne].
    + rewrite routes_of_push_to_same. now eexists.
    + rewrite (routes_of_push_to_other sym other route m Hne).
      exists []. now rewrite app_nil_r.
Qed.

Lemma lookForRoutes_extends (sf : SourceFile) (node : Node) :
  forall m m',
    outcome (lookForRoutes P config sf node m) = Return m' ->
    (exists keys, map fst m' = map fst m ++ keys) /\
    (forall sym, exists more, routes_of sym m' = routes_of sym m ++ more).
Proof.
  induction node as [kind children IH] using Node_induction.
  assert (Hchildren : forall m m',
             outcome (foldM (lookForRoutes P config sf) children m) = Return m' ->
             (exists keys, map fst m' = map fst m ++ keys) /\
             (forall sym, exists more, routes_of sym m' = routes_of sym m ++ more)).
  { induction IH as [|child children Hchild _ IHchildren]; intros m m'.
    - cbn. intros [= <-]. split; [exists []|intros sym; exists []]; now rewrite app_nil_r.
    - rewrite foldM_cons. intros (m1 & H1 & H2)%bind_Return_inv.
      destruct (Hchild m m1 H1) as [[keys1 Hk1] Hr1].
      destruct (IHchildren m1 m' H2) as [[keys2 Hk2] Hr2]. split.
      + exists (keys1 ++ keys2). now rewrite Hk2, Hk1, app_assoc.
      + intros sym. destruct (Hr1 sym) as [more1 Hm1]. destruct (Hr2 sym) as [more2 Hm2].
        exists (more1 ++ more2). now rewrite Hm2, Hm1, app_assoc. }
  intros m m'. cbn [lookForRoutes].
  destruct kind as [callexpr|]; [|apply Hchildren].
  intros ([|] & _ & H)%bind_Return_inv; [|exact (Hchildren _ _ H)].
  apply bind_Return_inv in H as (route & _ & H).
  destruct (receiverSymbol callexpr) as [sym|]; [|discriminate].
  destruct route as [r|].
  - destruct (Hchildren _ _ H) as [[keys2 Hk2] Hr2].
    destruct (push_to_extends sym r m) as [[keys1 Hk1] Hr1]. split.
    + exists (keys1 ++ keys2). rewrite app_assoc, <- Hk1. exact Hk2.
    + intros s. destruct (Hr1 s) as [more1 Hm1]. destruct (Hr2 s) as [more2 Hm2].
      exists (more1 ++ more2). rewrite app_assoc, <- Hm1. exact Hm2.
  - cbn in H. injection H as <-.
    split; [exists []|intros s; exists []]; now rewrite app_nil_r.
Qed.

(** X24. The scan only appends: going through a node, it keeps the
    router variables met so far in their order and puts new ones behind
    them, and it keeps the routes of every variable in their order and
    puts new ones behind them.  Routers therefore come out in the order
    in which their variable is first used, and the routes of a Router in
    the order in which the traversal meets them. *)
Theorem scan_keeps_discovery_order
  (sourceFile : SourceFile) (node : Node) (m m' : RouterMap) :
  outcome (lookForRoutes P config sourceFile node m) = Return m' ->
  (exists keys, map fst m' = map fst m ++ keys) /\
  (forall sym, exists more, routes_of sym m' = routes_of sym m ++ more).
Proof. apply lookForRoutes_extends. Qed.

End BlockProperties.

Lemma handleKoaRouter_block_mirrors_comment_witness :
  map res_code (blk_responses Demo.greet_block) = [200; 400] /\
  exists comment others,
    parse Demo.platform Demo.greet_text = comment :: others /\
    Forall2 (fun tag res => Js.parseInt (tag_name tag) = Some (res_code res))
            (List.filter (is_tag "response") (comment_tags comment))
            (blk_responses Demo.greet_block).
Proof.
  split; [reflexivity|].
  destruct (handleKoaRouter_block_mirrors_comment Demo.platform Demo.config
              Demo.greet (Demo.file []) Demo.greet_block)
    as (comment & others & Hparse & _ & _ & _ & Hresponses & _).
  - vm_compute. reflexivity.
  - exists comment, others. split; [exact Hparse|exact Hresponses].
Defined.

Lemma scan_keeps_discovery_order_witness :
  exists keys,
    map fst [(1%nat, [Demo.hello_block "get"]); (2%nat, [Demo.hello_block "post"])]
    = map fst [(1%nat, [Demo.hello_block "get"])] ++ keys.
Proof.
  apply (scan_keeps_discovery_order Demo.platform Demo.config Demo.aliased
           (Demo.route Demo.alias_post) [(1%nat, [Demo.hello_block "get"])]).
  vm_compute. reflexivity.
Defined.
